(** * smartbin: sensor simulation and token ledger

    A shallow embedding of the waste-bin sensor simulation
    (sensors/*.py, main.py) and of the token ledger it drives.

    Conventions of the embedding.
    - Python floats are modelled by exact rationals ([Q]); comparisons,
      [min] and [max] are the Python ones, written out on [Q].  The
      rounding error of binary floating point arithmetic is not modelled:
      the properties of Parts II and III are about order, clamping and
      ranges, not about the exact value of a sum.
    - The pseudo random generator is an explicit stream of the values
      returned by successive calls of [random.random()], each meant to lie
      in the half-open interval from 0 to 1.  [random.uniform] and
      [random.choices] are written on top of it the way CPython's
      [Lib/random.py] computes them.  [random.choice] takes its index from
      the generator's bits in CPython; here the index is read off one
      value of the stream.
    - Exceptions are values of [Result].
    - The wall clock ([get_timestamp]) is an explicit argument. *)

From Stdlib Require Import QArith Qround Qabs Lqa Lia ZArith.
From stdpp Require Import gmap strings list fin_maps.

Local Open Scope string_scope.
Local Open Scope Q_scope.

(* ===================================================================== *)
(** * Part I: the embedding *)
(* ===================================================================== *)

(** ** Python numbers *)

Definition Qleb (x y : Q) : bool := Qle_bool x y.
Definition Qltb (x y : Q) : bool := negb (Qle_bool y x).

(** [min(a, b)] keeps its first argument unless the second is smaller. *)
Definition pymin (a b : Q) : Q := if Qltb b a then b else a.

(** [max(a, b)] keeps its first argument unless the second is larger. *)
Definition pymax (a b : Q) : Q := if Qltb a b then b else a.

(** Nearest integer, ties to the even neighbour. *)
Definition round_half_even (q : Q) : Z :=
  let f := Qfloor q in
  let d := q - inject_Z f in
  if Qltb d (1 # 2) then f
  else if Qltb (1 # 2) d then (f + 1)%Z
  else if Z.even f then f else (f + 1)%Z.

Definition pow10 (n : nat) : Z := (10 ^ Z.of_nat n)%Z.

(** [round(x, ndigits)]. *)
Definition pyround (x : Q) (ndigits : nat) : Q :=
  inject_Z (round_half_even (x * inject_Z (pow10 ndigits)))
  / inject_Z (pow10 ndigits).

(** ** Exceptions *)

Inductive PyExc : Type :=
| KeyError (key : string)
| ValueError (msg : string)
| IndexError
| ZeroDivisionError.

Inductive Result (A : Type) : Type :=
| Ok (a : A)
| Raise (e : PyExc).
Arguments Ok {A} a.
Arguments Raise {A} e.

Definition is_ok {A} (r : Result A) : bool :=
  match r with Ok _ => true | Raise _ => false end.

(** [a / b] on floats. *)
Definition pydiv (a b : Q) : Result Q :=
  if Qeq_bool b 0 then Raise ZeroDivisionError else Ok (a / b).

(** ** The random module *)

(** The generator: the stream of future outputs of [random.random()] and
    the number of values consumed so far. *)
Record Rng : Type := mkRng { draws : nat -> Q; cursor : nat }.

Definition Rand (A : Type) : Type := Rng -> A * Rng.

Definition ret {A} (a : A) : Rand A := fun g => (a, g).
Definition bind {A B} (c : Rand A) (k : A -> Rand B) : Rand B :=
  fun g => let (a, g') := c g in k a g'.

Notation "'let*' x := c 'in' k" := (bind c (fun x => k))
  (at level 10, x name, c at level 100, k at level 200).

(** The k-th value the generator will return next. *)
Definition peek (g : Rng) (k : nat) : Q := draws g (cursor g + k).

Definition unit_draw (r : Q) : Prop := 0 <= r /\ r < 1.

(** [random.random()] *)
Definition random : Rand Q :=
  fun g => (draws g (cursor g), mkRng (draws g) (S (cursor g))).

(** [random.uniform(a, b)] is [a + (b - a) * random()]. *)
Definition uniform_of (a b r : Q) : Q := a + (b - a) * r.
Definition uniform (a b : Q) : Rand Q :=
  let* r := random in ret (uniform_of a b r).

(** [itertools.accumulate(weights)] *)
Fixpoint accumulate_from (acc : Q) (ws : list Q) : list Q :=
  match ws with
  | [] => []
  | w :: ws' => (acc + w) :: accumulate_from (acc + w) ws'
  end.
Definition accumulate (ws : list Q) : list Q := accumulate_from 0 ws.

(** [bisect.bisect_right(a, x, lo, hi)]: the binary search of the
    standard library; [fuel] bounds the number of halvings. *)
Fixpoint bisect_loop (fuel : nat) (a : list Q) (x : Q) (lo hi : nat) : nat :=
  match fuel with
  | O => lo
  | S fuel' =>
      if (lo <? hi)%nat then
        let mid := ((lo + hi) / 2)%nat in
        if Qltb x (nth mid a 0) then bisect_loop fuel' a x lo mid
        else bisect_loop fuel' a x (S mid) hi
      else lo
  end.
Definition bisect (a : list Q) (x : Q) (lo hi : nat) : nat :=
  bisect_loop (S (length a)) a x lo hi.

(** [random.choices(population, weights=weights, k=1)[0]], given the value
    [r] of the one call of [random()] it makes. *)
Definition choices_of {A} (population : list A) (weights : list Q) (r : Q)
  : Result A :=
  let cum_weights := accumulate weights in
  let n := length population in
  if negb (length cum_weights =? n)%nat then
    Raise (ValueError "The number of weights does not match the population")
  else
    match last cum_weights with
    | None => Raise IndexError
    | Some total =>
        if Qleb total 0 then
          Raise (ValueError "Total of weights must be greater than zero")
        else
          match nth_error population
                  (bisect cum_weights (r * total) 0 (n - 1)) with
          | Some x => Ok x
          | None => Raise IndexError
          end
    end.

Definition choices {A} (population : list A) (weights : list Q)
  : Rand (Result A) :=
  let cum_weights := accumulate weights in
  if negb (length cum_weights =? length population)%nat then
    ret (choices_of population weights 0)
  else
    match last cum_weights with
    | None => ret (choices_of population weights 0)
    | Some total =>
        if Qleb total 0 then ret (choices_of population weights 0)
        else let* r := random in ret (choices_of population weights r)
    end.

(** [random.choice(seq)]: [seq[randbelow(len(seq))]].  CPython computes
    [randbelow] from [getrandbits], not from [random()]; here the index
    below [len(seq)] is the next value of the stream scaled to the length,
    which gives every index an interval of the same length.  The position
    in the stream of the draws made after a choice is therefore that of
    the model. *)
Definition randbelow_of (n : nat) (r : Q) : nat :=
  Z.to_nat (Qfloor (r * inject_Z (Z.of_nat n))).
Definition choice_of {A} (seq : list A) (r : Q) : Result A :=
  match nth_error seq (randbelow_of (length seq) r) with
  | Some x => Ok x
  | None => Raise IndexError
  end.
Definition choice {A} (seq : list A) : Rand (Result A) :=
  match seq with
  | [] => ret (Raise IndexError)
  | _ => let* r := random in ret (choice_of seq r)
  end.

(** ** sensors/temperature_sensor.py *)

Module TemperatureSensor.

Record t : Type := mk {
  base_temperature : Q;
  normal_fluctuation : Q;
  anomaly_threshold_high : Q;
  anomaly_threshold_low : Q;
  anomaly_probability : Q;
  normal_readings_before_anomaly : Z;
  current_temperature : Q;
  normal_readings_count : Z
}.

Record Reading : Type := mkReading {
  temperature : Q;
  unit : string;
  isAnomaly : bool;
  anomalyType : string
}.

(** [__init__] *)
Definition init (base_temperature normal_fluctuation
                 anomaly_threshold_high anomaly_threshold_low
                 anomaly_probability : Q)
                (normal_readings_before_anomaly : Z) : t :=
  mk base_temperature normal_fluctuation anomaly_threshold_high
     anomaly_threshold_low anomaly_probability
     normal_readings_before_anomaly base_temperature 0.

(** The constructor's default arguments. *)
Definition default : t := init 22.0 2.0 50.0 0.0 0.05 3.

Definition with_state (self : t) (temp : Q) (count : Z) : t :=
  mk (base_temperature self) (normal_fluctuation self)
     (anomaly_threshold_high self) (anomaly_threshold_low self)
     (anomaly_probability self) (normal_readings_before_anomaly self)
     temp count.

(** The dictionary [read] returns, from the temperature just stored. *)
Definition report (self : t) : Reading :=
  let is_high_anomaly :=
    Qltb (anomaly_threshold_high self) (current_temperature self) in
  let is_low_anomaly :=
    Qltb (current_temperature self) (anomaly_threshold_low self) in
  mkReading (pyround (current_temperature self) 2) "Celsius"
    (is_high_anomaly || is_low_anomaly)
    (if is_high_anomaly then "high"
     else if is_low_anomaly then "low" else "none").

(** [read] *)
Definition read (self : t) : Rand (Reading * t) :=
  let force_anomaly :=
    (normal_readings_before_anomaly self <=? normal_readings_count self)%Z in
  let* is_anomaly :=
    (if force_anomaly then ret true
     else let* r := random in ret (Qltb r (anomaly_probability self))) in
  let* self' :=
    (if (is_anomaly : bool) then
       let* r := random in
       if Qltb r 0.7 then
         let* u := uniform 0 20 in
         ret (with_state self (anomaly_threshold_high self + u) 0)
       else
         let* u := uniform 0 10 in
         ret (with_state self (anomaly_threshold_low self - u) 0)
     else
       let* fluctuation :=
         uniform (- normal_fluctuation self) (normal_fluctuation self) in
       ret (with_state self
              (0.8 * current_temperature self
               + 0.2 * base_temperature self + fluctuation)
              (normal_readings_count self + 1))) in
  ret (report self', self').

(** [set_temperature] *)
Definition set_temperature (self : t) (temperature : Q) : t :=
  with_state self temperature (normal_readings_count self).

End TemperatureSensor.

(** ** Dictionaries written as literals in the source

    A class-level table such as [AQI_CATEGORIES] is a dictionary literal
    whose iteration order is the order of the literal: an association
    list.  [d[k]] raises [KeyError] on a missing key. *)

Fixpoint assoc_get {V} (d : list (string * V)) (k : string) : Result V :=
  match d with
  | [] => Raise (KeyError k)
  | (k', v) :: d' => if String.eqb k' k then Ok v else assoc_get d' k
  end.

Definition keys {V} (d : list (string * V)) : list string := d.*1.
Definition values {V} (d : list (string * V)) : list V := d.*2.

(** ** sensors/fill_level_sensor.py *)

Module FillLevelSensor.

Record t : Type := mk {
  fill_level : Q;
  fill_rate : Q;
  capacity : Q;
  fill_rate_variation : Q;
  overflow_threshold : Q
}.

Record Data : Type := mkData {
  data_value : Q;
  data_unit : string;
  data_status : string
}.

Record Reading : Type := mkReading {
  fillLevel : Q;
  unit : string;
  reading_capacity : Q;
  isFull : bool;
  isOverflowing : bool;
  status : string;
  fillLevelData : Data
}.

(** [__init__] *)
Definition init (initial_fill_level fill_rate capacity
                 fill_rate_variation overflow_threshold : Q) : t :=
  mk (pymin initial_fill_level capacity) fill_rate capacity
     fill_rate_variation overflow_threshold.

Definition default : t := init 10.0 0.05 100.0 0.02 95.0.

Definition with_level (self : t) (level : Q) : t :=
  mk level (fill_rate self) (capacity self) (fill_rate_variation self)
     (overflow_threshold self).

(** [read] *)
Definition read (self : t) : Rand (Reading * t) :=
  let* variation :=
    uniform (- fill_rate_variation self) (fill_rate_variation self) in
  let current_fill_rate := fill_rate self + variation in
  let self' :=
    with_level self
      (pymin (fill_level self + current_fill_rate) (capacity self)) in
  let fill_level := pyround (fill_level self') 2 in
  let is_full := Qleb (overflow_threshold self') fill_level in
  let is_overflowing := Qleb (capacity self') fill_level in
  let status :=
    if is_overflowing then "overflow"
    else if is_full then "full" else "normal" in
  ret (mkReading fill_level "percentage" (capacity self')
         is_full is_overflowing status
         (mkData fill_level "percentage" status),
       self').

(** [set_fill_level] *)
Definition set_fill_level (self : t) (fill_level : Q) : t :=
  with_level self (pymin (pymax 0.0 fill_level) (capacity self)).

(** [empty_bin] *)
Definition empty_bin (self : t) : t := with_level self 0.0.

End FillLevelSensor.

(** ** sensors/gps_sensor.py *)

Module GPSSensor.

Record t : Type := mk {
  latitude : Q;
  longitude : Q;
  movement_range : Q
}.

Record Location : Type := mkLocation {
  lat : Q; lon : Q; alt : Q; accuracy : Q
}.

Record Reading : Type := mkReading {
  reading_latitude : Q;
  reading_longitude : Q;
  location : Location
}.

(** [__init__] *)
Definition init (initial_latitude initial_longitude movement_range : Q)
  : t := mk initial_latitude initial_longitude movement_range.

Definition default : t := init 0.0 0.0 0.0115.

(** [read] *)
Definition read (self : t) : Rand (Reading * t) :=
  let* dlat := uniform (- movement_range self) (movement_range self) in
  let latitude1 := latitude self + dlat in
  let* dlon := uniform (- movement_range self) (movement_range self) in
  let longitude1 := longitude self + dlon in
  let latitude2 := pymax (-90.0) (pymin 90.0 latitude1) in
  let longitude2 := pymax (-180.0) (pymin 180.0 longitude1) in
  let lat := pyround latitude2 6 in
  let lon := pyround longitude2 6 in
  ret (mkReading lat lon (mkLocation lat lon 0.0 5.0),
       mk latitude2 longitude2 (movement_range self)).

(** [set_position] *)
Definition set_position (self : t) (latitude longitude : Q) : t :=
  mk (pymax (-90.0) (pymin 90.0 latitude))
     (pymax (-180.0) (pymin 180.0 longitude))
     (movement_range self).

End GPSSensor.

(** ** sensors/humidity_sensor.py *)

Module HumiditySensor.

Record t : Type := mk {
  base_humidity : Q;
  humidity_variation : Q;
  high_humidity_threshold : Q;
  mold_risk_threshold : Q;
  fill_level_correlation : Q;
  current_humidity : Q
}.

Record Data : Type := mkData {
  data_value : Q;
  data_unit : string;
  data_status : string;
  data_moldRisk : Q
}.

Record Reading : Type := mkReading {
  humidity : Q;
  unit : string;
  isHigh : bool;
  isMoldRisk : bool;
  moldRiskPercentage : Q;
  status : string;
  humidityData : Data
}.

(** [__init__] *)
Definition init (base_humidity humidity_variation high_humidity_threshold
                 mold_risk_threshold fill_level_correlation : Q) : t :=
  mk base_humidity humidity_variation high_humidity_threshold
     mold_risk_threshold fill_level_correlation base_humidity.

Definition default : t := init 50.0 5.0 75.0 80.0 0.6.

Definition with_humidity (self : t) (h : Q) : t :=
  mk (base_humidity self) (humidity_variation self)
     (high_humidity_threshold self) (mold_risk_threshold self)
     (fill_level_correlation self) h.

(** The base value [read] starts from. *)
Definition correlated_base (self : t) (fill_level : option Q) : Q :=
  match fill_level with
  | Some fill_level =>
      let fill_factor :=
        pymin (fill_level / 100.0) 1.0 * fill_level_correlation self in
      base_humidity self + fill_factor * 30.0
  | None => base_humidity self
  end.

(** [read]; the stored humidity is updated before the mold risk is
    computed, so the new state is returned on every path. *)
Definition read (self : t) (fill_level : option Q)
  : Rand (Result Reading * t) :=
  let base_humidity := correlated_base self fill_level in
  let* variation :=
    uniform (- humidity_variation self) (humidity_variation self) in
  let humidity := pymax 0.0 (pymin 100.0 (base_humidity + variation)) in
  let self' := with_humidity self humidity in
  let is_high := Qltb (high_humidity_threshold self) humidity in
  let is_mold_risk := Qltb (mold_risk_threshold self) humidity in
  let mold_risk : Result Q :=
    if Qltb (mold_risk_threshold self) humidity then
      match pydiv (humidity - mold_risk_threshold self)
              (100.0 - mold_risk_threshold self) with
      | Ok ratio => Ok (pymin 100.0 (ratio * 100.0))
      | Raise e => Raise e
      end
    else Ok 0.0 in
  let status :=
    if is_mold_risk then "mold_risk"
    else if is_high then "high" else "normal" in
  ret (match mold_risk with
       | Ok mold_risk =>
           Ok (mkReading (pyround humidity 2) "percentage" is_high
                 is_mold_risk (pyround mold_risk 2) status
                 (mkData (pyround humidity 2) "percentage" status
                    (pyround mold_risk 2)))
       | Raise e => Raise e
       end, self').

(** [set_humidity] *)
Definition set_humidity (self : t) (humidity : Q) : t :=
  with_humidity self (pymax 0.0 (pymin 100.0 humidity)).

End HumiditySensor.

(** ** sensors/odor_sensor.py *)

Module OdorSensor.

Record OdorProps : Type := mkProps {
  description : string;
  intensity_range : Q * Q;
  correlation_with_fill : Q
}.

Definition ODOR_TYPES : list (string * OdorProps) :=
  [ ("organic", mkProps "Decomposing organic waste" (0.1, 1.0) 0.8);
    ("chemical",
     mkProps "Chemical waste or cleaning products" (0.3, 0.9) 0.5);
    ("mold", mkProps "Mold or mildew growth" (0.2, 0.7) 0.6);
    ("none", mkProps "No significant odor" (0.0, 0.1) 0.1) ].

Record t : Type := mk {
  odor_threshold : Q;
  fill_level_correlation : Q;
  odor_variation : Q;
  current_odor_type : string;
  current_intensity : Q
}.

Record Data : Type := mkData {
  data_type : string;
  data_intensity : Q;
  data_status : string
}.

Record Reading : Type := mkReading {
  odorType : string;
  odorDescription : string;
  intensity : Q;
  unit : string;
  isSignificant : bool;
  status : string;
  odorData : Data
}.

(** [__init__] *)
Definition init (odor_threshold fill_level_correlation odor_variation : Q)
  : t := mk odor_threshold fill_level_correlation odor_variation "none" 0.0.

Definition default : t := init 0.6 0.7 0.1.

Definition with_odor (self : t) (odor_type : string) (i : Q) : t :=
  mk (odor_threshold self) (fill_level_correlation self)
     (odor_variation self) odor_type i.

(** The population and the weights handed to [random.choices]. *)
Definition odor_distribution (self : t) (fill_level : option Q)
  : list string * list Q :=
  match fill_level with
  | Some fill_level =>
      let fill_factor :=
        pymin (fill_level / 100.0) 1.0 * fill_level_correlation self in
      if Qltb 0.8 fill_factor then
        (["organic"; "chemical"; "mold"; "none"], [0.5; 0.3; 0.15; 0.05])
      else if Qltb 0.5 fill_factor then
        (["organic"; "chemical"; "mold"; "none"], [0.3; 0.2; 0.3; 0.2])
      else if Qltb 0.2 fill_factor then
        (["organic"; "chemical"; "mold"; "none"], [0.1; 0.2; 0.2; 0.5])
      else
        (["organic"; "chemical"; "mold"; "none"], [0.05; 0.1; 0.1; 0.75])
  | None => (keys ODOR_TYPES, [0.3; 0.2; 0.2; 0.3])
  end.

(** [read]; an exception leaves the sensor as it was. *)
Definition read (self : t) (fill_level : option Q)
  : Rand (Result Reading * t) :=
  let (population, weights) := odor_distribution self fill_level in
  let* chosen := choices population weights in
  match chosen with
  | Raise e => ret (Raise e, self)
  | Ok odor_type =>
      match assoc_get ODOR_TYPES odor_type with
      | Raise e => ret (Raise e, self)
      | Ok props =>
          let (min_intensity, max_intensity) := intensity_range props in
          let* base_intensity := uniform min_intensity max_intensity in
          let* variation :=
            uniform (- odor_variation self) (odor_variation self) in
          let intensity :=
            pymax 0.0 (pymin 1.0 (base_intensity + variation)) in
          let self' := with_odor self odor_type intensity in
          let is_significant := Qltb (odor_threshold self) intensity in
          let status :=
            if is_significant then "significant" else "normal" in
          ret (Ok (mkReading odor_type (description props)
                     (pyround intensity 3) "normalized" is_significant
                     status
                     (mkData odor_type (pyround intensity 3) status)),
               self')
      end
  end.

(** [set_odor] *)
Definition set_odor (self : t) (odor_type : string) (intensity : Q) : t :=
  if is_ok (assoc_get ODOR_TYPES odor_type) then
    with_odor self odor_type (pymax 0.0 (pymin 1.0 intensity))
  else self.

End OdorSensor.

(** ** sensors/air_quality_sensor.py *)

Module AirQualitySensor.

Record CategoryProps : Type := mkProps {
  range : Q * Q;
  color : string
}.

Definition AQI_CATEGORIES : list (string * CategoryProps) :=
  [ ("good", mkProps (0, 50) "green");
    ("moderate", mkProps (51, 100) "yellow");
    ("unhealthy_sensitive", mkProps (101, 150) "orange");
    ("unhealthy", mkProps (151, 200) "red");
    ("very_unhealthy", mkProps (201, 300) "purple");
    ("hazardous", mkProps (301, 500) "maroon") ].

Record t : Type := mk {
  base_aqi : Q;
  aqi_variation : Q;
  fill_level_correlation : Q;
  temperature_correlation : Q;
  current_aqi : Q
}.

Record Pollutants : Type := mkPollutants {
  p_co2 : Q; p_voc : Q; p_pm25 : Q
}.

Record Data : Type := mkData {
  data_aqi : Q;
  data_category : string;
  data_color : string;
  pollutants : Pollutants
}.

Record Reading : Type := mkReading {
  aqi : Q;
  category : string;
  reading_color : string;
  co2 : Q;
  voc : Q;
  pm25 : Q;
  status : string;
  airQualityData : Data
}.

(** [__init__] *)
Definition init (base_aqi aqi_variation fill_level_correlation
                 temperature_correlation : Q) : t :=
  mk base_aqi aqi_variation fill_level_correlation
     temperature_correlation base_aqi.

Definition default : t := init 50.0 10.0 0.7 0.5.

Definition with_aqi (self : t) (a : Q) : t :=
  mk (base_aqi self) (aqi_variation self) (fill_level_correlation self)
     (temperature_correlation self) a.

(** The loop over [AQI_CATEGORIES.items()]: the first category whose
    range holds the value, if any. *)
Fixpoint first_category (cats : list (string * CategoryProps)) (aqi : Q)
  : option string :=
  match cats with
  | [] => None
  | (cat, props) :: cats' =>
      let (min_val, max_val) := range props in
      if Qleb min_val aqi && Qleb aqi max_val then Some cat
      else first_category cats' aqi
  end.

(** The base value [read] starts from. *)
Definition correlated_base (self : t) (fill_level temperature : option Q)
  : Q :=
  let base_aqi := base_aqi self in
  let base_aqi :=
    match fill_level with
    | Some fill_level =>
        let fill_factor :=
          pymin (fill_level / 100.0) 1.0 * fill_level_correlation self in
        base_aqi + fill_factor * 100.0
    | None => base_aqi
    end in
  match temperature with
  | Some temperature =>
      let temp_factor :=
        pymax 0 ((temperature - 25) / 25) * temperature_correlation self in
      base_aqi + temp_factor * 50.0
  | None => base_aqi
  end.

(** The category [read] reports: ["good"] unless the loop finds one. *)
Definition read_category (aqi : Q) : string :=
  match first_category AQI_CATEGORIES aqi with
  | Some cat => cat
  | None => "good"
  end.

(** [read]; the stored AQI is updated before the colour is looked up. *)
Definition read (self : t) (fill_level temperature : option Q)
  : Rand (Result Reading * t) :=
  let base_aqi := correlated_base self fill_level temperature in
  let* variation := uniform (- aqi_variation self) (aqi_variation self) in
  let aqi := pymax 0.0 (pymin 500.0 (base_aqi + variation)) in
  let self' := with_aqi self aqi in
  let category := read_category aqi in
  let co2_level := 400 + aqi * 2 in
  let voc_level := 0.5 + aqi * 0.01 in
  let pm25_level := 12 + aqi * 0.24 in
  ret (match assoc_get AQI_CATEGORIES category with
       | Raise e => Raise e
       | Ok props =>
           Ok (mkReading (pyround aqi 2) category (color props)
                 (pyround co2_level 2) (pyround voc_level 2)
                 (pyround pm25_level 2) category
                 (mkData (pyround aqi 2) category (color props)
                    (mkPollutants (pyround co2_level 2)
                       (pyround voc_level 2) (pyround pm25_level 2))))
       end, self').

(** [set_aqi] *)
Definition set_aqi (self : t) (aqi : Q) : t :=
  with_aqi self (pymax 0.0 (pymin 500.0 aqi)).

(** [get_category_for_aqi] *)
Definition get_category_for_aqi (aqi : Q) : string :=
  match first_category AQI_CATEGORIES aqi with
  | Some cat => cat
  | None => "hazardous"
  end.

End AirQualitySensor.

(** ** token_system/token_manager.py *)

Module TokenManager.

Record Redemption : Type := mkRedemption {
  timestamp : string;
  tokens : Q;
  option_name : string;
  reward : Q
}.

Record User : Type := mkUser {
  user_id : string;
  name : string;
  token_balance : Q;
  redemption_history : list Redemption
}.

Record t : Type := mk {
  users : gmap string User;
  token_values : gmap string Q;
  redemption_options : gmap string Q
}.

Definition with_users (self : t) (us : gmap string User) : t :=
  mk us (token_values self) (redemption_options self).

(** Modelled from the spec: token_system/token_manager.py is not among
    the sources; [TokenManager()] starts with no account and owns the two
    static catalogs (token value per kg of each material, conversion
    rate of each redemption option). *)
Definition init (token_values redemption_options : gmap string Q) : t :=
  mk ∅ token_values redemption_options.

(** Modelled from the spec: token_system/token_manager.py is not among
    the sources; [registerUser(name)] creates an account with balance 0
    and empty history and fails on an empty name.  [new_id] is the
    identifier the environment generates for the account. *)
Definition register_user (self : t) (name new_id : string)
  : option (User * t) :=
  if String.eqb name "" then None
  else
    let user := mkUser new_id name 0 [] in
    Some (user, with_users self (<[new_id := user]> (users self))).

(** Modelled from the spec: token_system/token_manager.py is not among
    the sources; [awardTokens] credits [weightKg] times the material's
    value per kg, rounded to 2 decimals, and fails with [(false, 0)]
    and no change on an unknown user or material. *)
Definition award_tokens (self : t)
    (user_id material_type material_subtype : string)
    (weight_kg : Q) (timestamp : string) : (bool * Q) * t :=
  match users self !! user_id with
  | None => ((false, 0), self)
  | Some user =>
      match token_values self !! material_type with
      | None => ((false, 0), self)
      | Some value_per_kg =>
          let tokens := pyround (weight_kg * value_per_kg) 2 in
          let user' :=
            mkUser (TokenManager.user_id user) (name user)
              (token_balance user + tokens) (redemption_history user) in
          ((true, tokens),
           with_users self (<[user_id := user']> (users self)))
      end
  end.

(** Modelled from the spec: token_system/token_manager.py is not among
    the sources; [redeemTokens] succeeds only for a known user, a known
    option and a balance of at least [tokenCount]; it then debits the
    balance and appends the redemption to the history, and otherwise
    changes nothing.  [now] is the clock's timestamp. *)
Definition redeem_tokens (self : t) (user_id : string) (token_count : Q)
    (option_name : string) (now : string) : bool * t :=
  match users self !! user_id with
  | None => (false, self)
  | Some user =>
      match redemption_options self !! option_name with
      | None => (false, self)
      | Some rate =>
          if Qleb token_count (token_balance user) then
            let entry :=
              mkRedemption now token_count option_name
                (token_count * rate) in
            let user' :=
              mkUser (TokenManager.user_id user) (name user)
                (token_balance user - token_count)
                (redemption_history user ++ [entry]) in
            (true, with_users self (<[user_id := user']> (users self)))
          else (false, self)
      end
  end.

(** [User.get_token_balance()] through the manager. *)
Definition balance_of (self : t) (user_id : string) : option Q :=
  token_balance <$> users self !! user_id.

(** One call of the ledger's interface and what it returned. *)
Inductive Call : Type :=
| Award (user_id material_type material_subtype : string)
        (weight_kg : Q) (timestamp : string)
| Redeem (user_id : string) (token_count : Q)
         (option_name : string) (now : string).

Inductive Outcome : Type :=
| Awarded (success : bool) (tokens_awarded : Q)
| Redeemed (success : bool).

Definition step (self : t) (c : Call) : Outcome * t :=
  match c with
  | Award u m sub w ts =>
      let '((ok, tk), self') := award_tokens self u m sub w ts in
      (Awarded ok tk, self')
  | Redeem u n o now =>
      let '(ok, self') := redeem_tokens self u n o now in
      (Redeemed ok, self')
  end.

(** The ledger after a sequence of calls. *)
Fixpoint run (self : t) (cs : list Call) : t :=
  match cs with
  | [] => self
  | c :: cs' => run (snd (step self c)) cs'
  end.





End TokenManager.

(** ** sensors/recyclable_sensor.py *)

(** Values stored in the dictionaries the detector returns. *)
Inductive PyVal : Type :=
| VNone
| VBool (b : bool)
| VInt (z : Z)
| VFloat (q : Q)
| VStr (s : string).

(** [d[k]] on a dictionary built at run time. *)
Definition dict_item (d : gmap string PyVal) (k : string) : Result PyVal :=
  match d !! k with
  | Some v => Ok v
  | None => Raise (KeyError k)
  end.

(** [d.get(k, default)] *)
Definition dict_get (d : gmap string PyVal) (k : string) (default : PyVal)
  : PyVal :=
  match d !! k with
  | Some v => v
  | None => default
  end.

Module RecyclableSensor.

Record MaterialProps : Type := mkProps {
  subtypes : list string;
  weight_range : Q * Q;
  density : Q
}.

Definition MATERIAL_TYPES : list (string * MaterialProps) :=
  [ ("paper",
     mkProps ["newspaper"; "cardboard"; "magazine"; "mixed paper"]
       (0.05, 2.0) 75.0);
    ("plastic",
     mkProps ["PET bottle"; "HDPE container"; "plastic bag";
              "plastic packaging"]
       (0.01, 0.5) 35.0);
    ("metal",
     mkProps ["aluminum can"; "steel can"; "metal lid"; "foil"]
       (0.02, 0.5) 62.5);
    ("glass",
     mkProps ["clear bottle"; "green bottle"; "brown bottle"; "glass jar"]
       (0.1, 1.0) 500.0);
    ("e-waste",
     mkProps ["battery"; "small electronic"; "cable"; "charger"]
       (0.05, 2.0) 350.0) ].

(** The session owns one token manager object; the sensor holds a
    reference to it, or [None]. *)
Inductive ManagerRef : Type := SessionTokenManager.

Record t : Type := mk {
  detection_probabilities : list (string * Q);
  token_manager : option ManagerRef;
  current_user_id : option string
}.

Definition default_detection_probabilities : list (string * Q) :=
  [ ("paper", 0.3); ("plastic", 0.4); ("metal", 0.15); ("glass", 0.1);
    ("e-waste", 0.05) ].

(** [__init__]: [detection_probabilities or {...}] takes the default for
    [None] and for an empty dictionary. *)
Definition init (detection_probabilities : option (list (string * Q)))
                (token_manager : option ManagerRef) : t :=
  mk (match detection_probabilities with
      | None | Some [] => default_detection_probabilities
      | Some d => d
      end)
     token_manager None.

(** [self.current_user_id] when it is true as a condition: neither
    [None] nor the empty string. *)
Definition user_id_set (uid : option string) : option string :=
  match uid with
  | None => None
  | Some s => if String.eqb s "" then None else Some s
  end.

Definition val_of_user_id (uid : option string) : PyVal :=
  match uid with None => VNone | Some s => VStr s end.

Definition no_detection : gmap string PyVal :=
  <["materialDetected" := VBool false]>
  (<["materialType" := VNone]>
  (<["materialSubtype" := VNone]>
  (<["weight" := VFloat 0.0]>
  (<["weightUnit" := VStr "kg"]> ∅)))).

Definition detection (material_type material_subtype : string)
    (weight density tokens_awarded : Q) (uid : option string)
  : gmap string PyVal :=
  <["materialDetected" := VBool true]>
  (<["materialType" := VStr material_type]>
  (<["materialSubtype" := VStr material_subtype]>
  (<["weight" := VFloat weight]>
  (<["weightUnit" := VStr "kg"]>
  (<["density" := VFloat density]>
  (<["densityUnit" := VStr "pounds/cubic_yard"]>
  (<["tokensAwarded" := VFloat tokens_awarded]>
  (<["userId" := val_of_user_id uid]> ∅)))))))).

Section Read.
(** The token manager object and its [award_tokens] method. *)
Context {TM : Type}.
Variable award_tokens :
  TM -> string -> string -> string -> Q -> string -> (bool * Q) * TM.

(** The award step of [read]. *)
Definition award (self : t) (tm : TM)
    (material_type material_subtype : string) (weight : Q)
    (now : string) : Q * TM :=
  let tokens_awarded := 0.0 in
  match token_manager self, user_id_set (current_user_id self) with
  | Some SessionTokenManager, Some uid =>
      let '((success, tokens_awarded), tm') :=
        award_tokens tm uid material_type material_subtype weight now in
      (tokens_awarded, tm')
  | _, _ => (tokens_awarded, tm)
  end.

(** [read]; [tm] is the state of the session's token manager and
    [now] the timestamp of the clock. *)
Definition read (self : t) (tm : TM) (now : string)
  : Rand (Result (gmap string PyVal) * TM) :=
  let* r := random in
  if Qltb 0.9 r then ret (Ok no_detection, tm)
  else
    let* chosen :=
      choices (keys (detection_probabilities self))
              (values (detection_probabilities self)) in
    match chosen with
    | Raise e => ret (Raise e, tm)
    | Ok material_type =>
        match assoc_get MATERIAL_TYPES material_type with
        | Raise e => ret (Raise e, tm)
        | Ok props =>
            let* picked := choice (subtypes props) in
            match picked with
            | Raise e => ret (Raise e, tm)
            | Ok material_subtype =>
                let (min_weight, max_weight) := weight_range props in
                let* w := uniform min_weight max_weight in
                let weight := pyround w 3 in
                let (tokens_awarded, tm') :=
                  award self tm material_type material_subtype
                    weight now in
                ret (Ok (detection material_type material_subtype
                           weight (density props) tokens_awarded
                           (current_user_id self)),
                     tm')
            end
        end
    end.
End Read.

(** [sum(d.values())] *)
Definition sum_values (d : list (string * Q)) : Q :=
  fold_left Qplus (values d) 0.

(** [set_detection_probabilities] *)
Definition set_detection_probabilities (self : t)
    (detection_probabilities : list (string * Q)) : Result t :=
  let total_prob := sum_values detection_probabilities in
  if negb (Qleb 0.99 total_prob && Qleb total_prob 1.01) then
    Raise (ValueError
             "Detection probabilities must sum to approximately 1.0")
  else
    Ok (mk detection_probabilities (token_manager self)
          (current_user_id self)).

(** [set_token_manager] *)
Definition set_token_manager (self : t) (tm : option ManagerRef) : t :=
  mk (detection_probabilities self) tm (current_user_id self).

(** [set_current_user] *)
Definition set_current_user (self : t) (user_id : option string) : t :=
  mk (detection_probabilities self) (token_manager self) user_id.

End RecyclableSensor.

(** ** main.py *)

Module WasteBinIoTSimulation.

(** The ["recyclable"] entry of [combined_data] in [run_simulation]. *)
Definition combined_recyclable (recyclable_data : gmap string PyVal)
  : Result (gmap string PyVal) :=
  match dict_item recyclable_data "materialDetected" with
  | Raise e => Raise e
  | Ok detected =>
      Ok (<["materialDetected" := detected]>
          (<["materialType" :=
               dict_get recyclable_data "materialType" (VStr "")]>
          (<["materialSubtype" :=
               dict_get recyclable_data "materialSubtype" (VStr "")]>
          (<["weight" := dict_get recyclable_data "weight" (VFloat 0.0)]>
          (<["weightUnit" :=
               dict_get recyclable_data "weightUnit" (VStr "kg")]>
          (<["tokensAwarded" :=
               dict_get recyclable_data "tokensAwarded" (VInt 0)]>
           ∅))))))
  end.

(** The ["tokensAwarded"] field of [format_telemetry_for_azure]. *)
Definition telemetry_tokens_awarded (recyclable : gmap string PyVal)
  : Result PyVal :=
  dict_item recyclable "tokensAwarded".

(** The recyclable sensor the session constructs in [__init__]. *)
Definition recyclable_sensor : RecyclableSensor.t :=
  RecyclableSensor.init
    (Some [ ("paper", 0.3); ("plastic", 0.4); ("metal", 0.15);
            ("glass", 0.1); ("e-waste", 0.05) ])
    (Some RecyclableSensor.SessionTokenManager).

End WasteBinIoTSimulation.

(** ** sensors/recyclable_sensor.py, the per-user entry point *)

(** [detect_recyclable_for_user]: sets the current user, then reads; the
    sensor with the user installed is returned beside the reading. *)
Definition detect_recyclable_for_user {TM : Type}
    (award_tokens :
       TM -> string -> string -> string -> Q -> string -> (bool * Q) * TM)
    (self : RecyclableSensor.t) (user_id : option string) (tm : TM)
    (now : string)
  : Rand ((Result (gmap string PyVal) * TM) * RecyclableSensor.t) :=
  let self' := RecyclableSensor.set_current_user self user_id in
  let* res := RecyclableSensor.read award_tokens self' tm now in
  ret (res, self').

(** ** main.py, the recyclable fields of the telemetry *)

(** Truth value of a Python value used as a condition. *)
Definition py_truth (v : PyVal) : bool :=
  match v with
  | VNone => false
  | VBool b => b
  | VInt z => negb (z =? 0)%Z
  | VFloat q => negb (Qeq_bool q 0)
  | VStr s => negb (String.eqb s "")
  end.

Definition rbind {A B} (r : Result A) (k : A -> Result B) : Result B :=
  match r with
  | Ok a => k a
  | Raise e => Raise e
  end.

Notation "'let?' x := c 'in' k" := (rbind c (fun x => k))
  (at level 10, x name, c at level 100, k at level 200).

(** [d[k] if d["materialDetected"] else default] *)
Definition item_if_detected (d : gmap string PyVal) (k : string)
    (default : PyVal) : Result PyVal :=
  let? detected := dict_item d "materialDetected" in
  if py_truth detected then dict_item d k else Ok default.

(** The entries of [format_telemetry_for_azure] that are read from
    [combined_data["recyclable"]], in the order of the literal. *)
Definition format_recyclable_telemetry (recyclable : gmap string PyVal)
  : Result (gmap string PyVal) :=
  let? detected := dict_item recyclable "materialDetected" in
  let? mtype := item_if_detected recyclable "materialType" (VStr "") in
  let? msub := item_if_detected recyclable "materialSubtype" (VStr "") in
  let? weight := item_if_detected recyclable "weight" (VFloat 0.0) in
  let? wunit := dict_item recyclable "weightUnit" in
  let? tokens := dict_item recyclable "tokensAwarded" in
  Ok (<["materialDetected" := detected]>
      (<["materialType" := mtype]>
      (<["materialSubtype" := msub]>
      (<["materialWeight" := weight]>
      (<["materialWeightUnit" := wunit]>
      (<["tokensAwarded" := tokens]> ∅)))))).

(** ** run_simulation.py, the loop of [run_continuous_simulation] *)

Module ContinuousSimulation.

(** The sensors, the token manager and the users of a
    [WasteBinIoTSimulation]. *)
Record Session (TM : Type) : Type := mkSession {
  gps_sensor : GPSSensor.t;
  temp_sensor : TemperatureSensor.t;
  recyclable_sensor : RecyclableSensor.t;
  fill_level_sensor : FillLevelSensor.t;
  odor_sensor : OdorSensor.t;
  humidity_sensor : HumiditySensor.t;
  air_quality_sensor : AirQualitySensor.t;
  token_manager : TM;
  users : list TokenManager.User
}.
Arguments mkSession {TM}.
Arguments gps_sensor {TM}.
Arguments temp_sensor {TM}.
Arguments recyclable_sensor {TM}.
Arguments fill_level_sensor {TM}.
Arguments odor_sensor {TM}.
Arguments humidity_sensor {TM}.
Arguments air_quality_sensor {TM}.
Arguments token_manager {TM}.
Arguments users {TM}.

(** The sensors [WasteBinIoTSimulation.__init__] constructs, around a
    given token manager and its registered users. *)
Definition init {TM : Type} (tm : TM) (users : list TokenManager.User)
  : Session TM :=
  mkSession
    (GPSSensor.init 1.3521 103.8198 0.0001)
    (TemperatureSensor.init 22.0 2.0 50.0 0.0 0.05 3)
    WasteBinIoTSimulation.recyclable_sensor
    (FillLevelSensor.init 1.0 5.0 100.0 0.1 100.0)
    (OdorSensor.init 0.6 0.7 0.1)
    (HumiditySensor.init 50.0 5.0 75.0 80.0 0.6)
    (AirQualitySensor.init 50.0 10.0 0.7 0.5)
    tm users.

(** The sensor data one pass of the loop collects. *)
Record Readings : Type := mkReadings {
  current_user : TokenManager.User;
  gps_data : GPSSensor.Reading;
  temp_data : TemperatureSensor.Reading;
  recyclable_data : gmap string PyVal;
  fill_level_data : FillLevelSensor.Reading;
  odor_data : OdorSensor.Reading;
  humidity_data : HumiditySensor.Reading;
  air_quality_data : AirQualitySensor.Reading
}.

(** [simulation.users[reading_count % len(simulation.users)]] *)
Definition select_user (users : list TokenManager.User)
    (reading_count : nat) : Result TokenManager.User :=
  match users with
  | [] => Raise ZeroDivisionError
  | _ =>
      match nth_error users (reading_count mod length users) with
      | Some u => Ok u
      | None => Raise IndexError
      end
  end.

Section Loop.
Context {TM : Type}.
Variable award_tokens :
  TM -> string -> string -> string -> Q -> string -> (bool * Q) * TM.

(** The sensor reads of one pass of the [while running] loop, in the
    order of the source.  An exception abandons the pass where it is
    raised; the sensors read before it keep their new state. *)
Definition read_sensors (self : Session TM) (reading_count : nat)
    (now : string) : Rand (Result Readings * Session TM) :=
  let* gps := GPSSensor.read (gps_sensor self) in
  let '(gps_data, gps') := gps in
  let* temp := TemperatureSensor.read (temp_sensor self) in
  let '(temp_data, temp') := temp in
  let self1 :=
    mkSession gps' temp' (recyclable_sensor self) (fill_level_sensor self)
      (odor_sensor self) (humidity_sensor self) (air_quality_sensor self)
      (token_manager self) (users self) in
  match select_user (users self) reading_count with
  | Raise e => ret (Raise e, self1)
  | Ok current_user =>
      let rec' :=
        RecyclableSensor.set_current_user (recyclable_sensor self)
          (Some (TokenManager.user_id current_user)) in
      let* rec := RecyclableSensor.read award_tokens rec'
                    (token_manager self) now in
      let '(rec_res, tm') := rec in
      let self2 :=
        mkSession gps' temp' rec' (fill_level_sensor self)
          (odor_sensor self) (humidity_sensor self)
          (air_quality_sensor self) tm' (users self) in
      match rec_res with
      | Raise e => ret (Raise e, self2)
      | Ok recyclable_data =>
          let* fill := FillLevelSensor.read (fill_level_sensor self) in
          let '(fill_level_data, fill') := fill in
          let level := FillLevelSensor.fillLevel fill_level_data in
          let* odor := OdorSensor.read (odor_sensor self) (Some level) in
          let '(odor_res, odor') := odor in
          let self3 :=
            mkSession gps' temp' rec' fill' odor' (humidity_sensor self)
              (air_quality_sensor self) tm' (users self) in
          match odor_res with
          | Raise e => ret (Raise e, self3)
          | Ok odor_data =>
              let* hum :=
                HumiditySensor.read (humidity_sensor self) (Some level) in
              let '(hum_res, hum') := hum in
              let self4 :=
                mkSession gps' temp' rec' fill' odor' hum'
                  (air_quality_sensor self) tm' (users self) in
              match hum_res with
              | Raise e => ret (Raise e, self4)
              | Ok humidity_data =>
                  let* air :=
                    AirQualitySensor.read (air_quality_sensor self)
                      (Some level)
                      (Some (TemperatureSensor.temperature temp_data)) in
                  let '(air_res, air') := air in
                  let self5 :=
                    mkSession gps' temp' rec' fill' odor' hum' air' tm'
                      (users self) in
                  match air_res with
                  | Raise e => ret (Raise e, self5)
                  | Ok air_quality_data =>
                      ret (Ok (mkReadings current_user gps_data temp_data
                                 recyclable_data fill_level_data odor_data
                                 humidity_data air_quality_data),
                           self5)
                  end
              end
          end
      end
  end.

(** [passes] passes of the loop: [reading_count] is incremented by a pass
    that raised nothing and kept by a pass that was abandoned.  The result
    lists what each pass produced, the final session and the final
    count.  The rest of a pass (assembly of the record, hand-off to the
    telemetry sink, printing) is not part of the model. *)
Fixpoint run_continuous_simulation (passes : nat) (self : Session TM)
    (reading_count : nat) (clock : nat -> string) (g : Rng)
  : list (Result Readings) * Session TM * nat * Rng :=
  match passes with
  | O => ([], self, reading_count, g)
  | Datatypes.S passes' =>
      let '(res, self', g') :=
        read_sensors self reading_count (clock passes') g in
      let reading_count' :=
        if is_ok res then Datatypes.S reading_count else reading_count in
      let '(rest, self'', n, g'') :=
        run_continuous_simulation passes' self' reading_count' clock g' in
      (res :: rest, self'', n, g'')
  end.

End Loop.

End ContinuousSimulation.

(** ** Vocabulary of the properties *)

(** A number with at most [n] decimals. *)
Definition on_grid (n : nat) (a : Q) : Prop :=
  exists k : Z, a * inject_Z (pow10 n) == inject_Z k.

(** A generator that returns the listed values, then zeros. *)
Definition rng_of (l : list Q) : Rng := mkRng (fun n => nth n l 0) 0.

(** Every value the generator will ever return is a unit draw. *)
Definition unit_draws (g : Rng) : Prop := forall k, unit_draw (draws g k).

(** The readings and states of [n] successive calls of a sensor's [read]. *)
Fixpoint trace {S R} (read : S -> Rand (R * S)) (n : nat) (s : S) (g : Rng)
  : list (R * S) :=
  match n with
  | O => []
  | Datatypes.S n' =>
      let '(r, s', g') := read s g in (r, s') :: trace read n' s' g'
  end.

(** The humidity [HumiditySensor.read] stores, from the next draw. *)
Definition humidity_after (s : HumiditySensor.t) (fill_level : option Q)
    (g : Rng) : Q :=
  pymax 0.0
    (pymin 100.0
       (HumiditySensor.correlated_base s fill_level
        + uniform_of (- HumiditySensor.humidity_variation s)
            (HumiditySensor.humidity_variation s) (peek g 0))).

(** The AQI [AirQualitySensor.read] stores, from the next draw. *)
Definition aqi_after (s : AirQualitySensor.t)
    (fill_level temperature : option Q) (g : Rng) : Q :=
  pymax 0.0
    (pymin 500.0
       (AirQualitySensor.correlated_base s fill_level temperature
        + uniform_of (- AirQualitySensor.aqi_variation s)
            (AirQualitySensor.aqi_variation s) (peek g 0))).

(** ** Vocabulary of the ledger invariant *)

(** Every award of the run carries a non-negative weight. *)
Definition award_weights_nonneg (cs : list TokenManager.Call) : Prop :=
  Forall (fun c =>
            match c with
            | TokenManager.Award _ _ _ w _ => 0 <= w
            | TokenManager.Redeem _ _ _ _ => True
            end) cs.


(** A ledger with the catalog values of the spec's examples and one
    registered user. *)
Definition example_catalog : TokenManager.t :=
  TokenManager.init (<["plastic" := 2.0]> (<["paper" := 1.0]> ∅))
    (<["cash" := 0.1]> ∅).

Definition example_ledger : TokenManager.t :=
  match TokenManager.register_user example_catalog "A" "u1" with
  | Some (_, l) => l
  | None => example_catalog
  end.

(** The sensor and the generator after [n] successive calls of [read]. *)
Fixpoint run_reads {S R} (read : S -> Rand (R * S)) (n : nat) (s : S)
    (g : Rng) : S * Rng :=
  match n with
  | O => (s, g)
  | Datatypes.S n' =>
      let '(_, s', g') := read s g in run_reads read n' s' g'
  end.

(** What the loop relies on: at least one user, and the detection
    probabilities the session was constructed with. *)
Definition session_ready {TM : Type}
    (s : ContinuousSimulation.Session TM) : Prop :=
  ContinuousSimulation.users s <> [] /\
  RecyclableSensor.detection_probabilities
    (ContinuousSimulation.recyclable_sensor s)
  = RecyclableSensor.default_detection_probabilities.

(* ===================================================================== *)
(** * Part II: properties *)
(* ===================================================================== *)

(** ** Numbers *)

Section Numbers.

Lemma Qleb_le (x y : Q) : Qleb x y = true <-> x <= y.
Proof. apply Qle_bool_iff. Qed.

Lemma Qleb_gt (x y : Q) : Qleb x y = false <-> y < x.
Proof.
  unfold Qleb. split; intros H.
  - apply Qnot_le_lt. intros L. apply Qle_bool_iff in L. congruence.
  - destruct (Qle_bool x y) eqn:E; [|reflexivity].
    apply Qle_bool_iff in E. lra.
Qed.

Lemma Qltb_lt (x y : Q) : Qltb x y = true <-> x < y.
Proof.
  unfold Qltb. rewrite negb_true_iff. apply (Qleb_gt y x).
Qed.

Lemma Qltb_ge (x y : Q) : Qltb x y = false <-> y <= x.
Proof.
  unfold Qltb. rewrite negb_false_iff. apply (Qleb_le y x).
Qed.

Lemma pymin_spec (a b : Q) :
  (b < a /\ pymin a b = b) \/ (a <= b /\ pymin a b = a).
Proof.
  unfold pymin. destruct (Qltb b a) eqn:E.
  - left. split; [now apply Qltb_lt|reflexivity].
  - right. split; [now apply Qltb_ge|reflexivity].
Qed.

Lemma pymax_spec (a b : Q) :
  (a < b /\ pymax a b = b) \/ (b <= a /\ pymax a b = a).
Proof.
  unfold pymax. destruct (Qltb a b) eqn:E.
  - left. split; [now apply Qltb_lt|reflexivity].
  - right. split; [now apply Qltb_ge|reflexivity].
Qed.

Lemma pymin_le_l (a b : Q) : pymin a b <= a.
Proof. destruct (pymin_spec a b) as [[H ->]|[H ->]]; lra. Qed.

Lemma pymin_le_r (a b : Q) : pymin a b <= b.
Proof. destruct (pymin_spec a b) as [[H ->]|[H ->]]; lra. Qed.

Lemma pymin_glb (a b c : Q) : c <= a -> c <= b -> c <= pymin a b.
Proof. intros. destruct (pymin_spec a b) as [[H' ->]|[H' ->]]; lra. Qed.

Lemma pymax_ge_l (a b : Q) : a <= pymax a b.
Proof. destruct (pymax_spec a b) as [[H ->]|[H ->]]; lra. Qed.

Lemma pymax_ge_r (a b : Q) : b <= pymax a b.
Proof. destruct (pymax_spec a b) as [[H ->]|[H ->]]; lra. Qed.

Lemma pymax_lub (a b c : Q) : a <= c -> b <= c -> pymax a b <= c.
Proof. intros. destruct (pymax_spec a b) as [[H' ->]|[H' ->]]; lra. Qed.

(** The clamp [max(lo, min(hi, x))] every generator ends with. *)
Lemma clamp_bounds (lo hi x : Q) :
  lo <= hi -> lo <= pymax lo (pymin hi x) /\ pymax lo (pymin hi x) <= hi.
Proof.
  intros H. split; [apply pymax_ge_l|].
  apply pymax_lub; [exact H|apply pymin_le_l].
Qed.

Lemma clamp_id (lo hi x : Q) :
  lo <= x -> x <= hi -> pymax lo (pymin hi x) == x.
Proof.
  intros H1 H2.
  destruct (pymin_spec hi x) as [[H ->]|[H ->]];
    destruct (pymax_spec lo x) as [[H' E]|[H' E]];
    try destruct (pymax_spec lo hi) as [[H'' E']|[H'' E']];
    try rewrite E; try rewrite E'; lra.
Qed.

(** [random.uniform(a, b)] stays between its bounds. *)
Lemma uniform_of_bounds (a b r : Q) :
  a <= b -> unit_draw r -> a <= uniform_of a b r /\ uniform_of a b r <= b.
Proof.
  unfold uniform_of, unit_draw. intros Hab [H0 H1]. split; nra.
Qed.

Lemma round_half_even_floor (y : Q) :
  (Qfloor y <= round_half_even y <= Qfloor y + 1)%Z.
Proof.
  unfold round_half_even.
  repeat match goal with |- context [if ?c then _ else _] => destruct c end;
    lia.
Qed.

Lemma round_half_even_ge (k : Z) (y : Q) :
  inject_Z k <= y -> (k <= round_half_even y)%Z.
Proof.
  intros H. apply Qfloor_resp_le in H. rewrite Qfloor_Z in H.
  pose proof (round_half_even_floor y). lia.
Qed.

Lemma round_half_even_le (k : Z) (y : Q) :
  y <= inject_Z k -> (round_half_even y <= k)%Z.
Proof.
  intros H.
  pose proof (Qfloor_le y) as Hf.
  assert (Hk : (Qfloor y <= k)%Z).
  { rewrite Zle_Qle. lra. }
  destruct (Z.eq_dec (Qfloor y) k) as [E|N].
  - unfold round_half_even. rewrite E.
    assert (Hd : Qltb (y - inject_Z k) (1 # 2) = true).
    { apply Qltb_lt. rewrite E in Hf. lra. }
    rewrite Hd. lia.
  - pose proof (round_half_even_floor y). lia.
Qed.

Lemma pow10_pos (n : nat) : 0 < inject_Z (pow10 n).
Proof.
  unfold pow10. replace 0 with (inject_Z 0) by reflexivity.
  rewrite <- Zlt_Qlt. apply Z.pow_pos_nonneg; lia.
Qed.

Lemma pyround_ge (n : nat) (a x : Q) :
  on_grid n a -> a <= x -> a <= pyround x n.
Proof.
  intros [k Hk] H. unfold pyround.
  pose proof (pow10_pos n) as HP.
  assert (Hr : (k <= round_half_even (x * inject_Z (pow10 n)))%Z).
  { apply round_half_even_ge. rewrite <- Hk. nra. }
  rewrite Zle_Qle in Hr. rewrite <- Hk in Hr.
  apply Qle_shift_div_l; assumption.
Qed.

Lemma pyround_le (n : nat) (b x : Q) :
  on_grid n b -> x <= b -> pyround x n <= b.
Proof.
  intros [k Hk] H. unfold pyround.
  pose proof (pow10_pos n) as HP.
  assert (Hr : (round_half_even (x * inject_Z (pow10 n)) <= k)%Z).
  { apply round_half_even_le. rewrite <- Hk. nra. }
  rewrite Zle_Qle in Hr. rewrite <- Hk in Hr.
  apply Qle_shift_div_r; assumption.
Qed.

Lemma on_grid_Z (n : nat) (z : Z) : on_grid n (inject_Z z).
Proof.
  exists (z * pow10 n)%Z. rewrite inject_Z_mult. reflexivity.
Qed.

End Numbers.

(** ** Sequences of readings *)

Section Traces.
Context {S R : Type} (read : S -> Rand (R * S)).

Lemma trace_length (n : nat) (s : S) (g : Rng) :
  length (trace read n s g) = n.
Proof.
  revert s g. induction n as [|n IH]; intros s g; cbn; [reflexivity|].
  destruct (read s g) as [[r s'] g']. cbn. now rewrite IH.
Qed.

(** What one call establishes from any state holds along every trace. *)
Lemma trace_Forall (P : R -> S -> Prop) :
  (forall s g, P (fst (fst (read s g))) (snd (fst (read s g)))) ->
  forall n s g, Forall (fun x => P (fst x) (snd x)) (trace read n s g).
Proof.
  intros H n. induction n as [|n IH]; intros s g; cbn; [constructor|].
  specialize (H s g). destruct (read s g) as [[r s'] g'].
  constructor; [exact H|apply IH].
Qed.

Lemma unit_draws_next (g : Rng) (k : nat) :
  unit_draws g -> unit_draws (mkRng (draws g) k).
Proof. intros H j. apply H. Qed.

End Traces.

(** ** Temperature *)

Section Temperature.
Import TemperatureSensor.

Lemma forced_read_takes_anomaly_branch (s : t) (g : Rng) :
  (normal_readings_before_anomaly s <= normal_readings_count s)%Z ->
  let s' := snd (fst (read s g)) in
  normal_readings_count s' = 0%Z /\
  current_temperature s' =
    (if Qltb (peek g 0) 0.7
     then anomaly_threshold_high s + uniform_of 0 20 (peek g 1)
     else anomaly_threshold_low s - uniform_of 0 10 (peek g 1)).
Proof.
  intros H. unfold read, bind, ret, random, uniform, bind, ret, random, peek.
  apply Z.leb_le in H. rewrite H. cbn.
  rewrite Nat.add_0_r, Nat.add_1_r.
  destruct (Qltb _ _); cbn; auto.
Qed.

Lemma report_flags (s : t) :
  let r := report s in
  (isAnomaly r = true <->
   anomaly_threshold_high s < current_temperature s \/
   current_temperature s < anomaly_threshold_low s) /\
  (anomalyType r = "high" <->
   anomaly_threshold_high s < current_temperature s) /\
  (anomalyType r = "low" <->
   ~ anomaly_threshold_high s < current_temperature s /\
   current_temperature s < anomaly_threshold_low s).
Proof.
  cbn. rewrite orb_true_iff, !Qltb_lt.
  destruct (Qltb (anomaly_threshold_high s) (current_temperature s)) eqn:Eh;
    destruct (Qltb (current_temperature s) (anomaly_threshold_low s)) eqn:El;
    try apply Qltb_lt in Eh; try apply Qltb_lt in El;
    try apply Qltb_ge in Eh; try apply Qltb_ge in El;
    repeat split; try tauto; try discriminate; try lra;
    intros; exfalso; intuition lra.
Qed.

(** C2: a fresh sensor with the default parameters gives three normal
    readings, so that the counter reaches the threshold of 3; the fourth
    reading takes the forced anomaly branch and resets the counter, yet
    when [random.uniform(0, 20)] returns its lower bound the temperature
    equals the high threshold and the reading is not flagged: isAnomaly
    is false and anomalyType is "none". *)
Theorem forced_anomaly_unflagged_at_zero_offset :
  let g := rng_of [0.5; 0.5; 0.5; 0.5; 0.5; 0.5; 0.5; 0] in
  match trace read 4 default g with
  | [_; _; (_, s3); (r4, s4)] =>
      normal_readings_count s3 = 3%Z /\
      normal_readings_count s4 = 0%Z /\
      current_temperature s4 == anomaly_threshold_high s3 /\
      isAnomaly r4 = false /\ anomalyType r4 = "none"
  | _ => False
  end.
Proof. vm_compute. repeat split; reflexivity. Qed.

End Temperature.

(** ** Fill level *)

Section FillLevel.
Import FillLevelSensor.

Lemma read_unfold (s : t) (g : Rng) :
  let variation :=
    uniform_of (- fill_rate_variation s) (fill_rate_variation s)
      (peek g 0) in
  let s' :=
    with_level s
      (pymin (fill_level s + (fill_rate s + variation)) (capacity s)) in
  let level := pyround (fill_level s') 2 in
  let full := Qleb (overflow_threshold s) level in
  let over := Qleb (capacity s) level in
  let st := if over then "overflow" else if full then "full" else "normal" in
  read s g =
    (mkReading level "percentage" (capacity s) full over st
       (mkData level "percentage" st), s',
     mkRng (draws g) (S (cursor g))).
Proof.
  unfold read, uniform, bind, ret, random, peek. cbn.
  rewrite Nat.add_0_r. reflexivity.
Qed.


(** The level never exceeds the capacity after a reading. *)
Lemma fill_level_upper_bound (n : nat) (s : t) (g : Rng) :
  Forall (fun x => fill_level (snd x) <= capacity (snd x))
    (trace read n s g).
Proof.
  apply (trace_Forall read (fun _ s' => fill_level s' <= capacity s')).
  intros s0 g0. rewrite (read_unfold s0 g0). cbn. apply pymin_le_r.
Qed.


(** C3: the fill level leaves the interval from 0 to the capacity.  A
    sensor constructed with a negative initial level keeps a negative
    stored and reported level after [read]; so does a sensor that starts
    empty with a rate below the variation when the variation drawn is
    the lowest one.  [set_fill_level] clamps the same values at 0. *)
Theorem fill_level_below_zero :
  (let s := init (-10.0) 0.05 100.0 0.02 95.0 in
   match trace read 1 s (rng_of [0.5]) with
   | [(r, s')] =>
       fill_level s' == -9.95 /\ fillLevel r == -9.95 /\
       fill_level s' < 0 /\
       fill_level (set_fill_level s (-10.0)) == 0
   | _ => False
   end) /\
  (let s := init 0.0 0.0 100.0 0.02 95.0 in
   match trace read 1 s (rng_of [0]) with
   | [(r, s')] =>
       fill_level s' == -0.02 /\ fillLevel r == -0.02 /\
       fill_level s' < 0 /\
       fill_level (set_fill_level s (-0.02)) == 0
   | _ => False
   end).
Proof. vm_compute. repeat split; reflexivity. Qed.

End FillLevel.

(** ** GPS *)

Section GPS.
Import GPSSensor.

Lemma gps_read_unfold (s : t) (g : Rng) :
  let m := movement_range s in
  let la :=
    pymax (-90.0) (pymin 90.0 (latitude s + uniform_of (- m) m (peek g 0)))
  in
  let lo :=
    pymax (-180.0)
      (pymin 180.0 (longitude s + uniform_of (- m) m (peek g 1))) in
  read s g =
    (mkReading (pyround la 6) (pyround lo 6)
       (mkLocation (pyround la 6) (pyround lo 6) 0.0 5.0),
     mk la lo m, mkRng (draws g) (S (S (cursor g)))).
Proof.
  unfold read, uniform, bind, ret, random, peek. cbn.
  rewrite Nat.add_0_r, Nat.add_1_r. reflexivity.
Qed.

(** X1: along every sequence of readings, whatever the parameters and
    the draws, the stored and the reported latitude stay between -90 and
    90 and the stored and the reported longitude between -180 and 180. *)
Lemma gps_bounds (n : nat) (s : t) (g : Rng) :
  Forall (fun x =>
            (-90 <= latitude (snd x) /\ latitude (snd x) <= 90) /\
            (-180 <= longitude (snd x) /\ longitude (snd x) <= 180) /\
            (-90 <= reading_latitude (fst x)
             /\ reading_latitude (fst x) <= 90) /\
            (-180 <= reading_longitude (fst x)
             /\ reading_longitude (fst x) <= 180))
    (trace read n s g).
Proof.
  apply (trace_Forall read
           (fun r s' =>
              (-90 <= latitude s' /\ latitude s' <= 90) /\
              (-180 <= longitude s' /\ longitude s' <= 180) /\
              (-90 <= reading_latitude r /\ reading_latitude r <= 90) /\
              (-180 <= reading_longitude r /\ reading_longitude r <= 180))).
  intros s0 g0. rewrite (gps_read_unfold s0 g0). cbn.
  set (x := latitude s0 + _). set (y := longitude s0 + _).
  destruct (clamp_bounds (-90.0) 90.0 x) as [A1 A2]; [lra|].
  destruct (clamp_bounds (-180.0) 180.0 y) as [B1 B2]; [lra|].
  repeat split; try lra.
  - apply (pyround_ge 6 (inject_Z (-90))); [apply on_grid_Z|].
    unfold inject_Z. lra.
  - apply (pyround_le 6 (inject_Z 90)); [apply on_grid_Z|].
    unfold inject_Z. lra.
  - apply (pyround_ge 6 (inject_Z (-180))); [apply on_grid_Z|].
    unfold inject_Z. lra.
  - apply (pyround_le 6 (inject_Z 180)); [apply on_grid_Z|].
    unfold inject_Z. lra.
Qed.

End GPS.

(** ** Humidity *)

Section Humidity.
Import HumiditySensor.

Lemma humidity_after_bounds (s : t) (fl : option Q) (g : Rng) :
  0 <= humidity_after s fl g /\ humidity_after s fl g <= 100.
Proof.
  unfold humidity_after.
  match goal with
  | |- context [pymin 100.0 ?x] =>
      destruct (clamp_bounds 0.0 100.0 x) as [A B]; [lra|]
  end.
  lra.
Qed.

(** [read] never raises: the division of the mold risk is only reached
    with a threshold below the humidity, hence below 100. *)
Lemma humidity_read_ok (s : t) (fl : option Q) (g : Rng) :
  exists r,
    read s fl g
    = (Ok r, with_humidity s (humidity_after s fl g),
       mkRng (draws g) (S (cursor g))) /\
    humidity r = pyround (humidity_after s fl g) 2 /\
    0 <= humidity r /\ humidity r <= 100.
Proof.
  pose proof (humidity_after_bounds s fl g) as [H0 H1].
  assert (Hr : 0 <= pyround (humidity_after s fl g) 2 /\
               pyround (humidity_after s fl g) 2 <= 100).
  { split.
    - apply (pyround_ge 2 (inject_Z 0)); [apply on_grid_Z|exact H0].
    - apply (pyround_le 2 (inject_Z 100)); [apply on_grid_Z|exact H1]. }
  unfold read, uniform, bind, ret, random. cbn.
  fold (peek g 0) in *.
  replace (draws g (cursor g)) with (peek g 0)
    by (unfold peek; now rewrite Nat.add_0_r).
  fold (humidity_after s fl g).
  set (h := humidity_after s fl g) in *.
  destruct (Qltb (mold_risk_threshold s) h) eqn:Em.
  - apply Qltb_lt in Em. unfold pydiv.
    destruct (Qeq_bool (100.0 - mold_risk_threshold s) 0) eqn:Ez.
    + apply Qeq_bool_iff in Ez. lra.
    + eexists. split; [reflexivity|]. cbn. tauto.
  - eexists. split; [reflexivity|]. cbn. tauto.
Qed.

End Humidity.

(** ** Air quality *)

Section AirQuality.
Import AirQualitySensor.

Lemma aqi_after_bounds (s : t) (fl temp : option Q) (g : Rng) :
  0 <= aqi_after s fl temp g /\ aqi_after s fl temp g <= 500.
Proof.
  unfold aqi_after.
  match goal with
  | |- context [pymin 500.0 ?x] =>
      destruct (clamp_bounds 0.0 500.0 x) as [A B]; [lra|]
  end.
  lra.
Qed.

(** The category [read] reports is always a key of the table. *)
Lemma read_category_key (x : Q) :
  exists props, assoc_get AQI_CATEGORIES (read_category x) = Ok props.
Proof.
  unfold read_category, AQI_CATEGORIES. cbn [first_category range].
  repeat (destruct (_ && _); [eexists; reflexivity|]).
  eexists; reflexivity.
Qed.

Lemma in_range (lo hi x : Q) :
  lo <= x -> x <= hi -> Qleb lo x && Qleb x hi = true.
Proof.
  intros A B. apply andb_true_iff. split; now apply Qleb_le.
Qed.

Lemma out_of_range (lo hi x : Q) :
  x < lo \/ hi < x -> Qleb lo x && Qleb x hi = false.
Proof.
  intros [A|A]; apply andb_false_iff;
    [left|right]; now apply Qleb_gt.
Qed.

(** Inside the six ranges both classifiers give the range's category. *)
Lemma aqi_category_in_ranges (x : Q) :
  (0 <= x /\ x <= 50 -> read_category x = "good") /\
  (51 <= x /\ x <= 100 -> read_category x = "moderate") /\
  (101 <= x /\ x <= 150 -> read_category x = "unhealthy_sensitive") /\
  (151 <= x /\ x <= 200 -> read_category x = "unhealthy") /\
  (201 <= x /\ x <= 300 -> read_category x = "very_unhealthy") /\
  (301 <= x /\ x <= 500 -> read_category x = "hazardous").
Proof.
  unfold read_category, AQI_CATEGORIES. cbn [first_category range].
  repeat split; intros [A B];
    repeat first
      [ rewrite (in_range _ _ x) by lra
      | rewrite (out_of_range _ _ x) by (left; lra)
      | rewrite (out_of_range _ _ x) by (right; lra) ];
    reflexivity.
Qed.

(** Between two ranges no category is found: [read] falls back to
    "good" and [get_category_for_aqi] to "hazardous". *)
Lemma aqi_category_in_gaps (x : Q) :
  (50 < x /\ x < 51) \/ (100 < x /\ x < 101) \/ (150 < x /\ x < 151) \/
  (200 < x /\ x < 201) \/ (300 < x /\ x < 301) ->
  read_category x = "good" /\ get_category_for_aqi x = "hazardous".
Proof.
  unfold read_category, get_category_for_aqi, AQI_CATEGORIES.
  cbn [first_category range].
  intros H.
  assert (E : forall lo hi,
             (hi <= 50 \/ (51 <= lo /\ hi <= 100) \/
              (101 <= lo /\ hi <= 150) \/ (151 <= lo /\ hi <= 200) \/
              (201 <= lo /\ hi <= 300) \/ 301 <= lo) ->
             Qleb lo x && Qleb x hi = false).
  { intros lo hi Hr. apply out_of_range.
    destruct (Qlt_le_dec x lo) as [L|L]; [now left|right]. lra. }
  rewrite !E by lra. split; reflexivity.
Qed.

(** [read] never raises and keeps the AQI between 0 and 500. *)
Lemma aqi_read_ok (s : t) (fl temp : option Q) (g : Rng) :
  exists r,
    read s fl temp g
    = (Ok r, with_aqi s (aqi_after s fl temp g),
       mkRng (draws g) (S (cursor g))) /\
    aqi r = pyround (aqi_after s fl temp g) 2 /\
    category r = read_category (aqi_after s fl temp g) /\
    0 <= aqi r /\ aqi r <= 500.
Proof.
  pose proof (aqi_after_bounds s fl temp g) as [H0 H1].
  assert (Hr : 0 <= pyround (aqi_after s fl temp g) 2 /\
               pyround (aqi_after s fl temp g) 2 <= 500).
  { split.
    - apply (pyround_ge 2 (inject_Z 0)); [apply on_grid_Z|exact H0].
    - apply (pyround_le 2 (inject_Z 500)); [apply on_grid_Z|exact H1]. }
  unfold read, uniform, bind, ret, random. cbv beta iota zeta.
  replace (draws g (cursor g)) with (peek g 0)
    by (unfold peek; now rewrite Nat.add_0_r).
  fold (aqi_after s fl temp g).
  destruct (read_category_key (aqi_after s fl temp g)) as [props ->].
  eexists. split; [reflexivity|]. cbn [aqi category]. tauto.
Qed.

(** C4: a sensor with the default parameters, read at fill level 100
    and temperature 50 with a variation of 5.5, stores and reports an
    AQI of 150.5.  The value lies between the ranges of
    unhealthy_sensitive (101 to 150) and unhealthy (151 to 200); [read]
    reports the category "good", and [get_category_for_aqi] gives
    "hazardous" for the same value. *)
Theorem aqi_between_ranges_reported_good :
  match read default (Some 100.0) (Some 50.0) (rng_of [0.775]) with
  | (Ok r, s', _) =>
      current_aqi s' == 150.5 /\ aqi r == 150.5 /\
      category r = "good" /\
      get_category_for_aqi (current_aqi s') = "hazardous" /\
      read_category 150 = "unhealthy_sensitive" /\
      read_category 151 = "unhealthy"
  | _ => False
  end.
Proof. vm_compute. repeat split; reflexivity. Qed.

End AirQuality.

(** ** Weighted choice among four alternatives *)

Section Choices4.
Context {A : Type} (p0 p1 p2 p3 : A) (w0 w1 w2 w3 : Q).

(** The cumulative weights [accumulate] builds. *)
Local Abbreviation c0 := (0 + w0).
Local Abbreviation c1 := (0 + w0 + w1).
Local Abbreviation c2 := (0 + w0 + w1 + w2).
Local Abbreviation c3 := (0 + w0 + w1 + w2 + w3).

Lemma bisect4 (x : Q) :
  bisect [c0; c1; c2; c3] x 0 3
  = if Qltb x c1 then (if Qltb x c0 then 0%nat else 1%nat)
    else (if Qltb x c2 then 2%nat else 3%nat).
Proof.
  unfold bisect. cbn.
  destruct (Qltb x c1), (Qltb x c0), (Qltb x c2); reflexivity.
Qed.

Lemma choices_of4 (r : Q) :
  Qleb c3 0 = false ->
  choices_of [p0; p1; p2; p3] [w0; w1; w2; w3] r
  = Ok (if Qltb (r * c3) c1 then (if Qltb (r * c3) c0 then p0 else p1)
        else (if Qltb (r * c3) c2 then p2 else p3)).
Proof.
  intros H. unfold choices_of.
  change (accumulate [w0; w1; w2; w3]) with [c0; c1; c2; c3].
  cbn [length Nat.eqb negb last]. rewrite H.
  change (4 - 1)%nat with 3%nat. rewrite bisect4.
  destruct (Qltb (r * c3) c1), (Qltb (r * c3) c0), (Qltb (r * c3) c2);
    reflexivity.
Qed.

Lemma choices4 (g : Rng) :
  Qleb c3 0 = false ->
  choices [p0; p1; p2; p3] [w0; w1; w2; w3] g
  = (choices_of [p0; p1; p2; p3] [w0; w1; w2; w3] (peek g 0),
     mkRng (draws g) (S (cursor g))).
Proof.
  intros H. unfold choices.
  change (accumulate [w0; w1; w2; w3]) with [c0; c1; c2; c3].
  cbn [length Nat.eqb negb last]. rewrite H.
  unfold bind, ret, random, peek. now rewrite Nat.add_0_r.
Qed.

Lemma choices_of4_In (r : Q) :
  Qleb c3 0 = false ->
  exists x,
    choices_of [p0; p1; p2; p3] [w0; w1; w2; w3] r = Ok x /\
    In x [p0; p1; p2; p3].
Proof.
  intros H. rewrite (choices_of4 r H).
  eexists. split; [reflexivity|].
  destruct (Qltb (r * c3) c1), (Qltb (r * c3) c0), (Qltb (r * c3) c2);
    cbn; tauto.
Qed.

End Choices4.

(** ** Odor *)

Section Odor.
Import OdorSensor.

Lemma odor_distribution_cases (s : t) (fl : option Q) :
  exists w0 w1 w2 w3,
    odor_distribution s fl
    = (["organic"; "chemical"; "mold"; "none"], [w0; w1; w2; w3]) /\
    Qleb (0 + w0 + w1 + w2 + w3) 0 = false.
Proof.
  unfold odor_distribution. destruct fl as [fl|].
  - repeat match goal with
           | |- context [if ?c then _ else _] => destruct c
           end;
      do 4 eexists; split; reflexivity.
  - do 4 eexists; split; reflexivity.
Qed.

Lemma odor_types_known (x : string) :
  In x ["organic"; "chemical"; "mold"; "none"] ->
  exists props, assoc_get ODOR_TYPES x = Ok props.
Proof.
  intros [<-|[<-|[<-|[<-|[]]]]]; eexists; reflexivity.
Qed.

(** [read] never raises, whatever the fill level, and the intensity it
    stores and reports lies between 0 and 1. *)
Lemma odor_read_ok (s : t) (fl : option Q) (g : Rng) :
  exists ty r s',
    choices_of (fst (odor_distribution s fl))
      (snd (odor_distribution s fl)) (peek g 0) = Ok ty /\
    read s fl g = (Ok r, s', mkRng (draws g) (S (S (S (cursor g))))) /\
    odorType r = ty /\ current_odor_type s' = ty /\
    In ty (keys ODOR_TYPES) /\
    (0 <= current_intensity s' /\ current_intensity s' <= 1) /\
    (0 <= intensity r /\ intensity r <= 1).
Proof.
  destruct (odor_distribution_cases s fl) as (w0 & w1 & w2 & w3 & He & Hw).
  unfold read. rewrite He. cbn [fst snd].
  unfold bind at 1. rewrite (choices4 _ _ _ _ _ _ _ _ g Hw).
  destruct (choices_of4_In "organic" "chemical" "mold" "none"
              w0 w1 w2 w3 (peek g 0) Hw) as (ty & -> & Hin).
  destruct (odor_types_known ty Hin) as [props ->].
  destruct (intensity_range props) as [mn mx].
  unfold uniform, bind, ret, random. cbv beta iota zeta.
  cbn [draws cursor].
  match goal with
  | |- context [pymin 1.0 ?x] =>
      destruct (clamp_bounds 0.0 1.0 x) as [A B]; [lra|];
      set (i := pymax 0.0 (pymin 1.0 x)) in *
  end.
  exists ty. do 2 eexists.
  split; [reflexivity|]. split; [reflexivity|].
  cbn [odorType current_odor_type current_intensity intensity with_odor].
  repeat split; try lra; try exact Hin.
  - apply (pyround_ge 3 (inject_Z 0)); [apply on_grid_Z|].
    unfold inject_Z. lra.
  - apply (pyround_le 3 (inject_Z 1)); [apply on_grid_Z|].
    unfold inject_Z. lra.
Qed.

(** Without a fill level the odor type is drawn with the weights 0.3,
    0.2, 0.2 and 0.3: the unit interval is cut at 0.3, 0.5 and 0.7. *)
Lemma uncorrelated_odor_choice (s : t) (r : Q) :
  choices_of (fst (odor_distribution s None))
    (snd (odor_distribution s None)) r
  = Ok (if Qltb r 0.3 then "organic"
        else if Qltb r 0.5 then "chemical"
        else if Qltb r 0.7 then "mold" else "none").
Proof.
  change (fst (odor_distribution s None))
    with ["organic"; "chemical"; "mold"; "none"].
  change (snd (odor_distribution s None)) with [0.3; 0.2; 0.2; 0.3].
  rewrite choices_of4 by reflexivity.
  repeat match goal with
         | |- context [Qltb ?a ?b] =>
             let E := fresh "E" in
             destruct (Qltb a b) eqn:E;
             [apply Qltb_lt in E|apply Qltb_ge in E]
         end;
    try reflexivity; exfalso; lra.
Qed.

End Odor.

(** ** Readings without correlation inputs *)

(** C10: called without a fill level (and, for air quality, without a
    temperature), each of the three correlated sensors returns a reading
    and raises nothing.  The humidity is the base humidity plus
    [uniform(-var, var)] clamped to 0..100, the AQI is the base AQI plus
    [uniform(-var, var)] clamped to 0..500, and the odor type is drawn over
    organic, chemical, mold and none with the weights 0.3, 0.2, 0.2 and
    0.3; stored and reported values respect the clamping bounds. *)
Theorem uncorrelated_fallback
    (h : HumiditySensor.t) (a : AirQualitySensor.t) (o : OdorSensor.t)
    (g : Rng) :
  let hum :=
    pymax 0.0
      (pymin 100.0
         (HumiditySensor.base_humidity h
          + uniform_of (- HumiditySensor.humidity_variation h)
              (HumiditySensor.humidity_variation h) (peek g 0))) in
  let aq :=
    pymax 0.0
      (pymin 500.0
         (AirQualitySensor.base_aqi a
          + uniform_of (- AirQualitySensor.aqi_variation a)
              (AirQualitySensor.aqi_variation a) (peek g 0))) in
  let ty :=
    if Qltb (peek g 0) 0.3 then "organic"
    else if Qltb (peek g 0) 0.5 then "chemical"
    else if Qltb (peek g 0) 0.7 then "mold" else "none" in
  (exists r,
     HumiditySensor.read h None g
     = (Ok r, HumiditySensor.with_humidity h hum,
        mkRng (draws g) (S (cursor g))) /\
     HumiditySensor.humidity r = pyround hum 2 /\
     (0 <= hum /\ hum <= 100) /\
     (0 <= HumiditySensor.humidity r /\ HumiditySensor.humidity r <= 100))
  /\
  (exists r,
     AirQualitySensor.read a None None g
     = (Ok r, AirQualitySensor.with_aqi a aq,
        mkRng (draws g) (S (cursor g))) /\
     AirQualitySensor.aqi r = pyround aq 2 /\
     (0 <= aq /\ aq <= 500) /\
     (0 <= AirQualitySensor.aqi r /\ AirQualitySensor.aqi r <= 500))
  /\
  (exists r o',
     OdorSensor.read o None g
     = (Ok r, o', mkRng (draws g) (S (S (S (cursor g))))) /\
     OdorSensor.odorType r = ty /\
     OdorSensor.current_odor_type o' = ty /\
     (0 <= OdorSensor.current_intensity o'
      /\ OdorSensor.current_intensity o' <= 1) /\
     (0 <= OdorSensor.intensity r /\ OdorSensor.intensity r <= 1)).
Proof.
  cbv zeta. split; [|split].
  - destruct (humidity_read_ok h None g) as (r & E & Hr & Hb).
    pose proof (humidity_after_bounds h None g) as Hh.
    exists r. repeat split; try tauto; try exact E; exact Hr.
  - destruct (aqi_read_ok a None None g) as (r & E & Hr & _ & Hb).
    pose proof (aqi_after_bounds a None None g) as Ha.
    exists r. repeat split; try tauto; try exact E; exact Hr.
  - destruct (odor_read_ok o None g)
      as (ty & r & o' & Hc & E & Hr & Ho & _ & Hi & Hri).
    rewrite uncorrelated_odor_choice in Hc. injection Hc as <-.
    exists r, o'. repeat split; try tauto; try exact E.
Qed.

(** ** The weighted choice on cumulative weights *)

Section WeightedChoice.

Lemma accumulate_from_length (acc : Q) (ws : list Q) :
  length (accumulate_from acc ws) = length ws.
Proof.
  revert acc. induction ws as [|w ws IH]; intros acc; cbn;
    [reflexivity|now rewrite IH].
Qed.

(** The entry of index j of the cumulative weights is the sum of the
    first j+1 weights, added from the left. *)
Lemma accumulate_from_nth (ws : list Q) :
  forall (acc : Q) (j : nat),
    (j < length ws)%nat ->
    nth j (accumulate_from acc ws) 0 = fold_left Qplus (take (S j) ws) acc.
Proof.
  induction ws as [|w ws IH]; intros acc j Hj; cbn [length] in Hj; [lia|].
  destruct j as [|j]; cbn [accumulate_from nth firstn fold_left].
  - reflexivity.
  - apply IH. lia.
Qed.

(** The last cumulative weight is the sum of all the weights. *)
Lemma accumulate_from_last (ws : list Q) :
  forall (acc total : Q),
    last (accumulate_from acc ws) = Some total ->
    total = fold_left Qplus ws acc.
Proof.
  induction ws as [|w ws IH]; intros acc total H; [discriminate|].
  destruct ws as [|w' ws].
  - cbn in H. injection H as <-. reflexivity.
  - cbn [fold_left]. apply IH. exact H.
Qed.

Lemma prefix_sum_ge (l : list Q) :
  forall acc : Q,
    Forall (fun w => 0 <= w) l -> acc <= fold_left Qplus l acc.
Proof.
  induction l as [|w l IH]; intros acc H; cbn [fold_left]; [lra|].
  inversion H as [|? ? Hw Hl]; subst.
  specialize (IH (acc + w) Hl). lra.
Qed.

Lemma prefix_sum_mono (ws : list Q) :
  forall (acc : Q) (i j : nat),
    Forall (fun w => 0 <= w) ws -> (i <= j)%nat ->
    fold_left Qplus (take i ws) acc <= fold_left Qplus (take j ws) acc.
Proof.
  induction ws as [|w ws IH]; intros acc i j H Hij.
  - destruct i, j; cbn [firstn fold_left]; lra.
  - inversion H as [|? ? Hw Hl]; subst. destruct i as [|i].
    + change (acc <= fold_left Qplus (take j (w :: ws)) acc).
      apply prefix_sum_ge. now apply Forall_take.
    + destruct j as [|j]; [lia|]. cbn [firstn fold_left].
      apply IH; [exact Hl|lia].
Qed.

(** Weights that are not negative give cumulative weights in ascending
    order. *)
Lemma accumulate_sorted (ws : list Q) (i j : nat) :
  Forall (fun w => 0 <= w) ws -> (i <= j < length ws)%nat ->
  nth i (accumulate ws) 0 <= nth j (accumulate ws) 0.
Proof.
  intros H Hij. unfold accumulate.
  rewrite !accumulate_from_nth by lia.
  apply prefix_sum_mono; [exact H|lia].
Qed.

(** The binary search on an ascending list: every entry before the
    returned index is at most [x], every entry from it on exceeds [x]. *)
Lemma bisect_loop_spec (a : list Q) (x : Q) :
  (forall i j, (i <= j < length a)%nat -> nth i a 0 <= nth j a 0) ->
  forall (fuel lo hi : nat),
    (lo <= hi <= length a)%nat -> (hi - lo <= fuel)%nat ->
    (lo <= bisect_loop fuel a x lo hi <= hi)%nat /\
    (forall j, (lo <= j < bisect_loop fuel a x lo hi)%nat ->
               nth j a 0 <= x) /\
    (forall j, (bisect_loop fuel a x lo hi <= j < hi)%nat ->
               x < nth j a 0).
Proof.
  intros Hs. induction fuel as [|fuel IH]; intros lo hi Hb Hf;
    cbn [bisect_loop].
  - split; [lia|]. split; intros j Hj; lia.
  - destruct (lo <? hi)%nat eqn:E.
    + apply Nat.ltb_lt in E.
      assert (Hm : (lo <= (lo + hi) / 2)%nat /\ ((lo + hi) / 2 < hi)%nat).
      { split.
        - apply Nat.div_le_lower_bound; lia.
        - apply Nat.Div0.div_lt_upper_bound; lia. }
      set (mid := ((lo + hi) / 2)%nat) in *.
      destruct (Qltb x (nth mid a 0)) eqn:C.
      * apply Qltb_lt in C.
        destruct (IH lo mid) as (R & L & U); [lia|lia|].
        split; [lia|]. split; [exact L|]. intros j Hj.
        destruct (Nat.lt_ge_cases j mid) as [Hlt|Hge]; [apply U; lia|].
        apply Qlt_le_trans with (nth mid a 0); [exact C|apply Hs; lia].
      * apply Qltb_ge in C.
        destruct (IH (S mid) hi) as (R & L & U); [lia|lia|].
        split; [lia|]. split; [|exact U]. intros j Hj.
        destruct (Nat.lt_ge_cases mid j) as [Hlt|Hge]; [apply L; lia|].
        apply Qle_trans with (nth mid a 0); [apply Hs; lia|exact C].
    + apply Nat.ltb_ge in E. split; [lia|]. split; intros j Hj; lia.
Qed.

(** [random.choices] as a categorical draw: with weights that are not
    negative, the item returned for the draw [r] is the first whose
    cumulative weight exceeds [r] times the total (the last item when
    none does). *)
Lemma choices_of_categorical {A} (pop : list A) (ws : list Q) (r : Q)
    (x : A) :
  Forall (fun w => 0 <= w) ws ->
  choices_of pop ws r = Ok x ->
  exists i : nat,
    nth_error pop i = Some x /\
    (forall j, (j < i)%nat ->
       fold_left Qplus (take (S j) ws) 0 <= r * fold_left Qplus ws 0) /\
    ((S i < length pop)%nat ->
     r * fold_left Qplus ws 0 < fold_left Qplus (take (S i) ws) 0).
Proof.
  intros Hw. unfold choices_of.
  destruct (length (accumulate ws) =? length pop)%nat eqn:El;
    cbn [negb]; [|discriminate].
  apply Nat.eqb_eq in El.
  pose proof (accumulate_from_length 0 ws) as Hlen.
  fold (accumulate ws) in Hlen.
  destruct (last (accumulate ws)) as [total|] eqn:Et; [|discriminate].
  apply accumulate_from_last in Et. subst total.
  destruct (Qleb (fold_left Qplus ws 0) 0); [discriminate|].
  destruct (bisect_loop_spec (accumulate ws) (r * fold_left Qplus ws 0)
              (fun i j H => accumulate_sorted ws i j Hw
                              ltac:(rewrite <- Hlen; exact H))
              (S (length (accumulate ws))) 0 (length pop - 1))
    as (R & L & U); [lia|lia|].
  fold (bisect (accumulate ws) (r * fold_left Qplus ws 0) 0
          (length pop - 1)) in R, L, U.
  set (i := bisect (accumulate ws) (r * fold_left Qplus ws 0) 0
              (length pop - 1)) in *.
  destruct (nth_error pop i) as [y|] eqn:E; [|discriminate].
  intros [= <-]. exists i. split; [exact E|]. split.
  - intros j Hj. specialize (L j ltac:(lia)).
    unfold accumulate in L. rewrite accumulate_from_nth in L by lia.
    exact L.
  - intros Hi. specialize (U i ltac:(lia)).
    unfold accumulate in U. rewrite accumulate_from_nth in U by lia.
    exact U.
Qed.

(** Rounding to the nearest integer moves a number by at most a half. *)
Lemma round_half_even_close (y : Q) :
  inject_Z (round_half_even y) - y <= 1 # 2 /\
  y - inject_Z (round_half_even y) <= 1 # 2.
Proof.
  pose proof (Qfloor_le y) as Hlo.
  pose proof (Qlt_floor y) as Hhi.
  rewrite inject_Z_plus in Hhi.
  unfold round_half_even.
  destruct (Qltb (y - inject_Z (Qfloor y)) (1 # 2)) eqn:A.
  - apply Qltb_lt in A. unfold inject_Z in *. split; lra.
  - apply Qltb_ge in A.
    destruct (Qltb (1 # 2) (y - inject_Z (Qfloor y))) eqn:B.
    + rewrite inject_Z_plus. unfold inject_Z in *. split; lra.
    + apply Qltb_ge in B.
      destruct (Z.even (Qfloor y));
        rewrite ?inject_Z_plus; unfold inject_Z in *; split; lra.
Qed.

(** [round(x, 3)] is a whole number of thousandths, at most half a
    thousandth away from [x]. *)
Lemma pyround_3_close (x : Q) :
  (exists k : Z, pyround x 3 == inject_Z k / 1000) /\
  pyround x 3 - x <= 0.0005 /\ x - pyround x 3 <= 0.0005.
Proof.
  unfold pyround.
  change (inject_Z (pow10 3)) with 1000.
  destruct (round_half_even_close (x * 1000)) as [A B].
  set (k := round_half_even (x * 1000)) in *.
  split; [exists k; reflexivity|].
  assert (E : inject_Z k / 1000 == inject_Z k * (1 # 1000)) by reflexivity.
  rewrite E. split; lra.
Qed.

End WeightedChoice.

(** ** Recyclable detector *)

Section Recyclable.
Import RecyclableSensor.

Lemma no_detection_items :
  no_detection !! "materialDetected" = Some (VBool false) /\
  no_detection !! "materialType" = Some VNone /\
  no_detection !! "materialSubtype" = Some VNone /\
  no_detection !! "weight" = Some (VFloat 0.0) /\
  no_detection !! "weightUnit" = Some (VStr "kg") /\
  no_detection !! "tokensAwarded" = None /\
  no_detection !! "density" = None /\
  no_detection !! "userId" = None.
Proof. vm_compute. repeat split; reflexivity. Qed.

Lemma no_detection_keys :
  dom no_detection
  = ({["materialDetected"; "materialType"; "materialSubtype"; "weight";
       "weightUnit"]} : gset string).
Proof. unfold no_detection. rewrite !dom_insert_L. set_solver. Qed.

Lemma detection_items (mt st : string) (w d tk : Q) (uid : option string) :
  let dict := detection mt st w d tk uid in
  dict !! "materialDetected" = Some (VBool true) /\
  dict !! "materialType" = Some (VStr mt) /\
  dict !! "materialSubtype" = Some (VStr st) /\
  dict !! "weight" = Some (VFloat w) /\
  dict !! "density" = Some (VFloat d) /\
  dict !! "tokensAwarded" = Some (VFloat tk) /\
  dict !! "userId" = Some (val_of_user_id uid).
Proof.
  cbv zeta. unfold detection. repeat split; vm_compute; reflexivity.
Qed.

(** A number whose product with the power of ten is an integer. *)
Lemma on_grid_den (n : nat) (a : Q) :
  Qden (Qred (a * inject_Z (pow10 n))) = 1%positive -> on_grid n a.
Proof.
  intros H. exists (Qnum (Qred (a * inject_Z (pow10 n)))).
  rewrite <- (Qred_correct (a * inject_Z (pow10 n))) at 1.
  destruct (Qred (a * inject_Z (pow10 n))) as [num den].
  cbn in *. subst den. reflexivity.
Qed.

(** Every entry of the material table has four subtypes and a weight
    range given to three decimals. *)
Lemma material_props_facts (mt : string) (props : MaterialProps) :
  assoc_get MATERIAL_TYPES mt = Ok props ->
  length (subtypes props) = 4%nat /\
  fst (weight_range props) <= snd (weight_range props) /\
  on_grid 3 (fst (weight_range props)) /\
  on_grid 3 (snd (weight_range props)).
Proof.
  unfold MATERIAL_TYPES. cbn [assoc_get].
  repeat (destruct (String.eqb _ mt);
          [intros [= <-]; cbn [subtypes weight_range fst snd length];
           repeat split;
           try (apply on_grid_den; reflexivity);
           try (apply Qleb_le; reflexivity)|]).
  discriminate.
Qed.

(** [random.choices] makes its one draw exactly when its arguments are
    valid. *)
Lemma choices_consumes {A} (pop : list A) (ws : list Q) (r : Q) (x : A)
    (g : Rng) :
  choices_of pop ws r = Ok x ->
  choices pop ws g
  = (choices_of pop ws (peek g 0), mkRng (draws g) (S (cursor g))).
Proof.
  intros H. unfold choices. unfold choices_of in H.
  destruct (negb (length (accumulate ws) =? length pop)%nat);
    [discriminate|].
  destruct (last (accumulate ws)) as [total|]; [|discriminate].
  destruct (Qleb total 0); [discriminate|].
  unfold bind, ret, random, peek. now rewrite Nat.add_0_r.
Qed.

Lemma randbelow_of_lt (n : nat) (r : Q) :
  (0 < n)%nat -> unit_draw r -> (randbelow_of n r < n)%nat.
Proof.
  intros Hn [H0 H1]. unfold randbelow_of.
  set (m := inject_Z (Z.of_nat n)).
  assert (Hm : 0 < m).
  { unfold m. replace 0 with (inject_Z 0) by reflexivity.
    rewrite <- Zlt_Qlt. lia. }
  assert (Hlo : (0 <= Qfloor (r * m))%Z).
  { replace 0%Z with (Qfloor (inject_Z 0)) by apply Qfloor_Z.
    apply Qfloor_resp_le. unfold inject_Z. nra. }
  assert (Hhi : (Qfloor (r * m) < Z.of_nat n)%Z).
  { rewrite Zlt_Qlt. fold m.
    apply Qle_lt_trans with (r * m); [apply Qfloor_le|nra]. }
  lia.
Qed.

(** [random.choice] on a non-empty sequence returns one of its items. *)
Lemma choice_of_unit {A} (seq : list A) (r : Q) :
  seq <> [] -> unit_draw r ->
  exists x, choice_of seq r = Ok x /\ In x seq.
Proof.
  intros Hne Hr. unfold choice_of.
  assert (Hlt : (randbelow_of (length seq) r < length seq)%nat).
  { apply randbelow_of_lt; [|exact Hr].
    destruct seq; [congruence|cbn; lia]. }
  destruct (nth_error seq (randbelow_of (length seq) r)) as [x|] eqn:E.
  - exists x. split; [reflexivity|]. eapply nth_error_In; eassumption.
  - apply nth_error_None in E. lia.
Qed.

Lemma choice_consumes {A} (seq : list A) (g : Rng) :
  seq <> [] ->
  choice seq g = (choice_of seq (peek g 0), mkRng (draws g) (S (cursor g))).
Proof.
  intros Hne. destruct seq as [|x seq]; [congruence|].
  unfold choice, bind, ret, random, peek. now rewrite Nat.add_0_r.
Qed.

Lemma peek_next (g : Rng) (k : nat) :
  peek (mkRng (draws g) (S (cursor g))) k = peek g (S k).
Proof. unfold peek. cbn. f_equal. lia. Qed.

Lemma peek_0 (g : Rng) : draws g (cursor g) = peek g 0.
Proof. unfold peek. now rewrite Nat.add_0_r. Qed.

(** The index [random.choice] takes from a unit draw [r] over [n] items:
    the i with i/n <= r < (i+1)/n. *)
Lemma randbelow_of_spec (n : nat) (r : Q) :
  unit_draw r ->
  inject_Z (Z.of_nat (randbelow_of n r)) <= r * inject_Z (Z.of_nat n) /\
  r * inject_Z (Z.of_nat n) < inject_Z (Z.of_nat (randbelow_of n r)) + 1.
Proof.
  intros [H0 H1]. unfold randbelow_of.
  set (y := r * inject_Z (Z.of_nat n)).
  assert (Hn : 0 <= inject_Z (Z.of_nat n)).
  { replace 0 with (inject_Z 0) by reflexivity. rewrite <- Zle_Qle. lia. }
  assert (Hy : 0 <= y) by (unfold y; nra).
  assert (Hf : (0 <= Qfloor y)%Z).
  { replace 0%Z with (Qfloor (inject_Z 0)) by apply Qfloor_Z.
    apply Qfloor_resp_le. exact Hy. }
  rewrite Z2Nat.id by exact Hf.
  pose proof (Qfloor_le y) as Hlo.
  pose proof (Qlt_floor y) as Hhi.
  rewrite inject_Z_plus in Hhi.
  split; [exact Hlo|exact Hhi].
Qed.

(** What the dictionary of a detection holds. *)
Lemma detection_record (mt st : string) (w d tk : Q) (uid : option string) :
  let dict := detection mt st w d tk uid in
  dom dict
  = ({["materialDetected"; "materialType"; "materialSubtype"; "weight";
       "weightUnit"; "density"; "densityUnit"; "tokensAwarded";
       "userId"]} : gset string) /\
  dict !! "materialDetected" = Some (VBool true) /\
  dict !! "materialType" = Some (VStr mt) /\
  dict !! "materialSubtype" = Some (VStr st) /\
  dict !! "weight" = Some (VFloat w) /\
  dict !! "weightUnit" = Some (VStr "kg") /\
  dict !! "density" = Some (VFloat d) /\
  dict !! "densityUnit" = Some (VStr "pounds/cubic_yard") /\
  dict !! "tokensAwarded" = Some (VFloat tk) /\
  dict !! "userId"
  = Some (match uid with Some u => VStr u | None => VNone end).
Proof.
  cbv zeta. split.
  - unfold detection. rewrite !dom_insert_L. set_solver.
  - unfold detection, val_of_user_id. repeat split; vm_compute; reflexivity.
Qed.

Section ReadContract.
Context {TM : Type}.
Variable award_tokens :
  TM -> string -> string -> string -> Q -> string -> (bool * Q) * TM.

(** The award step calls the manager exactly when a manager is attached
    and a user id is set, and then hands back what the call returned. *)
Lemma award_spec (s : t) (tm : TM) (mt st : string) (w : Q) (now : string) :
  (forall uid,
     token_manager s = Some SessionTokenManager ->
     user_id_set (current_user_id s) = Some uid ->
     award award_tokens s tm mt st w now
     = (snd (fst (award_tokens tm uid mt st w now)),
        snd (award_tokens tm uid mt st w now))) /\
  (token_manager s = None \/ user_id_set (current_user_id s) = None ->
   award award_tokens s tm mt st w now = (0.0, tm)).
Proof.
  unfold award. split.
  - intros uid -> ->.
    destruct (award_tokens tm uid mt st w now) as [[ok tk] tm'].
    reflexivity.
  - intros [->| ->]; [reflexivity|].
    destruct (token_manager s) as [[]|]; reflexivity.
Qed.

Lemma read_no_detection (s : t) (tm : TM) (now : string) (g : Rng) :
  0.9 < peek g 0 ->
  read award_tokens s tm now g
  = (Ok no_detection, tm, mkRng (draws g) (S (cursor g))).
Proof.
  intros H. unfold read, bind, random. cbv beta iota.
  rewrite peek_0. apply Qltb_lt in H. rewrite H. reflexivity.
Qed.

Lemma read_detection (s : t) (tm : TM) (now : string) (g : Rng)
    (mt : string) (props : MaterialProps) :
  peek g 0 <= 0.9 ->
  choices_of (keys (detection_probabilities s))
    (values (detection_probabilities s)) (peek g 1) = Ok mt ->
  assoc_get MATERIAL_TYPES mt = Ok props ->
  unit_draw (peek g 2) ->
  exists st,
    choice_of (subtypes props) (peek g 2) = Ok st /\
    In st (subtypes props) /\
    let w :=
      pyround
        (uniform_of (fst (weight_range props)) (snd (weight_range props))
           (peek g 3)) 3 in
    read award_tokens s tm now g
    = (Ok (detection mt st w (density props)
             (fst (award award_tokens s tm mt st w now))
             (current_user_id s)),
       snd (award award_tokens s tm mt st w now),
       mkRng (draws g) (S (S (S (S (cursor g)))))).
Proof.
  intros H Hc Hp Hu.
  destruct (material_props_facts mt props Hp) as (Hlen & _).
  assert (Hne : subtypes props <> []).
  { intros E. rewrite E in Hlen. discriminate. }
  destruct (choice_of_unit (subtypes props) (peek g 2) Hne Hu)
    as (st & Hst & Hin).
  exists st. split; [exact Hst|]. split; [exact Hin|]. cbv zeta.
  unfold read. unfold bind at 1. unfold random at 1. cbv beta iota.
  rewrite peek_0. apply Qltb_ge in H. rewrite H.
  unfold bind at 1.
  rewrite (choices_consumes _ _ _ _ (mkRng (draws g) (S (cursor g))) Hc).
  rewrite peek_next, Hc, Hp.
  unfold bind at 1. rewrite (choice_consumes _ _ Hne).
  rewrite !peek_next, Hst.
  destruct (weight_range props) as [mn mx]. cbn [fst snd].
  unfold uniform, bind, ret, random. cbv beta iota. cbn [draws cursor].
  replace (draws g (S (S (S (cursor g))))) with (peek g 3)
    by (unfold peek; f_equal; lia).
  destruct (award award_tokens s tm mt st _ now) as [tk tm'].
  reflexivity.
Qed.

End ReadContract.

Lemma user_id_set_spec (o : option string) (uid : string) :
  user_id_set o = Some uid <-> o = Some uid /\ uid <> "".
Proof.
  unfold user_id_set. destruct o as [u|].
  - destruct (String.eqb u "") eqn:E.
    + apply String.eqb_eq in E. subst u.
      split; [discriminate|]. intros [[= <-] N]. congruence.
    + apply String.eqb_neq in E.
      split; [intros [= <-]; now split|]. intros [[= <-] _]. reflexivity.
  - split; [discriminate|]. intros [[=] _].
Qed.

(** C7: [read] reports no detection exactly when its first draw exceeds
    0.9 (one tenth of the unit interval), with materialDetected false,
    weight 0.0 and the token manager untouched.  Otherwise it returns a
    detection after four draws:
    - the material type is the weighted choice over the configured
      probabilities: with weights that are not negative, the first key
      whose cumulative weight exceeds the second draw times the total;
    - the subtype is the item of that material's list at the index i with
      i/n <= r < (i+1)/n, for the third draw r and the n items of the
      list;
    - the weight is the fourth draw scaled to the material's range and
      rounded to 3 decimals: a whole number of thousandths inside the
      range, less than a thousandth away from the scaled draw;
    - when a manager is attached and a user id is set, the manager's
      [award_tokens] is applied once, to the user, the type, the subtype
      and the weight, and the tokens it returns are reported; in every
      other detection case the tokens are 0.0 and the manager is unchanged;
    - the dictionary returned holds materialDetected true, the type, the
      subtype, the weight in kg, the material's density, the tokens
      awarded and the current user id, under nine keys. *)
Theorem recyclable_read_contract {TM : Type}
    (award_tokens :
       TM -> string -> string -> string -> Q -> string -> (bool * Q) * TM)
    (s : t) (tm : TM) (now : string) (g : Rng) :
  (0.9 < peek g 0 ->
   read award_tokens s tm now g
   = (Ok no_detection, tm, mkRng (draws g) (S (cursor g))) /\
   no_detection !! "materialDetected" = Some (VBool false) /\
   no_detection !! "weight" = Some (VFloat 0.0)) /\
  (peek g 0 <= 0.9 ->
   forall mt props,
     choices_of (keys (detection_probabilities s))
       (values (detection_probabilities s)) (peek g 1) = Ok mt ->
     assoc_get MATERIAL_TYPES mt = Ok props ->
     unit_draw (peek g 2) -> unit_draw (peek g 3) ->
     exists st w tk tm',
       choice_of (subtypes props) (peek g 2) = Ok st /\
       In st (subtypes props) /\
       w = pyround
             (uniform_of (fst (weight_range props))
                (snd (weight_range props)) (peek g 3)) 3 /\
       (fst (weight_range props) <= w /\ w <= snd (weight_range props)) /\
       read award_tokens s tm now g
       = (Ok (detection mt st w (density props) tk (current_user_id s)),
          tm', mkRng (draws g) (S (S (S (S (cursor g)))))) /\
       (forall uid,
          token_manager s = Some SessionTokenManager ->
          current_user_id s = Some uid -> uid <> "" ->
          tk = snd (fst (award_tokens tm uid mt st w now)) /\
          tm' = snd (award_tokens tm uid mt st w now)) /\
       (token_manager s = None \/ current_user_id s = None \/
        current_user_id s = Some "" ->
        tk = 0.0 /\ tm' = tm) /\
       (exists d,
          fst (fst (read award_tokens s tm now g)) = Ok d /\
          dom d
          = ({["materialDetected"; "materialType"; "materialSubtype";
               "weight"; "weightUnit"; "density"; "densityUnit";
               "tokensAwarded"; "userId"]} : gset string) /\
          d !! "materialDetected" = Some (VBool true) /\
          d !! "materialType" = Some (VStr mt) /\
          d !! "materialSubtype" = Some (VStr st) /\
          d !! "weight" = Some (VFloat w) /\
          d !! "weightUnit" = Some (VStr "kg") /\
          d !! "density" = Some (VFloat (density props)) /\
          d !! "densityUnit" = Some (VStr "pounds/cubic_yard") /\
          d !! "tokensAwarded" = Some (VFloat tk) /\
          d !! "userId"
          = Some (match current_user_id s with
                  | Some u => VStr u
                  | None => VNone
                  end)) /\
       (exists i : nat,
          nth_error (subtypes props) i = Some st /\
          inject_Z (Z.of_nat i)
          <= peek g 2 * inject_Z (Z.of_nat (length (subtypes props))) /\
          peek g 2 * inject_Z (Z.of_nat (length (subtypes props)))
          < inject_Z (Z.of_nat i) + 1) /\
       ((exists k : Z, w == inject_Z k / 1000) /\
        w - (fst (weight_range props)
             + (snd (weight_range props) - fst (weight_range props))
               * peek g 3) < 0.001 /\
        (fst (weight_range props)
         + (snd (weight_range props) - fst (weight_range props))
           * peek g 3) - w < 0.001) /\
       (Forall (fun p => 0 <= p) (values (detection_probabilities s)) ->
        exists i : nat,
          nth_error (keys (detection_probabilities s)) i = Some mt /\
          (forall j, (j < i)%nat ->
             fold_left Qplus
               (take (S j) (values (detection_probabilities s))) 0
             <= peek g 1
                * fold_left Qplus (values (detection_probabilities s)) 0) /\
          ((S i < length (keys (detection_probabilities s)))%nat ->
           peek g 1
           * fold_left Qplus (values (detection_probabilities s)) 0
           < fold_left Qplus
               (take (S i) (values (detection_probabilities s))) 0))).
Proof.
  split.
  - intros H. split; [now apply read_no_detection|].
    split; apply no_detection_items.
  - intros H mt props Hc Hp Hu2 Hu3.
    destruct (read_detection award_tokens s tm now g mt props H Hc Hp Hu2)
      as (st & Hst & Hin & Hread).
    cbv zeta in Hread.
    destruct (material_props_facts mt props Hp) as (_ & Hle & Hg1 & Hg2).
    destruct (uniform_of_bounds _ _ (peek g 3) Hle Hu3) as [Hlo Hhi].
    set (w := pyround
                (uniform_of (fst (weight_range props))
                   (snd (weight_range props)) (peek g 3)) 3) in *.
    destruct (award_spec award_tokens s tm mt st w now) as [Hyes Hno].
    exists st, w, (fst (award award_tokens s tm mt st w now)),
      (snd (award award_tokens s tm mt st w now)).
    split; [exact Hst|]. split; [exact Hin|]. split; [reflexivity|].
    split; [split; [now apply pyround_ge|now apply pyround_le]|].
    split; [exact Hread|]. split; [|split; [|split; [|split; [|split]]]].
    + intros uid Hm Hid Hne.
      rewrite (Hyes uid Hm); [split; reflexivity|].
      now apply user_id_set_spec.
    + intros Hnone. rewrite Hno; [split; reflexivity|].
      destruct Hnone as [E|[E|E]]; [now left|right; now rewrite E..].
    + eexists. rewrite Hread. split; [reflexivity|].
      apply detection_record.
    + unfold choice_of in Hst.
      destruct (nth_error (subtypes props)
                  (randbelow_of (length (subtypes props)) (peek g 2)))
        as [x|] eqn:E; [|discriminate].
      injection Hst as ->.
      exists (randbelow_of (length (subtypes props)) (peek g 2)).
      split; [exact E|]. now apply randbelow_of_spec.
    + destruct (pyround_3_close
                  (uniform_of (fst (weight_range props))
                     (snd (weight_range props)) (peek g 3)))
        as (Hk & Ha & Hb).
      fold w in Hk, Ha, Hb. unfold uniform_of in Ha, Hb.
      split; [exact Hk|]. split; lra.
    + intros Hnn. now apply choices_of_categorical.
Qed.

(** C9: on the no-detection branch [read] returns the dictionary with the
    five keys materialDetected, materialType, materialSubtype, weight and
    weightUnit and nothing else: tokensAwarded, density and userId, which
    every detection carries, are absent, and the token manager is left as
    it was.  Indexing tokensAwarded directly would raise; the assembly of
    the composite record reads it with the default 0, after which the
    telemetry lookup succeeds. *)
Theorem no_detection_result_shape {TM : Type}
    (award_tokens :
       TM -> string -> string -> string -> Q -> string -> (bool * Q) * TM)
    (s : t) (tm : TM) (now : string) (g : Rng) :
  0.9 < peek g 0 ->
  read award_tokens s tm now g
  = (Ok no_detection, tm, mkRng (draws g) (S (cursor g))) /\
  dom no_detection
  = ({["materialDetected"; "materialType"; "materialSubtype"; "weight";
       "weightUnit"]} : gset string) /\
  (no_detection !! "materialDetected" = Some (VBool false) /\
   no_detection !! "materialType" = Some VNone /\
   no_detection !! "materialSubtype" = Some VNone /\
   no_detection !! "weight" = Some (VFloat 0.0) /\
   no_detection !! "weightUnit" = Some (VStr "kg")) /\
  (no_detection !! "tokensAwarded" = None /\
   no_detection !! "density" = None /\
   no_detection !! "userId" = None) /\
  (forall mt st w d tk uid,
     detection mt st w d tk uid !! "tokensAwarded" = Some (VFloat tk) /\
     detection mt st w d tk uid !! "density" = Some (VFloat d) /\
     detection mt st w d tk uid !! "userId" = Some (val_of_user_id uid)) /\
  WasteBinIoTSimulation.telemetry_tokens_awarded no_detection
  = Raise (KeyError "tokensAwarded") /\
  exists payload,
    WasteBinIoTSimulation.combined_recyclable no_detection = Ok payload /\
    payload !! "tokensAwarded" = Some (VInt 0) /\
    WasteBinIoTSimulation.telemetry_tokens_awarded payload = Ok (VInt 0).
Proof.
  intros H.
  pose proof no_detection_items as (I1 & I2 & I3 & I4 & I5 & I6 & I7 & I8).
  split; [now apply read_no_detection|].
  split; [apply no_detection_keys|].
  split; [tauto|]. split; [tauto|].
  split; [intros; pose proof (detection_items mt st w d tk uid); tauto|].
  split; [vm_compute; reflexivity|].
  eexists. split; [vm_compute; reflexivity|].
  split; vm_compute; reflexivity.
Qed.

(** [set_detection_probabilities] installs the probabilities, and
    changes nothing else of the sensor, when their sum lies between 0.99
    and 1.01; it raises for a sum below 0.99 or above 1.01. *)
Lemma set_detection_probabilities_validates (s : t)
    (d : list (string * Q)) :
  (0.99 <= sum_values d /\ sum_values d <= 1.01 ->
   set_detection_probabilities s d
   = Ok (mk d (token_manager s) (current_user_id s))) /\
  (sum_values d < 0.99 \/ 1.01 < sum_values d ->
   is_ok (set_detection_probabilities s d) = false).
Proof.
  unfold set_detection_probabilities. split.
  - intros [A B]. apply Qleb_le in A, B. now rewrite A, B.
  - intros [A|A]; apply Qleb_gt in A; rewrite A;
      [reflexivity|now rewrite andb_false_r].
Qed.

(** C6: the constructor does not validate the detection probabilities.
    Weights that sum to 0.7 are installed at construction although
    [set_detection_probabilities] rejects the same weights with a
    ValueError. *)
Theorem constructor_installs_unvalidated_weights :
  let d := [("paper", 0.5); ("plastic", 0.2)] in
  let s := init (Some d) (Some SessionTokenManager) in
  sum_values d == 0.7 /\
  Qleb 0.99 (sum_values d) = false /\
  detection_probabilities s = d /\
  set_detection_probabilities s d
  = Raise (ValueError
             "Detection probabilities must sum to approximately 1.0").
Proof. vm_compute. repeat split; reflexivity. Qed.

End Recyclable.

(** ** Token ledger *)

Section Ledger.
Import TokenManager.






(** C5: [redeem_tokens] returns false and hands back the very same ledger
    when the user is unknown, the option is unknown or the balance is
    below the requested count.  It returns true exactly when the user
    exists, the option is known and the balance covers the count; the
    balance is then debited by the count, the entry with timestamp,
    tokens, option and reward (count times rate) is appended to the
    history, and every other account and both catalogs are unchanged. *)
Theorem redeem_tokens_atomic (l : t) (uid : string) (n : Q)
    (opt now : string) :
  let ok := fst (redeem_tokens l uid n opt now) in
  let l' := snd (redeem_tokens l uid n opt now) in
  (users l !! uid = None \/ redemption_options l !! opt = None \/
   (exists u, users l !! uid = Some u /\ token_balance u < n) ->
   ok = false /\ l' = l) /\
  (ok = true <->
   exists u rate,
     users l !! uid = Some u /\ redemption_options l !! opt = Some rate /\
     n <= token_balance u) /\
  (forall u rate,
     users l !! uid = Some u -> redemption_options l !! opt = Some rate ->
     n <= token_balance u ->
     ok = true /\
     users l' !! uid
     = Some (mkUser (user_id u) (name u) (token_balance u - n)
               (redemption_history u
                ++ [mkRedemption now n opt (n * rate)])) /\
     (forall other, other <> uid -> users l' !! other = users l !! other) /\
     token_values l' = token_values l /\
     redemption_options l' = redemption_options l).
Proof.
  cbv zeta. unfold redeem_tokens.
  destruct (users l !! uid) as [u|] eqn:Eu.
  2:{ cbn. repeat split; try discriminate.
      intros (u & r & [=] & _). }
  destruct (redemption_options l !! opt) as [rate|] eqn:Eo.
  2:{ cbn. repeat split; try discriminate.
      intros (u0 & r & _ & [=] & _). }
  destruct (Qleb n (token_balance u)) eqn:Eb; cbn.
  - apply Qleb_le in Eb. split; [|split].
    + intros [[=]|[[=]|(u0 & [= <-] & Hlt)]]. lra.
    + split; [|reflexivity]. intros _. exists u, rate. auto.
    + intros u0 r [= <-] [= <-] _.
      rewrite lookup_insert_eq. repeat split.
      intros other Hne. now rewrite lookup_insert_ne by congruence.
  - apply Qleb_gt in Eb. split; [|split].
    + intros _. split; reflexivity.
    + split; [discriminate|]. intros (u0 & r & [= <-] & _ & Hle). lra.
    + intros u0 r [= <-] _ Hle. lra.
Qed.

End Ledger.

(** ** The weighted choice always returns *)

Section ChoicesTotal.

Lemma bisect_loop_range (fuel : nat) (a : list Q) (x : Q) :
  forall lo hi : nat,
    (lo <= hi)%nat ->
    (lo <= bisect_loop fuel a x lo hi)%nat /\
    (bisect_loop fuel a x lo hi <= hi)%nat.
Proof.
  induction fuel as [|fuel IH]; intros lo hi H; cbn [bisect_loop].
  - lia.
  - destruct (lo <? hi)%nat eqn:E; [|lia].
    apply Nat.ltb_lt in E.
    assert (Hm : (lo <= (lo + hi) / 2)%nat /\ ((lo + hi) / 2 < hi)%nat).
    { split.
      - apply Nat.div_le_lower_bound; lia.
      - apply Nat.Div0.div_lt_upper_bound; lia. }
    destruct (Qltb x (nth ((lo + hi) / 2) a 0)).
    + destruct (IH lo ((lo + hi) / 2)%nat) as [A B]; lia.
    + destruct (IH (S ((lo + hi) / 2)) hi) as [A B]; lia.
Qed.

(** With as many weights as alternatives and a positive total,
    [random.choices] returns one of the alternatives, whatever the draw. *)
Lemma choices_of_total {A} (pop : list A) (ws : list Q) (r total : Q) :
  length ws = length pop -> pop <> [] ->
  last (accumulate ws) = Some total -> 0 < total ->
  exists x, choices_of pop ws r = Ok x /\ In x pop.
Proof.
  intros Hlen Hne Hlast Hpos. unfold choices_of.
  unfold accumulate at 1. rewrite accumulate_from_length, Hlen.
  rewrite Nat.eqb_refl. cbn [negb]. rewrite Hlast.
  apply Qleb_gt in Hpos. rewrite Hpos.
  assert (Hn : (0 < length pop)%nat).
  { destruct pop; [congruence|cbn; lia]. }
  destruct (bisect_loop_range (S (length (accumulate ws))) (accumulate ws)
              (r * total) 0 (length pop - 1)) as [_ Hhi]; [lia|].
  fold (bisect (accumulate ws) (r * total) 0 (length pop - 1)) in Hhi.
  destruct (nth_error pop _) as [x|] eqn:E.
  - exists x. split; [reflexivity|]. eapply nth_error_In; eassumption.
  - apply nth_error_None in E. lia.
Qed.

(** The detector the session constructs never raises: every reading is
    the no-detection dictionary or a detection of a catalogued material. *)
Lemma session_sensor_read_returns {TM : Type}
    (award_tokens :
       TM -> string -> string -> string -> Q -> string -> (bool * Q) * TM)
    (uid : option string) (tm : TM) (now : string) (g : Rng) :
  unit_draw (peek g 2) ->
  exists d tm' g',
    RecyclableSensor.read award_tokens
      (RecyclableSensor.set_current_user
         WasteBinIoTSimulation.recyclable_sensor uid) tm now g
    = (Ok d, tm', g').
Proof.
  intros Hu.
  set (s := RecyclableSensor.set_current_user
              WasteBinIoTSimulation.recyclable_sensor uid).
  destruct (Qlt_le_dec 0.9 (peek g 0)) as [Hno|Hyes].
  - rewrite (read_no_detection award_tokens s tm now g Hno). eauto.
  - destruct (choices_of_total
                (keys (RecyclableSensor.detection_probabilities s))
                (values (RecyclableSensor.detection_probabilities s))
                (peek g 1) (0 + 0.3 + 0.4 + 0.15 + 0.1 + 0.05))
      as (mt & Hmt & Hin);
      [reflexivity|discriminate|reflexivity|reflexivity|].
    assert (Hp : exists props,
               assoc_get RecyclableSensor.MATERIAL_TYPES mt = Ok props).
    { cbn in Hin.
      destruct Hin as [<-|[<-|[<-|[<-|[<-|[]]]]]]; eexists; reflexivity. }
    destruct Hp as [props Hp].
    destruct (read_detection award_tokens s tm now g mt props
                Hyes Hmt Hp Hu) as (st & _ & _ & Hread).
    cbv zeta in Hread. rewrite Hread. eauto.
Qed.

End ChoicesTotal.

(** ** Instances on concrete runs *)


(** A user with balance 3 cannot redeem 5: the call returns false and the
    ledger is the same. *)
Lemma redeem_tokens_atomic_witness :
  let l :=
    TokenManager.run example_ledger
      [TokenManager.Award "u1" "plastic" "PET bottle" 1.5 "t0"] in
  (exists u,
     TokenManager.users l !! "u1" = Some u /\
     TokenManager.token_balance u < 5) /\
  fst (TokenManager.redeem_tokens l "u1" 5 "cash" "t1") = false /\
  snd (TokenManager.redeem_tokens l "u1" 5 "cash" "t1") = l.
Proof.
  cbv zeta.
  assert (H : exists u,
             TokenManager.users
               (TokenManager.run example_ledger
                  [TokenManager.Award "u1" "plastic" "PET bottle" 1.5 "t0"])
             !! "u1" = Some u /\
             TokenManager.token_balance u < 5).
  { eexists. split; [vm_compute; reflexivity|]. vm_compute. reflexivity. }
  split; [exact H|].
  apply (proj1 (redeem_tokens_atomic _ "u1" 5 "cash" "t1")).
  right. right. exact H.
Defined.

(** A detection for user u1 with the session's sensor: PET bottle of
    0.255 kg, for which the example ledger awards 0.51 tokens. *)
Lemma recyclable_read_contract_witness :
  let s :=
    RecyclableSensor.set_current_user
      WasteBinIoTSimulation.recyclable_sensor (Some "u1") in
  let g := rng_of [0.5; 0.5; 0.1; 0.5] in
  exists st w tk tm',
    RecyclableSensor.read TokenManager.award_tokens s example_ledger "t0" g
    = (Ok (RecyclableSensor.detection "plastic" st w 35.0 tk (Some "u1")),
       tm', mkRng (draws g) 4) /\
    st = "PET bottle" /\ w == 0.255 /\ tk == 0.51 /\
    TokenManager.balance_of tm' "u1" = Some tk.
Proof.
  cbv zeta.
  set (s := RecyclableSensor.set_current_user
              WasteBinIoTSimulation.recyclable_sensor (Some "u1")).
  set (g := rng_of [0.5; 0.5; 0.1; 0.5]).
  destruct (proj2 (recyclable_read_contract TokenManager.award_tokens
                     s example_ledger "t0" g))
    with (mt := "plastic")
         (props := RecyclableSensor.mkProps
                     ["PET bottle"; "HDPE container"; "plastic bag";
                      "plastic packaging"] (0.01, 0.5) 35.0)
    as (st & w & tk & tm' & Hst & _ & Hw & _ & Hread & Hyes & _).
  - vm_compute. discriminate.
  - vm_compute. reflexivity.
  - vm_compute. reflexivity.
  - split; [vm_compute; discriminate|vm_compute; reflexivity].
  - split; [vm_compute; discriminate|vm_compute; reflexivity].
  - destruct (Hyes "u1" eq_refl eq_refl) as [Htk Htm]; [discriminate|].
    exists st, w, tk, tm'. split; [exact Hread|].
    vm_compute in Hst. injection Hst as <-.
    subst w tk tm'. repeat split; vm_compute; reflexivity.
Defined.

(** A first draw of 0.95 gives no detection. *)
Lemma no_detection_result_shape_witness :
  let s :=
    RecyclableSensor.set_current_user
      WasteBinIoTSimulation.recyclable_sensor (Some "u1") in
  let g := rng_of [0.95] in
  0.9 < peek g 0 /\
  RecyclableSensor.read TokenManager.award_tokens s example_ledger "t0" g
  = (Ok RecyclableSensor.no_detection, example_ledger, mkRng (draws g) 1) /\
  TokenManager.balance_of example_ledger "u1" = Some 0.
Proof.
  cbv zeta. split; [vm_compute; reflexivity|].
  split; [|vm_compute; reflexivity].
  apply (no_detection_result_shape TokenManager.award_tokens).
  vm_compute; reflexivity.
Defined.

(* ===================================================================== *)
(** * Part III: further properties of the sensors and of the loop *)
(* ===================================================================== *)

(** ** GPS, continued *)

Section GPSMore.
Import GPSSensor.

Lemma clamp_step (lo hi x d m : Q) :
  lo <= x -> x <= hi -> - m <= d -> d <= m ->
  x - m <= pymax lo (pymin hi (x + d)) /\
  pymax lo (pymin hi (x + d)) <= x + m.
Proof.
  intros H1 H2 H3 H4.
  destruct (pymin_spec hi (x + d)) as [[A ->]|[A ->]];
    match goal with
    | |- context [pymax lo ?y] =>
        destruct (pymax_spec lo y) as [[B ->]|[B ->]]
    end; split; lra.
Qed.

(** X2: from a position inside the valid ranges, one reading moves the
    stored latitude and the stored longitude by at most the movement
    range. *)
Theorem gps_step_within_movement_range (s : t) (g : Rng) :
  0 <= movement_range s ->
  unit_draw (peek g 0) -> unit_draw (peek g 1) ->
  -90 <= latitude s -> latitude s <= 90 ->
  -180 <= longitude s -> longitude s <= 180 ->
  let s' := snd (fst (read s g)) in
  (latitude s - movement_range s <= latitude s' /\
   latitude s' <= latitude s + movement_range s) /\
  (longitude s - movement_range s <= longitude s' /\
   longitude s' <= longitude s + movement_range s).
Proof.
  intros Hm U0 U1 A1 A2 B1 B2. cbv zeta.
  rewrite (gps_read_unfold s g). cbn [fst snd latitude longitude].
  destruct (uniform_of_bounds (- movement_range s) (movement_range s)
              (peek g 0)) as [L0 L1]; [lra|exact U0|].
  destruct (uniform_of_bounds (- movement_range s) (movement_range s)
              (peek g 1)) as [M0 M1]; [lra|exact U1|].
  split; apply clamp_step; lra.
Qed.

Lemma gps_step_within_movement_range_witness :
  let s := init 1.3521 103.8198 0.0001 in
  let g := rng_of [0.25; 0.75] in
  let s' := snd (fst (read s g)) in
  (latitude s - movement_range s <= latitude s' /\
   latitude s' <= latitude s + movement_range s) /\
  (longitude s - movement_range s <= longitude s' /\
   longitude s' <= longitude s + movement_range s).
Proof.
  apply gps_step_within_movement_range;
    try (split; vm_compute; [discriminate|reflexivity]);
    vm_compute; discriminate.
Defined.

Lemma clamp_cases (lo hi x : Q) :
  lo <= hi ->
  (lo <= x /\ x <= hi /\ pymax lo (pymin hi x) == x) \/
  (x < lo /\ pymax lo (pymin hi x) == lo) \/
  (hi < x /\ pymax lo (pymin hi x) == hi).
Proof.
  intros H.
  destruct (pymin_spec hi x) as [[A E]|[A E]]; rewrite E;
    match goal with
    | |- context [pymax lo ?y] =>
        destruct (pymax_spec lo y) as [[B E']|[B E']]; rewrite E'
    end;
    destruct (Qlt_le_dec x lo); destruct (Qlt_le_dec hi x);
    first [ left; repeat split; lra
          | right; left; split; lra
          | right; right; split; lra ].
Qed.

(** X3: [set_position] stores coordinates inside the valid ranges
    whatever it is given: arguments inside the ranges are stored as they
    are, arguments beyond a bound are replaced by that bound. *)
Theorem set_position_clamps (s : t) (la lo : Q) :
  let s' := set_position s la lo in
  ((-90 <= la /\ la <= 90 /\ latitude s' == la) \/
   (la < -90 /\ latitude s' == -90) \/ (90 < la /\ latitude s' == 90)) /\
  ((-180 <= lo /\ lo <= 180 /\ longitude s' == lo) \/
   (lo < -180 /\ longitude s' == -180) \/
   (180 < lo /\ longitude s' == 180)) /\
  movement_range s' = movement_range s.
Proof.
  cbv zeta. unfold set_position. cbn [latitude longitude movement_range].
  split; [|split; [|reflexivity]].
  - destruct (clamp_cases (-90.0) 90.0 la) as [C|[C|C]]; [lra|..];
      [left|right; left|right; right]; repeat split; lra.
  - destruct (clamp_cases (-180.0) 180.0 lo) as [C|[C|C]]; [lra|..];
      [left|right; left|right; right]; repeat split; lra.
Qed.

End GPSMore.

(** ** Fill level, continued *)

Section FillLevelMore.
Import FillLevelSensor.


Lemma run_reads_add {S R} (rd : S -> Rand (R * S)) (n k : nat) (s : S)
    (g : Rng) :
  run_reads rd (n + k) s g
  = run_reads rd k (fst (run_reads rd n s g)) (snd (run_reads rd n s g)).
Proof.
  revert s g. induction n as [|n IH]; intros s g; cbn [run_reads Nat.add].
  - reflexivity.
  - destruct (rd s g) as [[r s'] g']. apply IH.
Qed.





(** X6: when the overflow threshold is not below the capacity (the
    session sets both to 100), no reading has the status full: a level at
    the threshold is already an overflow.  When the threshold is not above
    the capacity, every overflowing reading is also full. *)
Theorem fill_status_against_threshold (s : t) (g : Rng) :
  let r := fst (fst (read s g)) in
  (capacity s <= overflow_threshold s -> status r <> "full") /\
  (overflow_threshold s <= capacity s ->
   isOverflowing r = true -> isFull r = true).
Proof.
  cbv zeta. rewrite (read_unfold s g). cbv zeta.
  cbn [fst status isOverflowing isFull fill_level with_level].
  set (lv := pyround _ 2).
  split.
  - intros H.
    destruct (Qleb (capacity s) lv) eqn:Eo; [discriminate|].
    destruct (Qleb (overflow_threshold s) lv) eqn:Ef; [|discriminate].
    apply Qleb_gt in Eo. apply Qleb_le in Ef. lra.
  - intros H Ho. apply Qleb_le in Ho. apply Qleb_le. lra.
Qed.

Lemma fill_status_against_threshold_witness :
  let s := init 1.0 5.0 100.0 0.1 100.0 in
  let g := rng_of [0.5] in
  capacity s <= overflow_threshold s /\
  status (fst (fst (read s g))) <> "full".
Proof.
  cbv zeta. split; [vm_compute; discriminate|].
  apply (proj1 (fill_status_against_threshold _ _)).
  vm_compute; discriminate.
Defined.

(** X7: [set_fill_level] never stores a level above the capacity and,
    for a capacity that is not negative, never one below 0; [empty_bin]
    stores 0.  Neither changes a parameter of the sensor. *)
Theorem set_fill_level_clamps (s : t) (x : Q) :
  fill_level (set_fill_level s x) <= capacity s /\
  (0 <= capacity s -> 0 <= fill_level (set_fill_level s x)) /\
  (0 <= x -> x <= capacity s -> fill_level (set_fill_level s x) == x) /\
  fill_level (empty_bin s) == 0 /\
  (fill_rate (set_fill_level s x), capacity (set_fill_level s x),
   fill_rate_variation (set_fill_level s x),
   overflow_threshold (set_fill_level s x))
  = (fill_rate s, capacity s, fill_rate_variation s, overflow_threshold s).
Proof.
  unfold set_fill_level, empty_bin. cbn [fill_level with_level fill_rate
    capacity fill_rate_variation overflow_threshold].
  split; [apply pymin_le_r|].
  split; [intros H; pose proof (pymax_ge_l 0.0 x); apply pymin_glb; lra|].
  split; [|split; [reflexivity|reflexivity]].
  intros H0 H1.
  destruct (pymax_spec 0.0 x) as [[A E]|[A E]]; rewrite E;
    match goal with
    | |- context [pymin ?a ?b] =>
        destruct (pymin_spec a b) as [[B E']|[B E']]; rewrite E'
    end; lra.
Qed.

Lemma set_fill_level_clamps_witness :
  let s := FillLevelSensor.default in
  0 <= capacity s /\
  0 <= fill_level (set_fill_level s (-5)) /\
  fill_level (set_fill_level s 42) == 42.
Proof.
  cbv zeta. split; [vm_compute; discriminate|]. split.
  - apply (proj1 (proj2 (set_fill_level_clamps _ _))).
    vm_compute; discriminate.
  - apply (proj1 (proj2 (proj2 (set_fill_level_clamps _ _))));
      vm_compute; discriminate.
Defined.

End FillLevelMore.


(** ** Temperature, continued *)

Section TemperatureMore.
Import TemperatureSensor.

(** One reading either resets the counter (anomaly branch) or, below the
    threshold, increments it (normal branch); the parameters stay. *)
Lemma temperature_step (s : t) (g : Rng) :
  let s' := snd (fst (read s g)) in
  let g' := snd (read s g) in
  draws g' = draws g /\
  (base_temperature s', normal_fluctuation s', anomaly_threshold_high s',
   anomaly_threshold_low s', anomaly_probability s',
   normal_readings_before_anomaly s')
  = (base_temperature s, normal_fluctuation s, anomaly_threshold_high s,
     anomaly_threshold_low s, anomaly_probability s,
     normal_readings_before_anomaly s) /\
  (normal_readings_count s' = 0%Z \/
   ((normal_readings_count s < normal_readings_before_anomaly s)%Z /\
    normal_readings_count s' = (normal_readings_count s + 1)%Z)).
Proof.
  cbv zeta. unfold read, uniform, bind, ret, random.
  destruct (normal_readings_before_anomaly s <=? normal_readings_count s)%Z
    eqn:E; cbv beta iota.
  - destruct (Qltb _ 0.7); cbn; auto.
  - apply Z.leb_gt in E.
    destruct (Qltb _ (anomaly_probability s)); cbv beta iota.
    + destruct (Qltb _ 0.7); cbn; auto.
    + cbn. auto.
Qed.

Lemma temperature_run (n : nat) :
  forall (s : t) (g : Rng),
    (0 <= normal_readings_count s <= normal_readings_before_anomaly s)%Z ->
    let sn := fst (run_reads read n s g) in
    normal_readings_before_anomaly sn = normal_readings_before_anomaly s /\
    (0 <= normal_readings_count sn
     <= normal_readings_before_anomaly s)%Z.
Proof.
  induction n as [|n IH]; intros s g H; cbv zeta; cbn [run_reads].
  - cbn. split; [reflexivity|exact H].
  - pose proof (temperature_step s g) as (_ & P & C). cbv zeta in P, C.
    destruct (read s g) as [[r s'] g']. cbn [fst snd] in *.
    injection P as _ _ _ _ _ P6.
    destruct (IH s' g') as [A B]; [rewrite P6; lia|].
    cbv zeta in A, B. rewrite P6 in *. split; [exact A|exact B].
Qed.

(** X8: the counter of consecutive normal readings stays between 0 and
    [normal_readings_before_anomaly] along every sequence of readings
    that starts inside that interval, as a fresh sensor with a
    non-negative threshold does. *)
Theorem normal_count_bounded (n : nat) (s : t) (g : Rng) :
  (0 <= normal_readings_count s <= normal_readings_before_anomaly s)%Z ->
  (0 <= normal_readings_count (fst (run_reads read n s g))
   <= normal_readings_before_anomaly s)%Z.
Proof.
  intros H. apply (temperature_run n s g H).
Qed.

Lemma normal_count_bounded_witness :
  (0 <= normal_readings_count
          (fst (run_reads read 10 default (mkRng (fun _ => 0.5%Q) 0)))
   <= normal_readings_before_anomaly default)%Z.
Proof.
  apply normal_count_bounded. vm_compute. split; discriminate.
Defined.

Lemma reset_within (d : nat) :
  forall (s : t) (g : Rng),
    (0 <= normal_readings_count s <= normal_readings_before_anomaly s)%Z ->
    (normal_readings_before_anomaly s - normal_readings_count s
     <= Z.of_nat d)%Z ->
    exists j, (j <= d)%nat /\
      normal_readings_count (fst (run_reads read (S j) s g)) = 0%Z.
Proof.
  induction d as [|d IH]; intros s g H Hd.
  - exists 0%nat. split; [lia|]. cbn [run_reads].
    pose proof (temperature_step s g) as (_ & _ & C). cbv zeta in C.
    destruct (read s g) as [[r s'] g']. cbn [fst snd] in *.
    destruct C as [C|[C _]]; [exact C|lia].
  - pose proof (temperature_step s g) as (_ & P & C). cbv zeta in P, C.
    destruct (read s g) as [[r s'] g'] eqn:E. cbn [fst snd] in *.
    injection P as _ _ _ _ _ P6.
    destruct C as [C|[C1 C2]].
    + exists 0%nat. split; [lia|]. cbn [run_reads]. rewrite E. exact C.
    + destruct (IH s' g') as (j & Hj & Hz); [lia|lia|].
      exists (S j). split; [lia|].
      change (run_reads read (S (S j)) s g)
        with (let '(_, s1, g1) := read s g in run_reads read (S j) s1 g1).
      rewrite E. exact Hz.
Qed.

(** X9: the forced anomaly bounds the runs of normal readings.  Among
    any [normal_readings_before_anomaly + 1] consecutive readings at least
    one takes the anomaly branch and resets the counter. *)
Theorem anomaly_branch_in_every_window (n : nat) (s : t) (g : Rng) :
  (0 <= normal_readings_count s <= normal_readings_before_anomaly s)%Z ->
  exists j,
    (Z.of_nat j <= normal_readings_before_anomaly s)%Z /\
    normal_readings_count (fst (run_reads read (n + S j) s g)) = 0%Z.
Proof.
  intros H.
  destruct (temperature_run n s g H) as [A B]. cbv zeta in A, B.
  destruct (reset_within (Z.to_nat (normal_readings_before_anomaly s))
              (fst (run_reads read n s g)) (snd (run_reads read n s g)))
    as (j & Hj & Hz); [rewrite A; exact B|rewrite A; lia|].
  exists j. split; [lia|]. rewrite run_reads_add. exact Hz.
Qed.

Lemma anomaly_branch_in_every_window_witness :
  exists j,
    (Z.of_nat j <= normal_readings_before_anomaly default)%Z /\
    normal_readings_count
      (fst (run_reads read (5 + S j) default (mkRng (fun _ => 0.5%Q) 0)))
    = 0%Z.
Proof.
  apply anomaly_branch_in_every_window. vm_compute. split; discriminate.
Defined.

(** X30: the forced reading lies on the anomalous side of its
    threshold.  Once the counter has reached the threshold, the next
    reading resets the counter and stores a temperature between the high
    threshold and 20 degrees above it (when the draw for the kind of
    anomaly is below 0.7), or between 10 degrees below the low threshold
    and the low threshold (otherwise); with the low threshold not above
    the high one, it is never reported as an anomaly of the other type. *)
Theorem forced_anomaly_side (s : t) (g : Rng) :
  (normal_readings_before_anomaly s <= normal_readings_count s)%Z ->
  unit_draw (peek g 1) ->
  let r := fst (fst (read s g)) in
  let s' := snd (fst (read s g)) in
  normal_readings_count s' = 0%Z /\
  (peek g 0 < 0.7 ->
   anomaly_threshold_high s <= current_temperature s' /\
   current_temperature s' <= anomaly_threshold_high s + 20 /\
   (anomaly_threshold_low s <= anomaly_threshold_high s ->
    anomalyType r <> "low")) /\
  (0.7 <= peek g 0 ->
   anomaly_threshold_low s - 10 <= current_temperature s' /\
   current_temperature s' <= anomaly_threshold_low s /\
   (anomaly_threshold_low s <= anomaly_threshold_high s ->
    anomalyType r <> "high")).
Proof.
  intros H [U0 U1].
  pose proof (forced_read_takes_anomaly_branch s g H) as [Hn Ht].
  assert (Hr : fst (fst (read s g)) = report (snd (fst (read s g)))).
  { unfold read, bind, ret.
    repeat match goal with
           | |- context [let (_, _) := ?c in _] => destruct c
           end. reflexivity. }
  cbv zeta. rewrite Hr.
  set (s' := snd (fst (read s g))) in *.
  assert (Hs : anomaly_threshold_high s' = anomaly_threshold_high s /\
               anomaly_threshold_low s' = anomaly_threshold_low s).
  { subst s'. unfold read, bind, ret, random, uniform, bind, ret, random.
    repeat match goal with
           | |- context [if ?c then _ else _] => destruct c
           end; cbn; auto. }
  destruct Hs as [Hh Hl].
  pose proof (report_flags s') as (_ & Hhigh & Hlow).
  rewrite Hh, Hl in Hlow. rewrite Hh in Hhigh.
  unfold uniform_of in Ht.
  split; [exact Hn|]. split.
  - intros Hp. apply Qltb_lt in Hp. rewrite Hp in Ht.
    split; [rewrite Ht; nra|]. split; [rewrite Ht; nra|].
    intros Ho Hty. apply Hlow in Hty. destruct Hty as [_ Hty].
    rewrite Ht in Hty. nra.
  - intros Hp. apply Qltb_ge in Hp. rewrite Hp in Ht.
    split; [rewrite Ht; nra|]. split; [rewrite Ht; nra|].
    intros Ho Hty. apply Hhigh in Hty. rewrite Ht in Hty. nra.
Qed.

(** The default sensor after three normal readings: the forced reading
    with the draws 0.5 and 0.25 stores 55 degrees. *)
Lemma forced_anomaly_side_witness :
  let s := with_state default 22 3 in
  let g := rng_of [0.5; 0.25] in
  normal_readings_count (snd (fst (read s g))) = 0%Z /\
  50 <= current_temperature (snd (fst (read s g))) /\
  current_temperature (snd (fst (read s g))) <= 50 + 20 /\
  anomalyType (fst (fst (read s g))) <> "low".
Proof.
  cbv zeta.
  destruct (forced_anomaly_side (with_state default 22 3)
              (rng_of [0.5; 0.25])) as (A & B & _).
  - vm_compute. discriminate.
  - split; vm_compute; [discriminate|reflexivity].
  - destruct B as (B1 & B2 & B3); [vm_compute; reflexivity|].
    split; [exact A|]. split; [exact B1|]. split; [exact B2|].
    apply B3. vm_compute. discriminate.
Defined.

End TemperatureMore.

(** ** Humidity, continued *)

Section HumidityMore.
Import HumiditySensor.

(** X11: [read] returns a reading for every fill level and every
    parameter setting (the division in the mold risk is never by zero);
    the reported humidity and the reported mold risk lie between 0 and
    100, and the mold risk is 0 whenever the reading is not a mold
    risk. *)
Theorem humidity_reading_ranges (s : t) (fl : option Q) (g : Rng) :
  exists r,
    fst (fst (read s fl g)) = Ok r /\
    (0 <= humidity r /\ humidity r <= 100) /\
    (0 <= moldRiskPercentage r /\ moldRiskPercentage r <= 100) /\
    (isMoldRisk r = false -> moldRiskPercentage r == 0) /\
    (isMoldRisk r = true <->
     mold_risk_threshold s < current_humidity (snd (fst (read s fl g)))).
Proof.
  pose proof (humidity_after_bounds s fl g) as [H0 H1].
  unfold read, uniform, bind, ret, random. cbv beta iota zeta.
  rewrite peek_0. fold (humidity_after s fl g).
  set (h := humidity_after s fl g) in *.
  cbn [fst snd current_humidity with_humidity].
  assert (Hr : 0 <= pyround h 2 /\ pyround h 2 <= 100).
  { split.
    - apply (pyround_ge 2 (inject_Z 0)); [apply on_grid_Z|exact H0].
    - apply (pyround_le 2 (inject_Z 100)); [apply on_grid_Z|exact H1]. }
  destruct (Qltb (mold_risk_threshold s) h) eqn:Em.
  - apply Qltb_lt in Em. unfold pydiv.
    destruct (Qeq_bool (100.0 - mold_risk_threshold s) 0) eqn:Ez.
    { apply Qeq_bool_iff in Ez. lra. }
    eexists. split; [reflexivity|].
    cbn [humidity moldRiskPercentage isMoldRisk].
    set (ratio := (h - mold_risk_threshold s)
                  / (100.0 - mold_risk_threshold s)).
    assert (Hratio : 0 <= ratio).
    { unfold ratio. apply Qle_shift_div_l; lra. }
    assert (Hm : 0 <= pymin 100.0 (ratio * 100.0)
                 /\ pymin 100.0 (ratio * 100.0) <= 100).
    { split; [apply pymin_glb; lra|].
      pose proof (pymin_le_l 100.0 (ratio * 100.0)). lra. }
    split; [exact Hr|]. split; [|split].
    + split.
      * apply (pyround_ge 2 (inject_Z 0)); [apply on_grid_Z|tauto].
      * apply (pyround_le 2 (inject_Z 100)); [apply on_grid_Z|tauto].
    + discriminate.
    + split; [intros _; exact Em|reflexivity].
  - eexists. split; [reflexivity|].
    cbn [humidity moldRiskPercentage isMoldRisk].
    apply Qltb_ge in Em.
    split; [exact Hr|]. split; [|split].
    + split; vm_compute; discriminate.
    + intros _. reflexivity.
    + split; [discriminate|]. intros L. lra.
Qed.

End HumidityMore.

(** ** Manual overrides and the next reading *)

(** X12: the humidity, air quality and odor sensors do not read their
    stored value back: after [set_humidity], [set_aqi] or [set_odor] the
    next [read] returns the same reading, the same sensor state and the
    same generator as it would have without the override. *)
Theorem overrides_do_not_reach_the_next_reading
    (h : HumiditySensor.t) (a : AirQualitySensor.t) (o : OdorSensor.t)
    (fl temp : option Q) (x : Q) (ty : string) (g : Rng) :
  HumiditySensor.read (HumiditySensor.set_humidity h x) fl g
  = HumiditySensor.read h fl g /\
  AirQualitySensor.read (AirQualitySensor.set_aqi a x) fl temp g
  = AirQualitySensor.read a fl temp g /\
  OdorSensor.read (OdorSensor.set_odor o ty x) fl g
  = OdorSensor.read o fl g.
Proof.
  split; [reflexivity|]. split; [reflexivity|].
  unfold OdorSensor.set_odor.
  destruct (is_ok (assoc_get OdorSensor.ODOR_TYPES ty)); [|reflexivity].
  destruct (odor_distribution_cases o fl) as (w0 & w1 & w2 & w3 & He & Hw).
  unfold OdorSensor.read.
  change (OdorSensor.odor_distribution
            (OdorSensor.with_odor o ty (pymax 0.0 (pymin 1.0 x))) fl)
    with (OdorSensor.odor_distribution o fl).
  rewrite He. unfold bind. cbv beta.
  rewrite (choices4 _ _ _ _ _ _ _ _ g Hw).
  destruct (choices_of4_In "organic" "chemical" "mold" "none"
              w0 w1 w2 w3 (peek g 0) Hw) as (odor & -> & Hin).
  destruct (odor_types_known odor Hin) as [props ->].
  reflexivity.
Qed.

(** ** Air quality, continued *)

Section AirQualityMore.
Import AirQualitySensor.

(** X13: [read] returns a reading for every fill level, temperature and
    parameter setting; the reported AQI lies between 0 and 500 and the
    pollutant proxies derived from it between their extremes: CO2 from
    400 to 1400, VOC from 0.5 to 5.5, PM2.5 from 12 to 132.  The status
    repeats the category. *)
Theorem aqi_reading_ranges (s : t) (fl temp : option Q) (g : Rng) :
  exists r,
    fst (fst (read s fl temp g)) = Ok r /\
    (0 <= aqi r /\ aqi r <= 500) /\
    (400 <= co2 r /\ co2 r <= 1400) /\
    (0.5 <= voc r /\ voc r <= 5.5) /\
    (12 <= pm25 r /\ pm25 r <= 132) /\
    status r = category r /\
    In (category r) (keys AQI_CATEGORIES).
Proof.
  pose proof (aqi_after_bounds s fl temp g) as [H0 H1].
  unfold read, uniform, bind, ret, random. cbv beta iota zeta.
  rewrite peek_0. fold (aqi_after s fl temp g).
  set (a := aqi_after s fl temp g) in *.
  destruct (read_category_key a) as [props Hp]. rewrite Hp.
  eexists. split; [reflexivity|].
  cbn [aqi co2 voc pm25 status category].
  split; [split|].
  { apply (pyround_ge 2 (inject_Z 0)); [apply on_grid_Z|exact H0]. }
  { apply (pyround_le 2 (inject_Z 500)); [apply on_grid_Z|exact H1]. }
  split; [split|].
  { apply (pyround_ge 2 (inject_Z 400)); [apply on_grid_Z|].
    unfold inject_Z. lra. }
  { apply (pyround_le 2 (inject_Z 1400)); [apply on_grid_Z|].
    unfold inject_Z. lra. }
  split; [split|].
  { apply pyround_ge; [apply on_grid_den; reflexivity|lra]. }
  { apply pyround_le; [apply on_grid_den; reflexivity|lra]. }
  split; [split|].
  { apply (pyround_ge 2 (inject_Z 12)); [apply on_grid_Z|].
    unfold inject_Z. lra. }
  { apply (pyround_le 2 (inject_Z 132)); [apply on_grid_Z|].
    unfold inject_Z. lra. }
  split; [reflexivity|].
  unfold read_category, AQI_CATEGORIES. cbn [first_category range].
  repeat (destruct (_ && _); [cbn; tauto|]).
  cbn; tauto.
Qed.

Lemma first_category_in_ranges (x : Q) :
  (0 <= x /\ x <= 50 -> first_category AQI_CATEGORIES x = Some "good") /\
  (51 <= x /\ x <= 100 ->
   first_category AQI_CATEGORIES x = Some "moderate") /\
  (101 <= x /\ x <= 150 ->
   first_category AQI_CATEGORIES x = Some "unhealthy_sensitive") /\
  (151 <= x /\ x <= 200 ->
   first_category AQI_CATEGORIES x = Some "unhealthy") /\
  (201 <= x /\ x <= 300 ->
   first_category AQI_CATEGORIES x = Some "very_unhealthy") /\
  (301 <= x /\ x <= 500 ->
   first_category AQI_CATEGORIES x = Some "hazardous").
Proof.
  unfold AQI_CATEGORIES. cbn [first_category range].
  repeat split; intros [A B];
    repeat first
      [ rewrite (in_range _ _ x) by lra
      | rewrite (out_of_range _ _ x) by (left; lra)
      | rewrite (out_of_range _ _ x) by (right; lra) ];
    reflexivity.
Qed.

(** X14: on whole numbers the table is a partition.  Every integer AQI
    from 0 to 500 falls in one of the six ranges, and [read] and
    [get_category_for_aqi] give it the same category. *)
Theorem integer_aqi_classified (k : Z) :
  (0 <= k <= 500)%Z ->
  exists cat,
    first_category AQI_CATEGORIES (inject_Z k) = Some cat /\
    read_category (inject_Z k) = cat /\
    get_category_for_aqi (inject_Z k) = cat.
Proof.
  intros H.
  pose proof (first_category_in_ranges (inject_Z k))
    as (R1 & R2 & R3 & R4 & R5 & R6).
  unfold read_category, get_category_for_aqi.
  assert (Hq : forall a b : Z,
             (a <= k)%Z -> (k <= b)%Z ->
             inject_Z a <= inject_Z k /\ inject_Z k <= inject_Z b).
  { intros a b A B. split; rewrite <- Zle_Qle; assumption. }
  destruct (Z_le_gt_dec k 50);
    [rewrite R1 by (apply (Hq 0%Z 50%Z); lia); eauto|].
  destruct (Z_le_gt_dec k 100);
    [rewrite R2 by (apply (Hq 51%Z 100%Z); lia); eauto|].
  destruct (Z_le_gt_dec k 150);
    [rewrite R3 by (apply (Hq 101%Z 150%Z); lia); eauto|].
  destruct (Z_le_gt_dec k 200);
    [rewrite R4 by (apply (Hq 151%Z 200%Z); lia); eauto|].
  destruct (Z_le_gt_dec k 300);
    [rewrite R5 by (apply (Hq 201%Z 300%Z); lia); eauto|].
  rewrite R6 by (apply (Hq 301%Z 500%Z); lia); eauto.
Qed.

Lemma integer_aqi_classified_witness :
  exists cat,
    first_category AQI_CATEGORIES (inject_Z 151) = Some cat /\
    read_category (inject_Z 151) = cat /\
    get_category_for_aqi (inject_Z 151) = cat.
Proof.
  apply integer_aqi_classified. split; vm_compute; discriminate.
Defined.

(** X15: a value in none of the six ranges (below 0, above 500, or
    strictly between two neighbouring ranges) is given no category by the
    table: the loop of [read] leaves its initial "good" and
    [get_category_for_aqi] answers "hazardous". *)
Theorem unclassified_aqi_defaults (x : Q) :
  x < 0 \/ (50 < x /\ x < 51) \/ (100 < x /\ x < 101) \/
  (150 < x /\ x < 151) \/ (200 < x /\ x < 201) \/ (300 < x /\ x < 301) \/
  500 < x ->
  first_category AQI_CATEGORIES x = None /\
  read_category x = "good" /\ get_category_for_aqi x = "hazardous".
Proof.
  unfold read_category, get_category_for_aqi, AQI_CATEGORIES.
  cbn [first_category range].
  intros H.
  assert (E : forall lo hi,
             (hi <= 50 /\ 0 <= lo \/ (51 <= lo /\ hi <= 100) \/
              (101 <= lo /\ hi <= 150) \/ (151 <= lo /\ hi <= 200) \/
              (201 <= lo /\ hi <= 300) \/ (301 <= lo /\ hi <= 500)) ->
             Qleb lo x && Qleb x hi = false).
  { intros lo hi Hr. apply out_of_range.
    destruct (Qlt_le_dec x lo) as [L|L]; [now left|right]. lra. }
  rewrite !E by lra. repeat split; reflexivity.
Qed.

Lemma unclassified_aqi_defaults_witness :
  first_category AQI_CATEGORIES (-1) = None /\
  read_category (-1) = "good" /\ get_category_for_aqi (-1) = "hazardous".
Proof.
  apply unclassified_aqi_defaults. left. vm_compute. reflexivity.
Defined.

End AirQualityMore.

(** ** Odor, continued *)

Section OdorMore.
Import OdorSensor.

(** What [read] computes once the odor type is chosen. *)
Lemma odor_read_shape (s : t) (fl : option Q) (g : Rng) :
  exists ty props,
    In ty (keys ODOR_TYPES) /\
    assoc_get ODOR_TYPES ty = Ok props /\
    let i :=
      pymax 0.0
        (pymin 1.0
           (uniform_of (fst (intensity_range props))
              (snd (intensity_range props)) (peek g 1)
            + uniform_of (- odor_variation s) (odor_variation s)
                (peek g 2))) in
    read s fl g
    = (Ok (mkReading ty (description props) (pyround i 3) "normalized"
             (Qltb (odor_threshold s) i)
             (if Qltb (odor_threshold s) i then "significant" else "normal")
             (mkData ty (pyround i 3)
                (if Qltb (odor_threshold s) i
                 then "significant" else "normal"))),
       with_odor s ty i, mkRng (draws g) (S (S (S (cursor g))))).
Proof.
  destruct (odor_distribution_cases s fl) as (w0 & w1 & w2 & w3 & He & Hw).
  destruct (choices_of4_In "organic" "chemical" "mold" "none"
              w0 w1 w2 w3 (peek g 0) Hw) as (ty & Hc & Hin).
  destruct (odor_types_known ty Hin) as [props Hp].
  exists ty, props. split; [exact Hin|]. split; [exact Hp|]. cbv zeta.
  unfold read. rewrite He. unfold bind at 1.
  rewrite (choices4 _ _ _ _ _ _ _ _ g Hw), Hc, Hp.
  destruct (intensity_range props) as [mn mx]. cbn [fst snd].
  unfold uniform, bind, ret, random. cbv beta iota zeta.
  cbn [draws cursor].
  replace (draws g (S (cursor g))) with (peek g 1)
    by (unfold peek; f_equal; lia).
  replace (draws g (S (S (cursor g)))) with (peek g 2)
    by (unfold peek; f_equal; lia).
  reflexivity.
Qed.

(** X16: [read] returns a reading for every fill level and parameter
    setting.  The odor type is a key of [ODOR_TYPES] and is the one
    stored in the sensor, the description is that type's description, the
    reported intensity lies between 0 and 1, and the status is
    significant exactly when the stored intensity exceeds the
    threshold. *)
Theorem odor_reading_ranges (s : t) (fl : option Q) (g : Rng) :
  exists r props,
    fst (fst (read s fl g)) = Ok r /\
    In (odorType r) (keys ODOR_TYPES) /\
    assoc_get ODOR_TYPES (odorType r) = Ok props /\
    odorDescription r = description props /\
    current_odor_type (snd (fst (read s fl g))) = odorType r /\
    (0 <= intensity r /\ intensity r <= 1) /\
    (isSignificant r = true <->
     odor_threshold s < current_intensity (snd (fst (read s fl g)))) /\
    status r = (if isSignificant r then "significant" else "normal").
Proof.
  destruct (odor_read_shape s fl g) as (ty & props & Hin & Hp & Hread).
  cbv zeta in Hread. rewrite Hread. cbn [fst snd].
  eexists. exists props. split; [reflexivity|].
  cbn [odorType odorDescription intensity isSignificant status
       current_odor_type current_intensity with_odor].
  match goal with
  | |- context [pymin 1.0 ?x] =>
      destruct (clamp_bounds 0.0 1.0 x) as [A B]; [lra|]
  end.
  repeat split; try assumption.
  - apply (pyround_ge 3 (inject_Z 0)); [apply on_grid_Z|].
    unfold inject_Z. lra.
  - apply (pyround_le 3 (inject_Z 1)); [apply on_grid_Z|].
    unfold inject_Z. lra.
  - apply Qltb_lt.
  - apply Qltb_lt.
Qed.

Lemma odor_ranges_in_unit (ty : string) (props : OdorProps) :
  assoc_get ODOR_TYPES ty = Ok props ->
  0 <= fst (intensity_range props) /\
  fst (intensity_range props) <= snd (intensity_range props) /\
  snd (intensity_range props) <= 1.
Proof.
  unfold ODOR_TYPES. cbn [assoc_get].
  repeat (destruct (String.eqb _ ty);
          [intros [= <-]; cbn [intensity_range fst snd];
           repeat split; apply Qleb_le; reflexivity|]).
  discriminate.
Qed.

(** X17: the stored intensity stays within the variation of the chosen
    type's intensity range, so a type whose range ends at or below the
    threshold minus the variation is never reported as significant: with
    the default threshold 0.6 and variation 0.1 the type none (range 0 to
    0.1) never is. *)
Theorem odor_intensity_near_type_range (s : t) (fl : option Q) (g : Rng) :
  unit_draw (peek g 1) -> unit_draw (peek g 2) ->
  0 <= odor_variation s ->
  exists r props,
    fst (fst (read s fl g)) = Ok r /\
    assoc_get ODOR_TYPES (odorType r) = Ok props /\
    fst (intensity_range props) - odor_variation s
    <= current_intensity (snd (fst (read s fl g))) /\
    current_intensity (snd (fst (read s fl g)))
    <= snd (intensity_range props) + odor_variation s /\
    (snd (intensity_range props) + odor_variation s <= odor_threshold s ->
     isSignificant r = false /\ status r = "normal").
Proof.
  intros U1 U2 Hv.
  destruct (odor_read_shape s fl g) as (ty & props & Hin & Hp & Hread).
  cbv zeta in Hread. rewrite Hread. cbn [fst snd].
  eexists. exists props. split; [reflexivity|].
  cbn [odorType isSignificant status current_intensity with_odor].
  split; [exact Hp|].
  destruct (odor_ranges_in_unit ty props Hp) as (R0 & R1 & R2).
  destruct (uniform_of_bounds (fst (intensity_range props))
              (snd (intensity_range props)) (peek g 1) R1 U1) as [B0 B1].
  destruct (uniform_of_bounds (- odor_variation s) (odor_variation s)
              (peek g 2)) as [V0 V1]; [lra|exact U2|].
  set (x := uniform_of (fst _) _ _ + uniform_of (- _) _ _) in *.
  assert (Hx : fst (intensity_range props) - odor_variation s <= x /\
               x <= snd (intensity_range props) + odor_variation s).
  { unfold x. split; lra. }
  assert (Hi : fst (intensity_range props) - odor_variation s
               <= pymax 0.0 (pymin 1.0 x) /\
               pymax 0.0 (pymin 1.0 x)
               <= snd (intensity_range props) + odor_variation s).
  { destruct (clamp_cases 0.0 1.0 x) as [C|[C|C]]; [lra|..]; split; lra. }
  split; [tauto|]. split; [tauto|].
  intros Ht.
  assert (E : Qltb (odor_threshold s) (pymax 0.0 (pymin 1.0 x)) = false)
    by (apply Qltb_ge; lra).
  rewrite E. split; reflexivity.
Qed.

Lemma odor_intensity_near_type_range_witness :
  let g := rng_of [0.9; 0.5; 0.5] in
  exists r props,
    fst (fst (read default (Some 10) g)) = Ok r /\
    assoc_get ODOR_TYPES (odorType r) = Ok props /\
    fst (intensity_range props) - odor_variation default
    <= current_intensity (snd (fst (read default (Some 10) g))) /\
    current_intensity (snd (fst (read default (Some 10) g)))
    <= snd (intensity_range props) + odor_variation default /\
    (snd (intensity_range props) + odor_variation default
     <= odor_threshold default ->
     isSignificant r = false /\ status r = "normal").
Proof.
  apply odor_intensity_near_type_range;
    try (split; vm_compute; [discriminate|reflexivity]).
  vm_compute; discriminate.
Defined.

(** X18: the heaviest weight vector is out of reach for a correlation
    between 0 and 0.8, hence for the default 0.7 and for the session's
    sensor: whatever the fill level, the weights are those of one of the
    three lower buckets. *)
Theorem odor_top_bucket_unreachable (s : t) (fill_level : Q) :
  0 <= fill_level_correlation s -> fill_level_correlation s <= 0.8 ->
  snd (odor_distribution s (Some fill_level)) = [0.3; 0.2; 0.3; 0.2] \/
  snd (odor_distribution s (Some fill_level)) = [0.1; 0.2; 0.2; 0.5] \/
  snd (odor_distribution s (Some fill_level)) = [0.05; 0.1; 0.1; 0.75].
Proof.
  intros H0 H1. unfold odor_distribution.
  pose proof (pymin_le_r (fill_level / 100.0) 1.0) as Hp.
  set (p := pymin (fill_level / 100.0) 1.0) in *.
  assert (E : Qltb 0.8 (p * fill_level_correlation s) = false).
  { apply Qltb_ge. destruct (Qlt_le_dec p 0); nra. }
  rewrite E.
  destruct (Qltb 0.5 _); [left; reflexivity|].
  destruct (Qltb 0.2 _); [right; left; reflexivity|right; right; reflexivity].
Qed.

Lemma odor_top_bucket_unreachable_witness :
  snd (odor_distribution default (Some 100)) = [0.3; 0.2; 0.3; 0.2] \/
  snd (odor_distribution default (Some 100)) = [0.1; 0.2; 0.2; 0.5] \/
  snd (odor_distribution default (Some 100)) = [0.05; 0.1; 0.1; 0.75].
Proof.
  apply odor_top_bucket_unreachable; vm_compute; discriminate.
Defined.

(** X19: [set_odor] ignores an odor type that is not a key of
    [ODOR_TYPES], intensity included; for a known type it stores the type
    and the intensity clamped to the interval from 0 to 1. *)
Theorem set_odor_known_types_only (s : t) (ty : string) (i : Q) :
  (~ In ty (keys ODOR_TYPES) -> set_odor s ty i = s) /\
  (In ty (keys ODOR_TYPES) ->
   current_odor_type (set_odor s ty i) = ty /\
   (0 <= current_intensity (set_odor s ty i) /\
    current_intensity (set_odor s ty i) <= 1) /\
   (0 <= i -> i <= 1 -> current_intensity (set_odor s ty i) == i) /\
   (odor_threshold (set_odor s ty i),
    fill_level_correlation (set_odor s ty i),
    odor_variation (set_odor s ty i))
   = (odor_threshold s, fill_level_correlation s, odor_variation s)).
Proof.
  unfold set_odor. split.
  - intros Hn. unfold ODOR_TYPES in *. cbn [assoc_get keys fmap list_fmap
      fst] in *.
    repeat match goal with
           | |- context [String.eqb ?a ty] =>
               destruct (String.eqb_spec a ty);
               [exfalso; apply Hn; cbn; tauto|]
           end.
    reflexivity.
  - intros Hin. destruct (odor_types_known ty Hin) as [props ->].
    cbn [is_ok current_odor_type current_intensity with_odor
         odor_threshold fill_level_correlation odor_variation].
    destruct (clamp_cases 0.0 1.0 i) as [C|[C|C]]; [lra|..];
      repeat split; try lra; intros; lra.
Qed.

Lemma set_odor_known_types_only_witness :
  ~ In "smoke" (keys ODOR_TYPES) /\
  set_odor default "smoke" 0.9 = default /\
  current_odor_type (set_odor default "mold" 0.9) = "mold".
Proof.
  assert (H : ~ In "smoke" (keys ODOR_TYPES)).
  { cbn. intros [E|[E|[E|[E|[]]]]]; discriminate E. }
  split; [exact H|]. split.
  - apply (proj1 (set_odor_known_types_only default "smoke" 0.9) H).
  - apply (proj2 (set_odor_known_types_only default "mold" 0.9)).
    cbn. tauto.
Defined.

End OdorMore.

(** ** Recyclable detector, continued *)

Section RecyclableMore.
Import RecyclableSensor.
Context {TM : Type}.
Variable award_tokens :
  TM -> string -> string -> string -> Q -> string -> (bool * Q) * TM.

(** When [random.choices] raises for one draw it raises for every
    generator. *)
Lemma choices_raises {A} (pop : list A) (ws : list Q) (r : Q) (e : PyExc)
    (g : Rng) :
  choices_of pop ws r = Raise e ->
  exists e' g', choices pop ws g = (Raise e', g').
Proof.
  intros H. unfold choices.
  destruct (negb (length (accumulate ws) =? length pop)%nat) eqn:E1.
  { unfold ret, choices_of. rewrite E1. eauto. }
  destruct (last (accumulate ws)) as [total|] eqn:E2.
  2:{ unfold ret, choices_of. rewrite E1, E2. eauto. }
  destruct (Qleb total 0) eqn:E3.
  { unfold ret, choices_of. rewrite E1, E2, E3. eauto. }
  exfalso.
  apply negb_false_iff, Nat.eqb_eq in E1.
  unfold accumulate in E1. rewrite accumulate_from_length in E1.
  assert (Hne : pop <> []).
  { intros ->. destruct ws; [discriminate E2|discriminate E1]. }
  apply Qleb_gt in E3.
  destruct (choices_of_total pop ws r total E1 Hne E2 E3) as (x & Hx & _).
  rewrite Hx in H. discriminate.
Qed.

(** The two ways [read] returns a dictionary. *)
Lemma read_ok_inv (s : t) (tm : TM) (now : string) (g : Rng)
    (d : gmap string PyVal) (tm' : TM) (g' : Rng) :
  read award_tokens s tm now g = (Ok d, tm', g') ->
  (0.9 < peek g 0 /\ d = no_detection /\ tm' = tm) \/
  (exists mt props st,
     peek g 0 <= 0.9 /\
     choices_of (keys (detection_probabilities s))
       (values (detection_probabilities s)) (peek g 1) = Ok mt /\
     assoc_get MATERIAL_TYPES mt = Ok props /\
     choice_of (subtypes props) (peek g 2) = Ok st /\
     let w :=
       pyround
         (uniform_of (fst (weight_range props)) (snd (weight_range props))
            (peek g 3)) 3 in
     d = detection mt st w (density props)
           (fst (award award_tokens s tm mt st w now)) (current_user_id s) /\
     tm' = snd (award award_tokens s tm mt st w now)).
Proof.
  unfold read. unfold bind at 1. unfold random at 1. cbv beta iota.
  rewrite peek_0.
  destruct (Qltb 0.9 (peek g 0)) eqn:E0.
  { intros [= <- <- _]. left. apply Qltb_lt in E0. auto. }
  apply Qltb_ge in E0. unfold bind at 1.
  set (g1 := mkRng (draws g) (S (cursor g))).
  destruct (choices_of (keys (detection_probabilities s))
              (values (detection_probabilities s)) (peek g 1))
    as [mt|e] eqn:Ec.
  2:{ destruct (choices_raises _ _ _ _ g1 Ec) as (e' & g2 & ->).
      discriminate. }
  rewrite (choices_consumes _ _ _ _ g1 Ec).
  unfold g1. rewrite peek_next, Ec.
  destruct (assoc_get MATERIAL_TYPES mt) as [props|e] eqn:Ep;
    [|discriminate].
  destruct (material_props_facts mt props Ep) as (Hlen & _).
  assert (Hne : subtypes props <> []).
  { intros E. rewrite E in Hlen. discriminate. }
  unfold bind at 1. rewrite (choice_consumes _ _ Hne).
  rewrite !peek_next.
  destruct (choice_of (subtypes props) (peek g 2)) as [st|e] eqn:Es;
    [|discriminate].
  destruct (weight_range props) as [mn mx] eqn:Ew. cbn [fst snd].
  unfold uniform, bind, ret, random. cbv beta iota. cbn [draws cursor].
  replace (draws g (S (S (S (cursor g))))) with (peek g 3)
    by (unfold peek; f_equal; lia).
  destruct (award award_tokens s tm mt st _ now) as [tk tm2] eqn:Ea.
  intros [= <- <- _]. right. exists mt, props, st.
  cbv zeta. rewrite Ew. cbn [fst snd]. rewrite Ea. cbn [fst snd].
  auto 10.
Qed.

Lemma assoc_get_missing {V} (d : list (string * V)) (k : string) :
  ~ In k (keys d) -> assoc_get d k = Raise (KeyError k).
Proof.
  induction d as [|[k' v] d IH]; intros H; cbn [assoc_get].
  - reflexivity.
  - destruct (String.eqb_spec k' k) as [->|N].
    + exfalso. apply H. cbn. now left.
    + apply IH. intros Hin. apply H. cbn. now right.
Qed.

(** X21: the detection probabilities are not checked against the
    material table.  When the weighted choice returns a key that
    [MATERIAL_TYPES] does not have, [read] raises KeyError for that key
    and leaves the token manager untouched. *)
Theorem unknown_material_raises_key_error (s : t) (tm : TM) (now : string)
    (g : Rng) (mt : string) :
  peek g 0 <= 0.9 ->
  choices_of (keys (detection_probabilities s))
    (values (detection_probabilities s)) (peek g 1) = Ok mt ->
  ~ In mt (keys MATERIAL_TYPES) ->
  read award_tokens s tm now g
  = (Raise (KeyError mt), tm, mkRng (draws g) (S (S (cursor g)))).
Proof.
  intros H0 Hc Hn.
  unfold read. unfold bind at 1. unfold random at 1. cbv beta iota.
  rewrite peek_0. apply Qltb_ge in H0. rewrite H0.
  unfold bind at 1.
  rewrite (choices_consumes _ _ _ _ (mkRng (draws g) (S (cursor g))) Hc).
  rewrite peek_next, Hc, (assoc_get_missing _ _ Hn). reflexivity.
Qed.

(** X22: every detection carries a material of the table, one of that
    material's subtypes, its density, and a weight inside the material's
    weight range, hence between 0.01 and 2 kg. *)
Theorem detection_within_catalog (s : t) (tm : TM) (now : string)
    (g : Rng) (d : gmap string PyVal) (tm' : TM) (g' : Rng) :
  read award_tokens s tm now g = (Ok d, tm', g') ->
  d !! "materialDetected" = Some (VBool true) ->
  unit_draw (peek g 3) ->
  exists mt props st w,
    assoc_get MATERIAL_TYPES mt = Ok props /\
    In st (subtypes props) /\
    d !! "materialType" = Some (VStr mt) /\
    d !! "materialSubtype" = Some (VStr st) /\
    d !! "density" = Some (VFloat (density props)) /\
    d !! "weight" = Some (VFloat w) /\
    (fst (weight_range props) <= w /\ w <= snd (weight_range props)) /\
    (0.01 <= w /\ w <= 2).
Proof.
  intros Hread Hdet Hu.
  destruct (read_ok_inv s tm now g d tm' g' Hread)
    as [(_ & -> & _)|(mt & props & st & _ & _ & Hp & Hst & Hd & _)].
  { vm_compute in Hdet. discriminate. }
  cbv zeta in Hd. subst d.
  destruct (material_props_facts mt props Hp) as (_ & Hle & G1 & G2).
  destruct (uniform_of_bounds _ _ (peek g 3) Hle Hu) as [U0 U1].
  set (w := pyround _ 3).
  assert (Hw : fst (weight_range props) <= w /\ w <= snd (weight_range props)).
  { split; [now apply pyround_ge|now apply pyround_le]. }
  assert (Hr : 0.01 <= fst (weight_range props) /\
               snd (weight_range props) <= 2).
  { clear - Hp. revert Hp. unfold MATERIAL_TYPES. cbn [assoc_get].
    repeat (destruct (String.eqb _ mt);
            [intros [= <-]; cbn [weight_range fst snd];
             split; apply Qleb_le; reflexivity|]).
    discriminate. }
  pose proof (detection_items mt st w (density props)
                (fst (award award_tokens s tm mt st w now))
                (current_user_id s)) as (_ & I2 & I3 & I4 & I5 & _).
  exists mt, props, st, w.
  split; [exact Hp|]. split.
  { unfold choice_of in Hst.
    destruct (nth_error (subtypes props) _) eqn:E; [|discriminate].
    injection Hst as <-. eapply nth_error_In; eassumption. }
  repeat split; try assumption; lra.
Qed.

(** The last cumulative weight of a non-empty list of weights. *)
Lemma accumulate_last_total (ws : list Q) :
  ws <> [] -> last (accumulate ws) = Some (fold_left Qplus ws 0).
Proof.
  unfold accumulate. generalize 0 as acc.
  induction ws as [|w ws IH]; intros acc Hne; [congruence|].
  destruct ws as [|w' ws]; [reflexivity|].
  change (last (accumulate_from (acc + w) (w' :: ws))
          = Some (fold_left Qplus (w' :: ws) (acc + w))).
  apply IH. discriminate.
Qed.

(** X20: probabilities that [set_detection_probabilities] accepts are
    installed, with the token manager and the current user as they were,
    and their sum lies between 0.99 and 1.01; when every key is a material
    of the table, [read] on the sensor so configured returns a dictionary
    and never raises. *)
Theorem validated_probabilities_read_returns (s s' : t)
    (d : list (string * Q)) :
  set_detection_probabilities s d = Ok s' ->
  (0.99 <= sum_values d /\ sum_values d <= 1.01) /\
  detection_probabilities s' = d /\
  token_manager s' = token_manager s /\
  current_user_id s' = current_user_id s /\
  (Forall (fun k => In k (keys MATERIAL_TYPES)) (keys d) ->
   forall (tm : TM) (now : string) (g : Rng),
     unit_draw (peek g 2) ->
     exists r, fst (fst (read award_tokens s' tm now g)) = Ok r).
Proof.
  unfold set_detection_probabilities.
  destruct (Qleb 0.99 (sum_values d)) eqn:A; [|discriminate].
  destruct (Qleb (sum_values d) 1.01) eqn:B; [|discriminate].
  cbn [andb negb]. intros [= <-]. cbn [detection_probabilities
    token_manager current_user_id].
  apply Qleb_le in A, B.
  split; [split; assumption|]. repeat (split; [reflexivity|]).
  intros Hk tm now g Hu.
  set (s' := mk d (token_manager s) (current_user_id s)).
  destruct (Qlt_le_dec 0.9 (peek g 0)) as [Hno|Hyes].
  - rewrite (read_no_detection award_tokens s' tm now g Hno). eauto.
  - assert (Hne : values d <> []).
    { intros E. unfold sum_values in A. rewrite E in A. cbn in A. lra. }
    destruct (choices_of_total (keys d) (values d) (peek g 1)
                (fold_left Qplus (values d) 0))
      as (mt & Hmt & Hin).
    + unfold keys, values. now rewrite !length_fmap.
    + intros E. apply Hne. unfold keys, values in *.
      destruct d; [reflexivity|discriminate].
    + now apply accumulate_last_total.
    + unfold sum_values in A. lra.
    + rewrite List.Forall_forall in Hk. specialize (Hk mt Hin).
      destruct (assoc_get MATERIAL_TYPES mt) as [props|e] eqn:Hp.
      2:{ exfalso. revert Hk Hp. unfold MATERIAL_TYPES, keys.
          cbn [fmap list_fmap fst assoc_get In].
          intros [<-|[<-|[<-|[<-|[<-|[]]]]]]; discriminate. }
      destruct (read_detection award_tokens s' tm now g mt props Hyes Hmt
                  Hp Hu) as (st & _ & _ & Hread).
      cbv zeta in Hread. rewrite Hread. eauto.
Qed.

End RecyclableMore.

(** What one reading of the detector does to the ledger: nothing, or one
    award call, whose weight is at least 0.01 kg.  The awards of a session
    therefore meet the condition on the weights under which the ledger's
    balances stay non-negative. *)
Lemma detector_awards_weighed (s : RecyclableSensor.t) (tm : TokenManager.t)
    (now : string) (g : Rng) (d : gmap string PyVal) (tm' : TokenManager.t)
    (g' : Rng) :
  RecyclableSensor.read TokenManager.award_tokens s tm now g
  = (Ok d, tm', g') ->
  unit_draw (peek g 3) ->
  tm' = tm \/
  exists uid mt st w,
    0.01 <= w /\
    tm' = TokenManager.run tm [TokenManager.Award uid mt st w now] /\
    award_weights_nonneg [TokenManager.Award uid mt st w now].
Proof.
  intros Hread Hu.
  destruct (read_ok_inv TokenManager.award_tokens s tm now g d tm' g' Hread)
    as [(_ & _ & ->)|(mt & props & st & _ & _ & Hp & _ & _ & Htm)];
    [now left|].
  cbv zeta in Htm.
  destruct (material_props_facts mt props Hp) as (_ & Hle & G1 & G2).
  destruct (uniform_of_bounds _ _ (peek g 3) Hle Hu) as [U0 U1].
  set (w := pyround
              (uniform_of (fst (RecyclableSensor.weight_range props))
                 (snd (RecyclableSensor.weight_range props)) (peek g 3)) 3)
    in *.
  assert (Hw : fst (RecyclableSensor.weight_range props) <= w)
    by now apply pyround_ge.
  assert (Hr : 0.01 <= fst (RecyclableSensor.weight_range props)).
  { clear - Hp. revert Hp. unfold RecyclableSensor.MATERIAL_TYPES.
    cbn [assoc_get].
    repeat (destruct (String.eqb _ mt);
            [intros [= <-]; cbn [RecyclableSensor.weight_range fst];
             apply Qleb_le; reflexivity|]).
    discriminate. }
  unfold RecyclableSensor.award in Htm.
  destruct (RecyclableSensor.token_manager s) as [[]|]; [|now left].
  destruct (RecyclableSensor.user_id_set (RecyclableSensor.current_user_id s))
    as [uid|]; [|now left].
  right. exists uid, mt, st, w.
  split; [lra|]. split.
  - rewrite Htm. cbn [TokenManager.run TokenManager.step].
    destruct (TokenManager.award_tokens tm uid mt st w now) as [[ok tk] l'].
    reflexivity.
  - constructor; [lra|constructor].
Qed.

(** Probabilities over paper and glass only, accepted by the setter: the
    reading for the draws 0.5, 0.5, 0.1, 0.5 is a detection. *)
Lemma validated_probabilities_read_returns_witness :
  let d := [("paper", 0.6); ("glass", 0.4)] in
  let s := WasteBinIoTSimulation.recyclable_sensor in
  let g := rng_of [0.5; 0.5; 0.1; 0.5] in
  exists s' r,
    RecyclableSensor.set_detection_probabilities s d = Ok s' /\
    RecyclableSensor.detection_probabilities s' = d /\
    fst (fst (RecyclableSensor.read TokenManager.award_tokens s'
                example_ledger "t0" g)) = Ok r.
Proof.
  cbv zeta.
  set (d := [("paper", 0.6); ("glass", 0.4)]).
  set (s' := RecyclableSensor.mk d
               (RecyclableSensor.token_manager
                  WasteBinIoTSimulation.recyclable_sensor)
               (RecyclableSensor.current_user_id
                  WasteBinIoTSimulation.recyclable_sensor)).
  assert (Hs : RecyclableSensor.set_detection_probabilities
                 WasteBinIoTSimulation.recyclable_sensor d = Ok s')
    by (vm_compute; reflexivity).
  destruct (validated_probabilities_read_returns
              TokenManager.award_tokens
              WasteBinIoTSimulation.recyclable_sensor s' d Hs)
    as (_ & Hd & _ & _ & Hread).
  destruct (Hread ltac:(repeat constructor; cbn; tauto)
              example_ledger "t0" (rng_of [0.5; 0.5; 0.1; 0.5]))
    as (r & Hr).
  - split; vm_compute; [discriminate|reflexivity].
  - exists s', r. split; [exact Hs|]. split; [exact Hd|exact Hr].
Defined.


(** A sensor configured with a material the table does not have:
    [set_detection_probabilities] accepts the weights, [read] raises. *)
Lemma unknown_material_raises_key_error_witness :
  let g := rng_of [0.5; 0.5] in
  exists s,
    RecyclableSensor.set_detection_probabilities
      WasteBinIoTSimulation.recyclable_sensor [("wood", 1.0)] = Ok s /\
    RecyclableSensor.read TokenManager.award_tokens s example_ledger "t0" g
    = (Raise (KeyError "wood"), example_ledger, mkRng (draws g) 2).
Proof.
  cbv zeta. eexists. split; [vm_compute; reflexivity|].
  apply (unknown_material_raises_key_error TokenManager.award_tokens).
  - vm_compute. discriminate.
  - vm_compute. reflexivity.
  - cbn. intros [E|[E|[E|[E|[E|[]]]]]]; discriminate E.
Defined.

Lemma detection_within_catalog_witness :
  let s :=
    RecyclableSensor.set_current_user
      WasteBinIoTSimulation.recyclable_sensor (Some "u1") in
  let g := rng_of [0.5; 0.5; 0.1; 0.5] in
  exists mt props st w,
    assoc_get RecyclableSensor.MATERIAL_TYPES mt = Ok props /\
    In st (RecyclableSensor.subtypes props) /\
    fst (fst (RecyclableSensor.read TokenManager.award_tokens s
                example_ledger "t0" g))
    = Ok (RecyclableSensor.detection mt st w
            (RecyclableSensor.density props) 0.51 (Some "u1")) /\
    (0.01 <= w /\ w <= 2).
Proof.
  cbv zeta.
  set (s := RecyclableSensor.set_current_user
              WasteBinIoTSimulation.recyclable_sensor (Some "u1")).
  set (g := rng_of [0.5; 0.5; 0.1; 0.5]).
  destruct (RecyclableSensor.read TokenManager.award_tokens s
              example_ledger "t0" g) as [[res tm'] g'] eqn:E.
  assert (Hres : res
                 = Ok (RecyclableSensor.detection "plastic" "PET bottle"
                         0.255 35.0 0.51 (Some "u1"))).
  { apply (f_equal (fun x => fst (fst x))) in E. cbn [fst] in E.
    rewrite <- E. vm_compute. reflexivity. }
  subst res.
  destruct (detection_within_catalog TokenManager.award_tokens s
              example_ledger "t0" g _ tm' g' E)
    as (mt & props & st & w & Hp & Hin & Hmt & Hst & _ & Hw & _ & Hr).
  - vm_compute. reflexivity.
  - split; vm_compute; [discriminate|reflexivity].
  - vm_compute in Hmt, Hst, Hw.
    injection Hmt as <-. injection Hst as <-. injection Hw as <-.
    exists "plastic", props, "PET bottle", 0.255.
    split; [exact Hp|]. split; [exact Hin|]. split; [|exact Hr].
    cbn [fst]. f_equal.
    vm_compute in Hp. injection Hp as <-. reflexivity.
Defined.

(** ** Detection for a given user, and the telemetry of a detection *)

Section DetectForUser.
Context {TM : Type}.
Variable award_tokens :
  TM -> string -> string -> string -> Q -> string -> (bool * Q) * TM.

(** A [read] that raises has not touched the token manager. *)
Lemma read_raise_inv (s : RecyclableSensor.t) (tm : TM) (now : string)
    (g : Rng) (e : PyExc) (tm' : TM) (g' : Rng) :
  RecyclableSensor.read award_tokens s tm now g = (Raise e, tm', g') ->
  tm' = tm.
Proof.
  unfold RecyclableSensor.read, bind, ret.
  repeat match goal with
         | |- context [let (_, _) := ?c in _] => destruct c
         | |- context [match ?c with Ok _ => _ | Raise _ => _ end] =>
             destruct c
         | |- context [if ?c then _ else _] => destruct c
         end;
    intros [= ]; congruence.
Qed.

(** X23: [detect_recyclable_for_user] installs the user in the sensor and
    reports it: a detection carries that user as userId.  Without a token
    manager, or with no user or an empty user id, the manager is left
    untouched and a detection reports 0.0 tokens; a call that raises
    leaves the manager untouched as well. *)
Theorem detect_for_user_reports_user (s : RecyclableSensor.t)
    (uid : option string) (tm : TM) (now : string) (g : Rng) :
  let out := detect_recyclable_for_user award_tokens s uid tm now g in
  let res := fst (fst (fst out)) in
  let tm' := snd (fst (fst out)) in
  let s' := snd (fst out) in
  RecyclableSensor.current_user_id s' = uid /\
  RecyclableSensor.detection_probabilities s'
  = RecyclableSensor.detection_probabilities s /\
  RecyclableSensor.token_manager s' = RecyclableSensor.token_manager s /\
  (forall d,
     res = Ok d -> d !! "materialDetected" = Some (VBool true) ->
     d !! "userId" = Some (RecyclableSensor.val_of_user_id uid)) /\
  (RecyclableSensor.token_manager s = None \/ uid = None \/ uid = Some "" ->
   tm' = tm /\
   forall d,
     res = Ok d -> d !! "materialDetected" = Some (VBool true) ->
     d !! "tokensAwarded" = Some (VFloat 0.0)) /\
  (forall e, res = Raise e -> tm' = tm).
Proof.
  cbv zeta. unfold detect_recyclable_for_user, bind, ret.
  set (s1 := RecyclableSensor.set_current_user s uid).
  destruct (RecyclableSensor.read award_tokens s1 tm now g)
    as [[res tm'] g'] eqn:E.
  cbn [fst snd].
  split; [reflexivity|]. split; [reflexivity|]. split; [reflexivity|].
  split; [|split].
  - intros d -> Hdet.
    destruct (read_ok_inv award_tokens s1 tm now g d tm' g' E)
      as [(_ & -> & _)|(mt & props & st & _ & _ & _ & _ & Hd & _)].
    { vm_compute in Hdet. discriminate. }
    cbv zeta in Hd. subst d. apply detection_items.
  - intros Hnone.
    assert (Haw : forall mt st w,
               RecyclableSensor.award award_tokens s1 tm mt st w now
               = (0.0, tm)).
    { intros mt st w. apply award_spec.
      destruct Hnone as [N|[N|N]]; [now left|right..];
        unfold s1; cbn [RecyclableSensor.current_user_id
                        RecyclableSensor.set_current_user];
        rewrite N; reflexivity. }
    destruct res as [d|e].
    + destruct (read_ok_inv award_tokens s1 tm now g d tm' g' E)
        as [(_ & -> & ->)|(mt & props & st & _ & _ & _ & _ & Hd & Ht)].
      { split; [reflexivity|]. intros d [= <-] Hdet.
        vm_compute in Hdet. discriminate. }
      cbv zeta in Hd, Ht. rewrite Haw in Hd, Ht. cbn [fst snd] in Hd, Ht.
      split; [exact Ht|]. intros d' [= <-] _. subst d.
      apply detection_items.
    + split; [exact (read_raise_inv s1 tm now g e tm' g' E)|].
      intros d [=].
  - intros e ->. exact (read_raise_inv s1 tm now g e tm' g' E).
Qed.

(** Lookups in a dictionary written as a chain of insertions. *)
Ltac map_lookup :=
  repeat first
    [ rewrite lookup_insert_eq
    | rewrite lookup_insert_ne by discriminate
    | rewrite lookup_empty ].

(** The composite record's recyclable entry of a reading that has the
    key materialDetected. *)
Lemma combined_recyclable_items (d : gmap string PyVal) (v : PyVal) :
  d !! "materialDetected" = Some v ->
  exists p,
    WasteBinIoTSimulation.combined_recyclable d = Ok p /\
    p !! "materialDetected" = Some v /\
    p !! "materialType" = Some (dict_get d "materialType" (VStr "")) /\
    p !! "materialSubtype" = Some (dict_get d "materialSubtype" (VStr "")) /\
    p !! "weight" = Some (dict_get d "weight" (VFloat 0.0)) /\
    p !! "weightUnit" = Some (dict_get d "weightUnit" (VStr "kg")) /\
    p !! "tokensAwarded" = Some (dict_get d "tokensAwarded" (VInt 0)).
Proof.
  intros H. unfold WasteBinIoTSimulation.combined_recyclable, dict_item.
  rewrite H. eexists. split; [reflexivity|].
  repeat split; map_lookup; reflexivity.
Qed.

(** The telemetry of a recyclable entry that has its six keys. *)
Lemma format_recyclable_items (p : gmap string PyVal)
    (v ty sub w u tk : PyVal) :
  p !! "materialDetected" = Some v ->
  p !! "materialType" = Some ty ->
  p !! "materialSubtype" = Some sub ->
  p !! "weight" = Some w ->
  p !! "weightUnit" = Some u ->
  p !! "tokensAwarded" = Some tk ->
  exists t,
    format_recyclable_telemetry p = Ok t /\
    t !! "materialDetected" = Some v /\
    t !! "materialType" = Some (if py_truth v then ty else VStr "") /\
    t !! "materialSubtype" = Some (if py_truth v then sub else VStr "") /\
    t !! "materialWeight" = Some (if py_truth v then w else VFloat 0.0) /\
    t !! "materialWeightUnit" = Some u /\
    t !! "tokensAwarded" = Some tk.
Proof.
  intros H1 H2 H3 H4 H5 H6.
  unfold format_recyclable_telemetry, item_if_detected, dict_item, rbind.
  rewrite H1, H5, H6.
  destruct (py_truth v); rewrite ?H2, ?H3, ?H4;
    (eexists; split; [reflexivity|]; repeat split; map_lookup; reflexivity).
Qed.

(** X24: whatever [read] returned, the composite record and the
    telemetry are built without a KeyError.  For a reading without
    detection the telemetry has an empty material type and subtype,
    weight 0.0 and 0 tokens awarded; for a detection it carries the
    reading's type, subtype, weight and tokens. *)
Theorem telemetry_of_every_reading (s : RecyclableSensor.t) (tm : TM)
    (now : string) (g : Rng) (d : gmap string PyVal) (tm' : TM)
    (g' : Rng) :
  RecyclableSensor.read award_tokens s tm now g = (Ok d, tm', g') ->
  exists payload telemetry,
    WasteBinIoTSimulation.combined_recyclable d = Ok payload /\
    format_recyclable_telemetry payload = Ok telemetry /\
    telemetry !! "materialDetected" = d !! "materialDetected" /\
    telemetry !! "materialWeightUnit" = Some (VStr "kg") /\
    (d !! "materialDetected" = Some (VBool false) ->
     telemetry !! "materialType" = Some (VStr "") /\
     telemetry !! "materialSubtype" = Some (VStr "") /\
     telemetry !! "materialWeight" = Some (VFloat 0.0) /\
     telemetry !! "tokensAwarded" = Some (VInt 0)) /\
    (d !! "materialDetected" = Some (VBool true) ->
     telemetry !! "materialType" = d !! "materialType" /\
     telemetry !! "materialSubtype" = d !! "materialSubtype" /\
     telemetry !! "materialWeight" = d !! "weight" /\
     telemetry !! "tokensAwarded" = d !! "tokensAwarded").
Proof.
  intros Hread.
  destruct (read_ok_inv award_tokens s tm now g d tm' g' Hread)
    as [(_ & -> & _)|(mt & props & st & _ & _ & _ & _ & Hd & _)].
  - pose proof no_detection_items
      as (I1 & I2 & I3 & I4 & I5 & I6 & _ & _).
    destruct (combined_recyclable_items _ _ I1)
      as (p & Hp & P1 & P2 & P3 & P4 & P5 & P6).
    unfold dict_get in P2, P3, P4, P5, P6.
    rewrite ?I2, ?I3, ?I4, ?I5, ?I6 in P2, P3, P4, P5, P6.
    destruct (format_recyclable_items p _ _ _ _ _ _ P1 P2 P3 P4 P5 P6)
      as (t & Ht & T1 & T2 & T3 & T4 & T5 & T6).
    cbn [py_truth] in T2, T3, T4.
    exists p, t. rewrite I1.
    split; [exact Hp|]. split; [exact Ht|]. split; [exact T1|].
    split; [exact T5|]. split; [intros _; auto|discriminate].
  - cbv zeta in Hd. subst d.
    match goal with
    | |- context [RecyclableSensor.detection ?a ?b ?c ?e ?f ?h] =>
        pose proof (detection_items a b c e f h)
          as (I1 & I2 & I3 & I4 & _ & I6 & _);
        set (d := RecyclableSensor.detection a b c e f h) in *
    end.
    assert (I5 : d !! "weightUnit" = Some (VStr "kg")).
    { unfold d, RecyclableSensor.detection. map_lookup. reflexivity. }
    destruct (combined_recyclable_items _ _ I1)
      as (p & Hp & P1 & P2 & P3 & P4 & P5 & P6).
    unfold dict_get in P2, P3, P4, P5, P6.
    rewrite ?I2, ?I3, ?I4, ?I5, ?I6 in P2, P3, P4, P5, P6.
    destruct (format_recyclable_items p _ _ _ _ _ _ P1 P2 P3 P4 P5 P6)
      as (t & Ht & T1 & T2 & T3 & T4 & T5 & T6).
    cbn [py_truth] in T2, T3, T4.
    exists p, t. rewrite I1, I2, I3, I4, I6.
    split; [exact Hp|]. split; [exact Ht|]. split; [exact T1|].
    split; [exact T5|]. split; [discriminate|intros _; auto].
Qed.

End DetectForUser.

Lemma telemetry_of_every_reading_witness :
  let s :=
    RecyclableSensor.set_current_user
      WasteBinIoTSimulation.recyclable_sensor (Some "u1") in
  let g := rng_of [0.95] in
  RecyclableSensor.read TokenManager.award_tokens s example_ledger "t0" g
  = (Ok RecyclableSensor.no_detection, example_ledger, mkRng (draws g) 1) /\
  exists payload telemetry,
    WasteBinIoTSimulation.combined_recyclable RecyclableSensor.no_detection
    = Ok payload /\
    format_recyclable_telemetry payload = Ok telemetry /\
    telemetry !! "tokensAwarded" = Some (VInt 0).
Proof.
  cbv zeta.
  assert (E : RecyclableSensor.read TokenManager.award_tokens
                (RecyclableSensor.set_current_user
                   WasteBinIoTSimulation.recyclable_sensor (Some "u1"))
                example_ledger "t0" (rng_of [0.95])
              = (Ok RecyclableSensor.no_detection, example_ledger,
                 mkRng (draws (rng_of [0.95])) 1))
    by (vm_compute; reflexivity).
  split; [exact E|].
  destruct (telemetry_of_every_reading TokenManager.award_tokens _ _ _ _ _
              _ _ E) as (p & t & Hp & Ht & _ & _ & Hno & _).
  exists p, t. split; [exact Hp|]. split; [exact Ht|].
  apply Hno. vm_compute. reflexivity.
Defined.

(** ** The loop of the continuous simulation *)

Section Loop.
Import ContinuousSimulation.
Context {TM : Type}.
Variable award_tokens :
  TM -> string -> string -> string -> Q -> string -> (bool * Q) * TM.

Lemma select_user_ok (us : list TokenManager.User) (c : nat) :
  us <> [] ->
  exists u, select_user us c = Ok u /\ In u us /\
            nth_error us (c mod length us) = Some u.
Proof.
  intros Hne. unfold select_user.
  destruct us as [|u0 us]; [congruence|].
  assert (Hlt : (c mod length (u0 :: us) < length (u0 :: us))%nat).
  { apply Nat.mod_upper_bound. cbn. lia. }
  destruct (nth_error (u0 :: us) (c mod length (u0 :: us))) as [u|] eqn:E.
  - exists u. split; [reflexivity|]. split; [|reflexivity].
    eapply nth_error_In; eassumption.
  - apply nth_error_None in E. lia.
Qed.

(** Computations on the generator that hand it on with the same
    stream. *)
Lemma bind_draws {A B} (c : Rand A) (k : A -> Rand B) (g : Rng) :
  (forall g0, draws (snd (c g0)) = draws g0) ->
  (forall a g0, draws (snd (k a g0)) = draws g0) ->
  draws (snd (bind c k g)) = draws g.
Proof.
  intros Hc Hk. unfold bind. specialize (Hc g).
  destruct (c g) as [a g1]. cbn [snd] in Hc. rewrite Hk. exact Hc.
Qed.

Lemma uniform_draws (a b : Q) (g : Rng) :
  draws (snd (uniform a b g)) = draws g.
Proof. reflexivity. Qed.

Lemma choices_draws {A} (pop : list A) (ws : list Q) (g : Rng) :
  draws (snd (choices pop ws g)) = draws g.
Proof.
  unfold choices.
  destruct (negb _); [reflexivity|].
  destruct (last (accumulate ws)); [|reflexivity].
  destruct (Qleb _ 0); reflexivity.
Qed.

Lemma choice_draws {A} (seq : list A) (g : Rng) :
  draws (snd (choice seq g)) = draws g.
Proof. destruct seq; reflexivity. Qed.

(** [read] of the recyclable sensor hands the generator on with the same
    stream. *)
Lemma recyclable_read_draws (s : RecyclableSensor.t) (tm : TM)
    (now : string) (g : Rng) :
  draws (snd (RecyclableSensor.read award_tokens s tm now g)) = draws g.
Proof.
  unfold RecyclableSensor.read.
  apply bind_draws; [reflexivity|]. intros r g0.
  destruct (Qltb 0.9 r); [reflexivity|].
  apply bind_draws; [apply choices_draws|]. intros [mt|e] g1;
    [|reflexivity].
  destruct (assoc_get RecyclableSensor.MATERIAL_TYPES mt) as [props|e];
    [|reflexivity].
  apply bind_draws; [apply choice_draws|]. intros [st|e] g2;
    [|reflexivity].
  destruct (RecyclableSensor.weight_range props) as [mn mx].
  apply bind_draws; [apply uniform_draws|]. intros w g3.
  destruct (RecyclableSensor.award award_tokens s tm mt st _ now).
  reflexivity.
Qed.

(** A sensor with the probabilities of the session never raises. *)
Lemma default_distribution_read_returns (s : RecyclableSensor.t) (tm : TM)
    (now : string) (g : Rng) :
  RecyclableSensor.detection_probabilities s
  = RecyclableSensor.default_detection_probabilities ->
  unit_draw (peek g 2) ->
  exists d, fst (fst (RecyclableSensor.read award_tokens s tm now g)) = Ok d.
Proof.
  intros Hd Hu.
  destruct (Qlt_le_dec 0.9 (peek g 0)) as [Hno|Hyes].
  - rewrite (read_no_detection award_tokens s tm now g Hno). eauto.
  - destruct (choices_of_total
                (keys (RecyclableSensor.detection_probabilities s))
                (values (RecyclableSensor.detection_probabilities s))
                (peek g 1) (0 + 0.3 + 0.4 + 0.15 + 0.1 + 0.05))
      as (mt & Hmt & Hin);
      [rewrite Hd; reflexivity|rewrite Hd; discriminate
      |rewrite Hd; reflexivity|reflexivity|].
    assert (Hp : exists props,
               assoc_get RecyclableSensor.MATERIAL_TYPES mt = Ok props).
    { rewrite Hd in Hin. cbn in Hin.
      destruct Hin as [<-|[<-|[<-|[<-|[<-|[]]]]]]; eexists; reflexivity. }
    destruct Hp as [props Hp].
    destruct (read_detection award_tokens s tm now g mt props
                Hyes Hmt Hp Hu) as (st & _ & _ & Hread).
    cbv zeta in Hread. rewrite Hread. eauto.
Qed.

(** One pass from a ready session completes. *)
Lemma ready_pass_completes (s : Session TM) (c : nat) (now : string)
    (g : Rng) :
  session_ready s -> unit_draws g ->
  exists r s' g',
    read_sensors award_tokens s c now g = (Ok r, s', g') /\
    session_ready s' /\ users s' = users s /\ draws g' = draws g /\
    nth_error (users s) (c mod length (users s)) = Some (current_user r) /\
    RecyclableSensor.current_user_id (recyclable_sensor s')
    = Some (TokenManager.user_id (current_user r)).
Proof.
  intros [Hus Hdp] Hg.
  unfold read_sensors, bind. 
  rewrite (gps_read_unfold (gps_sensor s) g). cbv beta iota zeta.
  set (g1 := mkRng (draws g) (S (S (cursor g)))).
  pose proof (temperature_step (temp_sensor s) g1) as (D2 & _ & _).
  cbv zeta in D2.
  destruct (TemperatureSensor.read (temp_sensor s) g1) as [[td ts'] g2].
  cbn [fst snd] in D2. cbv beta iota.
  destruct (select_user_ok (users s) c Hus) as (u & -> & _ & Hnth).
  set (rs := RecyclableSensor.set_current_user (recyclable_sensor s)
               (Some (TokenManager.user_id u))).
  pose proof (recyclable_read_draws rs (token_manager s) now g2)
    as D3.
  destruct (default_distribution_read_returns rs
              (token_manager s) now g2 Hdp) as [d Hd].
  { unfold peek. rewrite D2. apply Hg. }
  destruct (RecyclableSensor.read award_tokens rs (token_manager s) now g2)
    as [[res tm'] g3].
  cbn [fst snd] in D3, Hd. subst res. cbv beta iota.
  rewrite (read_unfold (fill_level_sensor s) g3). cbv beta iota zeta.
  set (g4 := mkRng (draws g3) (S (cursor g3))).
  cbn [FillLevelSensor.fillLevel].
  set (level := pyround _ 2).
  destruct (odor_read_shape (odor_sensor s) (Some level) g4)
    as (ty & props & _ & _ & Ho).
  cbv zeta in Ho. rewrite Ho. cbv beta iota.
  set (g5 := mkRng (draws g4) (S (S (S (cursor g4))))).
  destruct (humidity_read_ok (humidity_sensor s) (Some level) g5)
    as (hr & Hh & _). rewrite Hh. cbv beta iota.
  set (g6 := mkRng (draws g5) (S (cursor g5))).
  destruct (aqi_read_ok (air_quality_sensor s) (Some level)
              (Some (TemperatureSensor.temperature td)) g6)
    as (ar & Ha & _). rewrite Ha. cbv beta iota.
  unfold ret. do 3 eexists. split; [reflexivity|].
  cbn [users recyclable_sensor current_user draws].
  split; [split; assumption|].
  split; [reflexivity|]. split; [|split; [exact Hnth|reflexivity]].
  change (draws g3 = draws g). rewrite D3, D2. reflexivity.
Qed.

Lemma ready_run (n : nat) :
  forall (s : Session TM) (c : nat) (clock : nat -> string) (g : Rng),
    session_ready s -> unit_draws g ->
    let out := run_continuous_simulation award_tokens n s c clock g in
    Forall (fun r => is_ok r = true) (fst (fst (fst out))) /\
    length (fst (fst (fst out))) = n /\
    snd (fst out) = (c + n)%nat /\
    users (snd (fst (fst out))) = users s.
Proof.
  induction n as [|n IH]; intros s c clock g Hs Hg; cbv zeta.
  - cbn. repeat split; [constructor|lia].
  - cbn [run_continuous_simulation].
    destruct (ready_pass_completes s c (clock n) g Hs Hg)
      as (r & s' & g' & -> & Hs' & Hu & Hd & _).
    cbn [is_ok].
    assert (Hg' : unit_draws g') by (intros k; rewrite Hd; apply Hg).
    specialize (IH s' (S c) clock g' Hs' Hg'). cbv zeta in IH.
    destruct (run_continuous_simulation award_tokens n s' (S c) clock g')
      as [[[rest s''] m] g''].
    cbn [fst snd] in *. destruct IH as (A & B & C & D).
    split; [constructor; [reflexivity|exact A]|].
    split; [cbn [length]; lia|]. split; [lia|].
    rewrite D. exact Hu.
Qed.

(** X25: the sensor reads of the simulation never raise.  From the
    session [WasteBinIoTSimulation.__init__] builds, with at least one
    registered user, every pass of the loop completes all seven reads:
    after [n] passes there are [n] complete sets of readings and the
    reading count is [n]. *)
Theorem continuous_simulation_never_raises (n : nat) (tm : TM)
    (us : list TokenManager.User) (clock : nat -> string) (g : Rng) :
  us <> [] -> unit_draws g ->
  let out :=
    run_continuous_simulation award_tokens n (init tm us) 0 clock g in
  Forall (fun r => is_ok r = true) (fst (fst (fst out))) /\
  length (fst (fst (fst out))) = n /\
  snd (fst out) = n.
Proof.
  intros Hus Hg. cbv zeta.
  destruct (ready_run n (init tm us) 0 clock g) as (A & B & C & _);
    [split; [exact Hus|reflexivity]|exact Hg|].
  cbv zeta in *. repeat split; assumption.
Qed.

(** One pass without users. *)
Lemma pass_without_users (s : Session TM) (c : nat) (now : string)
    (g : Rng) :
  users s = [] ->
  exists s' g',
    read_sensors award_tokens s c now g = (Raise ZeroDivisionError, s', g') /\
    users s' = [] /\
    (recyclable_sensor s', fill_level_sensor s', odor_sensor s',
     humidity_sensor s', air_quality_sensor s', token_manager s')
    = (recyclable_sensor s, fill_level_sensor s, odor_sensor s,
       humidity_sensor s, air_quality_sensor s, token_manager s).
Proof.
  intros Hus. unfold read_sensors, bind.
  destruct (GPSSensor.read (gps_sensor s) g) as [[gd gs'] g1].
  destruct (TemperatureSensor.read (temp_sensor s) g1) as [[td ts'] g2].
  rewrite Hus. cbn [select_user]. unfold ret.
  do 2 eexists. split; [reflexivity|].
  cbn. split; [reflexivity|reflexivity].
Qed.

(** X26: without users the loop makes no progress.  Every pass reads GPS
    and temperature, then fails on the user selection with
    ZeroDivisionError: the reading count stays where it was and the
    recyclable, fill level, odor, humidity and air quality sensors and
    the token manager are never touched. *)
Theorem no_users_no_progress (n : nat) :
  forall (s : Session TM) (c : nat) (clock : nat -> string) (g : Rng),
    users s = [] ->
    let out := run_continuous_simulation award_tokens n s c clock g in
    let s' := snd (fst (fst out)) in
    Forall (fun r => r = Raise ZeroDivisionError) (fst (fst (fst out))) /\
    length (fst (fst (fst out))) = n /\
    snd (fst out) = c /\
    (recyclable_sensor s', fill_level_sensor s', odor_sensor s',
     humidity_sensor s', air_quality_sensor s', token_manager s')
    = (recyclable_sensor s, fill_level_sensor s, odor_sensor s,
       humidity_sensor s, air_quality_sensor s, token_manager s).
Proof.
  induction n as [|n IH]; intros s c clock g Hus; cbv zeta.
  - cbn. repeat split. constructor.
  - cbn [run_continuous_simulation].
    destruct (pass_without_users s c (clock n) g Hus)
      as (s1 & g1 & -> & Hus1 & Hsame).
    cbn [is_ok].
    specialize (IH s1 c clock g1 Hus1). cbv zeta in IH.
    destruct (run_continuous_simulation award_tokens n s1 c clock g1)
      as [[[rest s2] m] g2].
    cbn [fst snd] in *. destruct IH as (A & B & C & D).
    split; [constructor; [reflexivity|exact A]|].
    split; [cbn [length]; lia|]. split; [exact C|].
    rewrite D. exact Hsame.
Qed.

(** X27: the users take turns.  With [len] users, the pass with reading
    count [q * len + i] (for [i] below [len]) works for the user at
    index [i], so every user is served once in any [len] consecutive
    completed passes; with no user the selection divides by zero. *)
Theorem select_user_round_robin (us : list TokenManager.User) (q i : nat)
    (u : TokenManager.User) :
  nth_error us i = Some u ->
  select_user us (q * length us + i) = Ok u /\
  select_user [] i = Raise ZeroDivisionError.
Proof.
  intros H. split; [|reflexivity].
  assert (Hi : (i < length us)%nat).
  { apply nth_error_Some. congruence. }
  unfold select_user. destruct us as [|u0 us]; [cbn in Hi; lia|].
  rewrite Nat.add_comm, Nat.Div0.mod_add, Nat.mod_small by exact Hi.
  now rewrite H.
Qed.

End Loop.


Lemma continuous_simulation_never_raises_witness :
  let us := [TokenManager.mkUser "u1" "A" 0 []] in
  let out :=
    ContinuousSimulation.run_continuous_simulation
      TokenManager.award_tokens 3
      (ContinuousSimulation.init example_ledger us) 0 (fun _ => "t")
      (mkRng (fun _ => 0.5) 0) in
  Forall (fun r => is_ok r = true) (fst (fst (fst out))) /\
  length (fst (fst (fst out))) = 3%nat /\
  snd (fst out) = 3%nat.
Proof.
  apply (continuous_simulation_never_raises TokenManager.award_tokens).
  - discriminate.
  - intros k. split; vm_compute; [discriminate|reflexivity].
Defined.

Lemma no_users_no_progress_witness :
  let s := ContinuousSimulation.init example_ledger [] in
  let out :=
    ContinuousSimulation.run_continuous_simulation
      TokenManager.award_tokens 2 s 0 (fun _ => "t")
      (mkRng (fun _ => 0.5) 0) in
  Forall (fun r => r = Raise ZeroDivisionError) (fst (fst (fst out))) /\
  snd (fst out) = 0%nat /\
  ContinuousSimulation.fill_level_sensor (snd (fst (fst out)))
  = ContinuousSimulation.fill_level_sensor s.
Proof.
  cbv zeta.
  destruct (no_users_no_progress TokenManager.award_tokens 2
              (ContinuousSimulation.init example_ledger []) 0
              (fun _ => "t") (mkRng (fun _ => 0.5) 0) eq_refl)
    as (A & _ & C & D).
  split; [exact A|]. split; [exact C|].
  exact (f_equal (fun x => snd (fst (fst (fst (fst x))))) D).
Defined.

Lemma select_user_round_robin_witness :
  let a := TokenManager.mkUser "u1" "A" 0 [] in
  let b := TokenManager.mkUser "u2" "B" 0 [] in
  ContinuousSimulation.select_user [a; b] (3 * length [a; b] + 1) = Ok b /\
  ContinuousSimulation.select_user [] 1 = Raise ZeroDivisionError.
Proof.
  cbv zeta. apply select_user_round_robin. reflexivity.
Defined.

(** ** Correlation with the fill level *)

Section Correlation.





End Correlation.

